(** * AccuBooks: GST computation, invoice totals and period reports

    A shallow embedding of the tax and ledger code of the AccuBooks
    front end (React + supabase-js) and of the parts of its database
    schema the code relies on.

    - [CreateEditInvoice.tsx]: the form schema and [onSubmit];
    - [CreateEditExpense.tsx]: [calculateGSTAmounts] and [onSubmit];
    - [ProfitLossReport.tsx], [GSTReport.tsx]: the two period reports;
    - [ChartOfAccounts.tsx], [CompanyContext.tsx]: the accounts page and
      company creation;
    - the SQL migration: [create_default_accounts] and the delete policy
      on [accounts].

    JavaScript's [number] is an IEEE-754 binary64 value.  The code is
    embedded once, over an interface [Number] of the arithmetic it uses,
    and run at two instances: [F64] (Rocq's primitive binary64 floats,
    the arithmetic the program really performs) and [Dec] (canonical
    rationals, exact decimal arithmetic).

    The amounts are kept in columns of type [numeric(15,2)] and
    [numeric(5,2)]: the database rounds what it is sent to two
    decimals, a tie going away from zero, and that is what a later
    query reads. *)

From Stdlib Require Import ZArith List String Ascii Bool Permutation.
From Stdlib Require Import QArith Qround Qabs Qcanon.
From Stdlib Require Import Floats.
From Stdlib Require Import Lia.
Import ListNotations.
Close Scope Q_scope.
Close Scope Qc_scope.

Set Implicit Arguments.
Set Warnings "-inexact-float".

(** ** The arithmetic of the program *)

Declare Scope num_scope.
Delimit Scope num_scope with num.

Class Number (num : Type) : Type := {
  nlit : Z -> num;                 (* an integer literal: 0, 2, 100 *)
  nadd : num -> num -> num;        (* a + b *)
  nsub : num -> num -> num;        (* a - b *)
  nmul : num -> num -> num;        (* a * b *)
  ndiv : num -> num -> num;        (* a / b *)
  nabs : num -> num;               (* Math.abs(a) *)
  nltb : num -> num -> bool;       (* a < b *)
  nleb : num -> num -> bool;       (* a <= b *)
  nisnan : num -> bool;            (* Number.isNaN(a) *)
  nfalsy : num -> bool;            (* !a : true for 0, -0 and NaN *)
  ncolumn : num -> num;            (* a, sent to a numeric(p,2) column
                                      and read back *)
  ncolumn_zero : ncolumn (nlit 0) = nlit 0
}.

Infix "+" := nadd : num_scope.
Infix "-" := nsub : num_scope.
Infix "*" := nmul : num_scope.
Infix "/" := ndiv : num_scope.

(** ** Columns of type [numeric(p,2)]

    The migration declares every amount [numeric(15,2)] and every GST
    rate [numeric(5,2)].  PostgreSQL reads the decimal text it is sent
    exactly and rounds it to two decimals, a tie going away from zero.
    A value with too many digits before the point is refused with an
    error, as is the [null] that [JSON.stringify] writes for [NaN] and
    the infinities: those are among the requests a server refuses
    (see [Server] below). *)

Module Numeric.
Local Open Scope Q_scope.

(** [10^q] and [2^e] for an exponent of either sign. *)
Definition pow10 (q : Z) : Q :=
  match q with
  | Zneg p => 1 # (10 ^ p)
  | _ => inject_Z (10 ^ q)
  end.

Definition pow2 (e : Z) : Q :=
  match e with
  | Zneg p => 1 # (2 ^ p)
  | _ => inject_Z (2 ^ e)
  end.

(** The number of hundredths the column keeps of [x]: the nearest, a
    tie going away from zero. *)
Definition hundredths (x : Q) : Z :=
  let c := Qfloor (Qabs x * inject_Z 100 + (1 # 2)) in
  if Qle_bool 0 x then c else (- c)%Z.

(** The integer nearest to [t], a tie going to the even one. *)
Definition nearestEven (t : Q) : Z :=
  let c := Qfloor t in
  match Qcompare (t - inject_Z c) (1 # 2) with
  | Lt => c
  | Gt => (c + 1)%Z
  | Eq => if Z.even c then c else (c + 1)%Z
  end.

Definition isInteger (t : Q) : bool := Qeq_bool t (inject_Z (Qfloor t)).

(** Of the multiples [s * 10^q] between [lo] and [hi] (the two ends
    counted when [closed]), the [s] nearest to [v / 10^q], if there is
    a multiple at all. *)
Definition multipleIn (closed : bool) (lo v hi : Q) (q : Z) : option Z :=
  let tlo := lo / pow10 q in
  let thi := hi / pow10 q in
  let smin :=
    if closed || negb (isInteger tlo) then Qceiling tlo
    else (Qceiling tlo + 1)%Z in
  let smax :=
    if closed || negb (isInteger thi) then Qfloor thi
    else (Qfloor thi - 1)%Z in
  if (smin <=? smax)%Z
  then Some (Z.max smin (Z.min smax (nearestEven (v / pow10 q))))
  else None.

(** The multiple of the largest power of ten there is between [lo]
    and [hi], looked for from [10^q] downwards. *)
Fixpoint search (fuel : nat) (closed : bool) (lo v hi : Q) (q : Z) : Q :=
  match fuel with
  | O => v
  | S fuel' =>
      match multipleIn closed lo v hi q with
      | Some s => inject_Z s * pow10 q
      | None => search fuel' closed lo v hi (q - 1)
      end
  end.

(** The decimal that [Number::toString], and so [JSON.stringify],
    writes for the positive double [m * 2^e]: of the decimals that
    read back as that double (those nearer to it than to its
    neighbours, the midpoints counted when [m] is even), the one with
    the fewest digits, and of those the nearest. *)
Definition shortest (m : positive) (e : Z) : Q :=
  let v := inject_Z (Zpos m) * pow2 e in
  let up := pow2 (e - 1) in
  let down :=
    if (Pos.eqb m (2 ^ 52) && (-1074 <? e)%Z)%bool then pow2 (e - 2) else up in
  let closed := match m with xO _ => true | _ => false end in
  let magnitude := (Zpos (digits2_pos m) + e)%Z in
  search 40 closed (v - down) v (v + up) ((magnitude * 30103) / 100000 + 1).
End Numeric.

Module F64.
(** binary64, as JavaScript computes. *)
Definition of_Z (z : Z) : float :=
  if (z <? 0)%Z
  then PrimFloat.opp (PrimFloat.of_uint63 (Uint63.of_Z (- z)))
  else PrimFloat.of_uint63 (Uint63.of_Z z).

Definition falsy (x : float) : bool :=
  (PrimFloat.eqb x PrimFloat.zero || PrimFloat.is_nan x)%bool.

(** What comes back of [x] from a [numeric(p,2)] column: the decimal
    text of [x] rounded to hundredths, read as a double again.  The
    hundredths of an amount the column holds are below [2^53], so
    their quotient by 100 is the double nearest to the decimal. *)
Definition column (x : float) : float :=
  match Prim2SF x with
  | S754_zero _ => of_Z 0
  | S754_finite s m e =>
      let c := Numeric.hundredths (Numeric.shortest m e) in
      PrimFloat.div (of_Z (if s then - c else c)) (of_Z 100)
  | _ => x
  end.

#[global] Instance number : Number float := {|
  nlit := of_Z;
  nadd := PrimFloat.add;
  nsub := PrimFloat.sub;
  nmul := PrimFloat.mul;
  ndiv := PrimFloat.div;
  nabs := PrimFloat.abs;
  nltb := PrimFloat.ltb;
  nleb := PrimFloat.leb;
  nisnan := PrimFloat.is_nan;
  nfalsy := falsy;
  ncolumn := column;
  ncolumn_zero := eq_refl
|}.
End F64.

Module Dec.
(** exact decimal arithmetic on canonical rationals. *)
Definition of_Z (z : Z) : Qc := Q2Qc (inject_Z z).

Definition abs (x : Qc) : Qc := Q2Qc (Qabs x).

(** What a [numeric(p,2)] column keeps of [x]. *)
Definition column (x : Qc) : Qc :=
  Q2Qc (Qred (Numeric.hundredths (this x) # 100)).

#[global] Instance number : Number Qc := {|
  nlit := of_Z;
  nadd := Qcplus;
  nsub := Qcminus;
  nmul := Qcmult;
  ndiv := Qcdiv;
  nabs := abs;
  nltb := fun x y => negb (Qle_bool y x);
  nleb := fun x y => Qle_bool x y;
  nisnan := fun _ => false;
  nfalsy := fun x => Qc_eq_bool x (of_Z 0);
  ncolumn := column;
  ncolumn_zero := eq_refl
|}.

(** A decimal literal [m / 10^e]. *)
Definition dec (m : Z) (e : nat) : Qc := Q2Qc (m # Pos.of_nat (10 ^ e)).
End Dec.

(** [a || 0] on a number. *)
Definition orZero {num} `{Number num} (a : num) : num :=
  if nfalsy a then nlit 0 else a.

(** [xs.reduce((sum, x) => sum + f(x), 0)] *)
Definition reduceSum {num} `{Number num} {A} (f : A -> num) (xs : list A) : num :=
  fold_left (fun sum x => (sum + f x)%num) xs (nlit 0).

(** ** Supply types *)

Inductive SupplyType : Type :=
  | IntraState       (* 'Intra-State' *)
  | InterState       (* 'Inter-State' *)
  | NotApplicable.   (* 'Not Applicable' *)

Definition SupplyType_eqb (a b : SupplyType) : bool :=
  match a, b with
  | IntraState, IntraState | InterState, InterState
  | NotApplicable, NotApplicable => true
  | _, _ => false
  end.

(** ** The hosted database

    Rows as [Tables] of [lib/supabase.ts] types them ([created_at], which
    no code here reads, is left out).  Identifiers are uuids in text
    form; dates are ISO [yyyy-MM-dd] text, on which the lexicographic
    order is the calendar order. *)

Definition uuid : Type := string.
Definition date : Type := string.

Inductive InvoiceStatus : Type := Draft | Sent | Paid | Overdue.

Definition InvoiceStatus_eqb (a b : InvoiceStatus) : bool :=
  match a, b with
  | Draft, Draft | Sent, Sent | Paid, Paid | Overdue, Overdue => true
  | _, _ => false
  end.

Inductive AccountType : Type := Income | Expense | Asset | Liability.

Definition AccountType_eqb (a b : AccountType) : bool :=
  match a, b with
  | Income, Income | Expense, Expense | Asset, Asset
  | Liability, Liability => true
  | _, _ => false
  end.

Module company_profiles.
Record row : Type := {
  id : uuid;
  user_id : uuid;
  company_name : string;
  company_address : option string;
  gstin : option string;
  logo_url : option string;
  fiscal_year_start_month : Z
}.
End company_profiles.

Module accounts.
Record row : Type := {
  id : uuid;
  company_id : uuid;
  account_name : string;
  account_type : AccountType;
  is_default : bool
}.
End accounts.

Module invoices.
Record row (num : Type) : Type := {
  id : uuid;
  company_id : uuid;
  customer_name : string;
  customer_gstin : option string;
  invoice_number : string;
  invoice_date : date;
  due_date : option date;
  sub_total_amount : num;
  total_gst_amount : num;
  total_invoice_amount : num;
  status : InvoiceStatus;
  place_of_supply_type : SupplyType;
  notes : option string
}.

(** A row as the table keeps it: the three amounts are
    [numeric(15,2)]. *)
Definition stored {num} `{Number num} (r : row num) : row num :=
  {| id := id r;
     company_id := company_id r;
     customer_name := customer_name r;
     customer_gstin := customer_gstin r;
     invoice_number := invoice_number r;
     invoice_date := invoice_date r;
     due_date := due_date r;
     sub_total_amount := ncolumn (sub_total_amount r);
     total_gst_amount := ncolumn (total_gst_amount r);
     total_invoice_amount := ncolumn (total_invoice_amount r);
     status := status r;
     place_of_supply_type := place_of_supply_type r;
     notes := notes r |}.
End invoices.

Module invoice_items.
Record row (num : Type) : Type := {
  id : uuid;
  invoice_id : uuid;
  product_service_id : option string;
  item_description : string;
  quantity : num;
  rate : num;
  item_total_amount : num;
  gst_rate_percentage : num;
  cgst_amount : num;
  sgst_amount : num;
  igst_amount : num;
  item_gst_total : num
}.

(** A row as the table keeps it: quantity, rate and amounts are
    [numeric(15,2)], the GST rate [numeric(5,2)]. *)
Definition stored {num} `{Number num} (r : row num) : row num :=
  {| id := id r;
     invoice_id := invoice_id r;
     product_service_id := product_service_id r;
     item_description := item_description r;
     quantity := ncolumn (quantity r);
     rate := ncolumn (rate r);
     item_total_amount := ncolumn (item_total_amount r);
     gst_rate_percentage := ncolumn (gst_rate_percentage r);
     cgst_amount := ncolumn (cgst_amount r);
     sgst_amount := ncolumn (sgst_amount r);
     igst_amount := ncolumn (igst_amount r);
     item_gst_total := ncolumn (item_gst_total r) |}.
End invoice_items.

Module expenses.
Record row (num : Type) : Type := {
  id : uuid;
  company_id : uuid;
  vendor_name : option string;
  vendor_gstin : option string;
  expense_date : date;
  expense_description : string;
  expense_account_id : uuid;
  amount_before_gst : num;
  gst_rate_applied_on_purchase : num;
  gst_paid_amount : num;
  total_expense_amount : num;
  place_of_supply_type_for_purchase : SupplyType;
  cgst_input_credit : num;
  sgst_input_credit : num;
  igst_input_credit : num
}.

(** A row as the table keeps it: the amounts are [numeric(15,2)], the
    GST rate [numeric(5,2)]. *)
Definition stored {num} `{Number num} (r : row num) : row num :=
  {| id := id r;
     company_id := company_id r;
     vendor_name := vendor_name r;
     vendor_gstin := vendor_gstin r;
     expense_date := expense_date r;
     expense_description := expense_description r;
     expense_account_id := expense_account_id r;
     amount_before_gst := ncolumn (amount_before_gst r);
     gst_rate_applied_on_purchase := ncolumn (gst_rate_applied_on_purchase r);
     gst_paid_amount := ncolumn (gst_paid_amount r);
     total_expense_amount := ncolumn (total_expense_amount r);
     place_of_supply_type_for_purchase := place_of_supply_type_for_purchase r;
     cgst_input_credit := ncolumn (cgst_input_credit r);
     sgst_input_credit := ncolumn (sgst_input_credit r);
     igst_input_credit := ncolumn (igst_input_credit r) |}.
End expenses.

Module products_services.
Record row (num : Type) : Type := {
  id : uuid;
  company_id : uuid;
  item_name : string;
  hsn_sac_code : option string;
  default_sale_price : num;
  default_gst_rate : num
}.
End products_services.

(** [xs[index] = x] on a copy of [xs], for an index within it. *)
Fixpoint replaceAt {A} (index : nat) (x : A) (xs : list A) : list A :=
  match xs, index with
  | [], _ => []
  | _ :: rest, O => x :: rest
  | y :: rest, S k => y :: replaceAt k x rest
  end.

Record Database (num : Type) : Type := {
  tbl_company_profiles : list company_profiles.row;
  tbl_accounts : list accounts.row;
  tbl_invoices : list (invoices.row num);
  tbl_invoice_items : list (invoice_items.row num);
  tbl_expenses : list (expenses.row num)
}.

Arguments tbl_company_profiles {num} _.
Arguments tbl_accounts {num} _.
Arguments tbl_invoices {num} _.
Arguments tbl_invoice_items {num} _.
Arguments tbl_expenses {num} _.

Section Queries.
Context {num : Type}.

Definition with_company_profiles (db : Database num) rows : Database num :=
  {| tbl_company_profiles := rows;
     tbl_accounts := tbl_accounts db;
     tbl_invoices := tbl_invoices db;
     tbl_invoice_items := tbl_invoice_items db;
     tbl_expenses := tbl_expenses db |}.

Definition with_accounts (db : Database num) rows : Database num :=
  {| tbl_company_profiles := tbl_company_profiles db;
     tbl_accounts := rows;
     tbl_invoices := tbl_invoices db;
     tbl_invoice_items := tbl_invoice_items db;
     tbl_expenses := tbl_expenses db |}.

Definition with_invoices (db : Database num) rows : Database num :=
  {| tbl_company_profiles := tbl_company_profiles db;
     tbl_accounts := tbl_accounts db;
     tbl_invoices := rows;
     tbl_invoice_items := tbl_invoice_items db;
     tbl_expenses := tbl_expenses db |}.

Definition with_invoice_items (db : Database num) rows : Database num :=
  {| tbl_company_profiles := tbl_company_profiles db;
     tbl_accounts := tbl_accounts db;
     tbl_invoices := tbl_invoices db;
     tbl_invoice_items := rows;
     tbl_expenses := tbl_expenses db |}.

Definition with_expenses (db : Database num) rows : Database num :=
  {| tbl_company_profiles := tbl_company_profiles db;
     tbl_accounts := tbl_accounts db;
     tbl_invoices := tbl_invoices db;
     tbl_invoice_items := tbl_invoice_items db;
     tbl_expenses := rows |}.

(** [.update(patch)] under a filter: every matching row is patched. *)
Definition updateWhere {A} (p : A -> bool) (patch : A -> A) (rows : list A)
  : list A :=
  map (fun r => if p r then patch r else r) rows.

(** [.delete()] under a filter. *)
Definition deleteWhere {A} (p : A -> bool) (rows : list A) : list A :=
  filter (fun r => negb (p r)) rows.

Definition keyFree {A} (key : A -> uuid) (rows : list A) (k : uuid) : bool :=
  negb (existsb (fun r => String.eqb (key r) k) rows).

(** [.insert(new)] into a table whose primary key is [key]: the rows
    are appended; a row whose key is already taken is refused, and
    the request fails as a whole. *)
Fixpoint insertRows {A} (key : A -> uuid) (new rows : list A)
  : option (list A) :=
  match new with
  | [] => Some rows
  | r :: rest =>
      if keyFree key rows (key r)
      then insertRows key rest (rows ++ [r])
      else None
  end.
End Queries.

(** What the server does with the requests of one handler: whether each
    request succeeds (a failed request changes nothing), and the uuids
    [gen_random_uuid()] draws for the rows inserted. *)
Record Server : Type := {
  accepts : nat -> bool;      (* the k-th request of the handler succeeds *)
  fresh : nat -> uuid         (* the uuid of the k-th inserted row *)
}.

(** The [data] of a request's reply; [None] stands for a reply with an
    [error]. *)
Definition request {T} (srv : Server) (k : nat) (result : option T) : option T :=
  if accepts srv k then result else None.

(** How a handler ends: it returns at once without a company profile,
    it finishes silently (a report loaded), the form shows the issues of
    its data, or a toast is shown. *)
Inductive Outcome : Type :=
  | NoCompanyProfile
  | Done
  | Invalid (issues : list string)
  | ToastSuccess (message : string)
  | ToastError (message : string).

(** [.gte(col, lo).lte(col, hi)] on a date column. *)
Definition inRange (lo hi d : date) : bool :=
  (String.leb lo d && String.leb d hi)%bool.

(** [s || null] on an optional string. *)
Definition orNull (s : option string) : option string :=
  match s with
  | Some EmptyString => None
  | other => other
  end.

(** ** Form validation (zod)

    An issue is the message the schema attaches to the failed check;
    checks that carry no message of their own are tagged with zod's
    issue code. *)

Definition Issue : Type := string.

Definition isDigit (c : ascii) : bool :=
  let n := nat_of_ascii c in (48 <=? n)%nat && (n <=? 57)%nat.

Definition isUpper (c : ascii) : bool :=
  let n := nat_of_ascii c in (65 <=? n)%nat && (n <=? 90)%nat.

Definition isOneToNine (c : ascii) : bool :=
  let n := nat_of_ascii c in (49 <=? n)%nat && (n <=? 57)%nat.

(** A string matches a sequence of one-character classes, anchored at
    both ends. *)
Fixpoint matchClasses (classes : list (ascii -> bool)) (s : string) : bool :=
  match classes, s with
  | [], EmptyString => true
  | p :: rest, String c s' => p c && matchClasses rest s'
  | _, _ => false
  end.

(** [/^[0-9]{2}[A-Z]{5}[0-9]{4}[A-Z]{1}[1-9A-Z]{1}Z[0-9A-Z]{1}$/] *)
Definition gstinRegex (s : string) : bool :=
  matchClasses
    (repeat isDigit 2 ++ repeat isUpper 5 ++ repeat isDigit 4 ++
     [isUpper; (fun c => isOneToNine c || isUpper c);
      (fun c => Ascii.eqb c "Z"%char);
      (fun c => isDigit c || isUpper c)])
    s.

(** [z.string().regex(gstin, 'Invalid GSTIN format').optional()
      .or(z.string().length(0))]: a union returns the result of the
    first option that parses and, when none does, the issues of the
    first option that got as far as its checks; on a text that is
    the regex option with its message. *)
Definition gstinField (v : option string) : list Issue :=
  match v with
  | None => []
  | Some s =>
      if gstinRegex s || (String.length s =? 0)%nat then []
      else ["Invalid GSTIN format"%string]
  end.

(** [z.string().min(1, msg)] *)
Definition minLength1 (msg : Issue) (s : string) : list Issue :=
  if (String.length s <? 1)%nat then [msg] else [].

Section NumberChecks.
Context {num : Type} `{Number num}.

(** [z.number()] followed by the bound checks [checks]: a NaN is a
    type error and stops there. *)
Definition zNumber (checks : list (num -> list Issue)) (x : num) : list Issue :=
  if nisnan x then ["invalid_type"%string]
  else flat_map (fun chk => chk x) checks.

(** [.min(bound, msg)]: too small when [x < bound]. *)
Definition zMin (bound : num) (msg : Issue) (x : num) : list Issue :=
  if nltb x bound then [msg] else [].

(** [.max(bound, msg)]: too big when [x > bound]. *)
Definition zMax (bound : num) (msg : Issue) (x : num) : list Issue :=
  if nltb bound x then [msg] else [].
End NumberChecks.

(** ** CreateEditInvoice.tsx *)

Module CreateEditInvoice.
Section Invoice.
Context {num : Type} `{Number num}.
Local Open Scope num_scope.
Local Open Scope string_scope.

Record ItemValues : Type := {
  fi_product_service_id : option string;
  fi_item_description : string;
  fi_quantity : num;
  fi_rate : num;
  fi_gst_rate_percentage : num
}.

(** [FormValues] of the invoice form. *)
Record FormValues : Type := {
  customer_name : string;
  customer_gstin : option string;
  invoice_number : string;
  invoice_date : date;
  due_date : option date;
  place_of_supply_type : SupplyType;
  notes : option string;
  items : list ItemValues
}.

(** The number [0.01] of the quantity bound. *)
Definition oneHundredth : num := nlit 1 / nlit 100.

Definition itemSchema (it : ItemValues) : list Issue :=
  minLength1 "Item description is required" (fi_item_description it) ++
  zNumber [zMin oneHundredth "Quantity must be greater than 0"]
          (fi_quantity it) ++
  zNumber [zMin (nlit 0) "Rate must be 0 or greater"] (fi_rate it) ++
  zNumber [zMin (nlit 0) "GST rate must be 0 or greater";
           zMax (nlit 28) "GST rate cannot exceed 28%"]
          (fi_gst_rate_percentage it).

(** [schema]: the issues it raises on [data]; none when [data] parses. *)
Definition schema (data : FormValues) : list Issue :=
  minLength1 "Customer name is required" (customer_name data) ++
  gstinField (customer_gstin data) ++
  minLength1 "Invoice number is required" (invoice_number data) ++
  minLength1 "Invoice date is required" (invoice_date data) ++
  (match place_of_supply_type data with
   | IntraState | InterState => []
   | NotApplicable => ["invalid_enum_value"]
   end) ++
  flat_map itemSchema (items data) ++
  (if (List.length (items data) <? 1)%nat
   then ["At least one item is required"] else []).

(** One element of [items] in [onSubmit]: the form's item with its
    computed amounts. *)
Record LineItem : Type := {
  li_product_service_id : option string;
  li_item_description : string;
  li_quantity : num;
  li_rate : num;
  item_total_amount : num;
  gst_rate_percentage : num;
  cgst_amount : num;
  sgst_amount : num;
  igst_amount : num;
  item_gst_total : num
}.

(** The callback of [data.items.map] in [onSubmit]. *)
Definition lineItem (supply : SupplyType) (item : ItemValues) : LineItem :=
  let quantity := fi_quantity item in
  let rate := fi_rate item in
  let gstRate := fi_gst_rate_percentage item in
  let itemTotal := quantity * rate in
  let gstAmount := (itemTotal * gstRate) / nlit 100 in
  {| li_product_service_id := fi_product_service_id item;
     li_item_description := fi_item_description item;
     li_quantity := fi_quantity item;
     li_rate := fi_rate item;
     item_total_amount := itemTotal;
     gst_rate_percentage := gstRate;
     cgst_amount :=
       if SupplyType_eqb supply IntraState then gstAmount / nlit 2 else nlit 0;
     sgst_amount :=
       if SupplyType_eqb supply IntraState then gstAmount / nlit 2 else nlit 0;
     igst_amount :=
       if SupplyType_eqb supply InterState then gstAmount else nlit 0;
     item_gst_total := gstAmount |}.

Definition lineItems (data : FormValues) : list LineItem :=
  map (lineItem (place_of_supply_type data)) (items data).

Definition subTotal (its : list LineItem) : num :=
  reduceSum item_total_amount its.

Definition totalGst (its : list LineItem) : num :=
  reduceSum item_gst_total its.

Definition totalAmount (its : list LineItem) : num :=
  subTotal its + totalGst its.

(** A computed item as a row of [invoice_items]:
    [{ invoice_id, ...item }] with the uuid the server gives it. *)
Definition itemRow (invoice : uuid) (key : uuid) (item : LineItem)
  : invoice_items.row num :=
  {| invoice_items.id := key;
     invoice_items.invoice_id := invoice;
     invoice_items.product_service_id := li_product_service_id item;
     invoice_items.item_description := li_item_description item;
     invoice_items.quantity := li_quantity item;
     invoice_items.rate := li_rate item;
     invoice_items.item_total_amount := item_total_amount item;
     invoice_items.gst_rate_percentage := gst_rate_percentage item;
     invoice_items.cgst_amount := cgst_amount item;
     invoice_items.sgst_amount := sgst_amount item;
     invoice_items.igst_amount := igst_amount item;
     invoice_items.item_gst_total := item_gst_total item |}.

Definition itemRows (srv : Server) (invoice : uuid) (its : list LineItem)
  : list (invoice_items.row num) :=
  map (fun '(k, item) => itemRow invoice (fresh srv (S k)) item)
      (combine (seq 0 (List.length its)) its).

(** The object passed to [.update] on [invoices]: it names every
    column but [id], [company_id] and [status]. *)
Definition updatePatch (data : FormValues) (its : list LineItem)
    (r : invoices.row num) : invoices.row num :=
  {| invoices.id := invoices.id r;
     invoices.company_id := invoices.company_id r;
     invoices.customer_name := customer_name data;
     invoices.customer_gstin := orNull (customer_gstin data);
     invoices.invoice_number := invoice_number data;
     invoices.invoice_date := invoice_date data;
     invoices.due_date := orNull (due_date data);
     invoices.sub_total_amount := subTotal its;
     invoices.total_gst_amount := totalGst its;
     invoices.total_invoice_amount := totalAmount its;
     invoices.status := invoices.status r;
     invoices.place_of_supply_type := place_of_supply_type data;
     invoices.notes := orNull (notes data) |}.

(** The row passed to [.insert] on [invoices]. *)
Definition insertedInvoice (company key : uuid) (data : FormValues)
    (its : list LineItem) : invoices.row num :=
  {| invoices.id := key;
     invoices.company_id := company;
     invoices.customer_name := customer_name data;
     invoices.customer_gstin := orNull (customer_gstin data);
     invoices.invoice_number := invoice_number data;
     invoices.invoice_date := invoice_date data;
     invoices.due_date := orNull (due_date data);
     invoices.sub_total_amount := subTotal its;
     invoices.total_gst_amount := totalGst its;
     invoices.total_invoice_amount := totalAmount its;
     invoices.status := Draft;
     invoices.place_of_supply_type := place_of_supply_type data;
     invoices.notes := orNull (notes data) |}.

Definition isInvoice (id company : uuid) (r : invoices.row num) : bool :=
  String.eqb (invoices.id r) id && String.eqb (invoices.company_id r) company.

(** [onSubmit]; [id] is the route parameter, present when an existing
    invoice is edited.  A request that fails throws, and the handler's
    [catch] shows the error toast: the requests already made stay.
    The tables keep what they are sent as their columns hold it. *)
Definition onSubmit (companyProfile : option company_profiles.row)
    (id : option uuid) (srv : Server) (db : Database num)
    (data : FormValues) : Database num * Outcome :=
  match companyProfile with
  | None => (db, NoCompanyProfile)
  | Some profile =>
      let company := company_profiles.id profile in
      let items := lineItems data in
      match id with
      | Some id =>
          match
            request srv 0
              (Some (updateWhere (isInvoice id company)
                       (fun r => invoices.stored (updatePatch data items r))
                       (tbl_invoices db)))
          with
          | None => (db, ToastError "Failed to save invoice")
          | Some invoices1 =>
              let db1 := with_invoices db invoices1 in
              match
                request srv 1
                  (Some (deleteWhere
                           (fun r => String.eqb (invoice_items.invoice_id r) id)
                           (tbl_invoice_items db1)))
              with
              | None => (db1, ToastError "Failed to save invoice")
              | Some items1 =>
                  let db2 := with_invoice_items db1 items1 in
                  match
                    request srv 2
                      (insertRows (@invoice_items.id num)
                         (map invoice_items.stored (itemRows srv id items))
                         (tbl_invoice_items db2))
                  with
                  | None => (db2, ToastError "Failed to save invoice")
                  | Some items2 =>
                      (with_invoice_items db2 items2,
                       ToastSuccess "Invoice updated successfully")
                  end
              end
          end
      | None =>
          let invoice := insertedInvoice company (fresh srv 0) data items in
          match
            request srv 0
              (insertRows (@invoices.id num) [invoices.stored invoice]
                 (tbl_invoices db))
          with
          | None => (db, ToastError "Failed to save invoice")
          | Some invoices1 =>
              let db1 := with_invoices db invoices1 in
              match
                request srv 1
                  (insertRows (@invoice_items.id num)
                     (map invoice_items.stored
                        (itemRows srv (invoices.id invoice) items))
                     (tbl_invoice_items db1))
              with
              | None => (db1, ToastError "Failed to save invoice")
              | Some items1 =>
                  (with_invoice_items db1 items1,
                   ToastSuccess "Invoice created successfully")
              end
          end
      end
  end.

(** [handleSubmit(onSubmit)] of react-hook-form with [zodResolver(schema)]:
    the handler runs only on data the schema accepts. *)
Definition handleSubmit (companyProfile : option company_profiles.row)
    (id : option uuid) (srv : Server) (db : Database num)
    (data : FormValues) : Database num * Outcome :=
  match schema data with
  | [] => onSubmit companyProfile id srv db data
  | issues => (db, Invalid issues)
  end.
(** The line [addItem] appends; the form starts with one such line. *)
Definition blankItem : ItemValues :=
  {| fi_product_service_id := Some "";
     fi_item_description := "";
     fi_quantity := nlit 1;
     fi_rate := nlit 0;
     fi_gst_rate_percentage := nlit 18 |}.

(** [addItem] *)
Definition addItem (currentItems : list ItemValues) : list ItemValues :=
  currentItems ++ [blankItem].

(** [removeItem]: [currentItems.filter((_, i) => i !== index)] *)
Definition removeItem (index : nat) (currentItems : list ItemValues)
  : list ItemValues :=
  map snd
    (filter (fun '(i, _) => negb (i =? index)%nat)
       (combine (seq 0 (List.length currentItems)) currentItems)).

(** [handleProductChange], with [products] the catalogue the page has
    loaded.  The select that calls it belongs to a rendered line, so
    [index] is within the list; for an index past the end JavaScript
    would store a line without a quantity, which the form never holds,
    and the list is left as it is here. *)
Definition handleProductChange (products : list (products_services.row num))
    (index : nat) (productId : string) (currentItems : list ItemValues)
  : list ItemValues :=
  if String.eqb productId "" then currentItems
  else
    match
      find (fun p => String.eqb (products_services.id p) productId) products
    with
    | None => currentItems
    | Some product =>
        match nth_error currentItems index with
        | None => currentItems
        | Some item =>
            replaceAt index
              {| fi_product_service_id := Some (products_services.id product);
                 fi_item_description := products_services.item_name product;
                 fi_quantity := fi_quantity item;
                 fi_rate := products_services.default_sale_price product;
                 fi_gst_rate_percentage :=
                   products_services.default_gst_rate product |}
              currentItems
        end
    end.

(** What the user can do to the lines of the form. *)
Inductive ItemAction : Type :=
  | ClickAddItem                          (* the "Add Item" button *)
  | ClickRemove (index : nat)             (* the bin of line [index] *)
  | SelectProduct (index : nat) (productId : string)
  | TypeInto (index : nat) (edit : ItemValues -> ItemValues).
                                          (* the inputs of line [index] *)

(** One action on the lines.  The bin is rendered for the lines with
    [index > 0]; selects and inputs exist for the lines of the list. *)
Definition itemAct (products : list (products_services.row num))
    (currentItems : list ItemValues) (a : ItemAction) : list ItemValues :=
  match a with
  | ClickAddItem => addItem currentItems
  | ClickRemove index =>
      if (0 <? index)%nat && (index <? List.length currentItems)%nat
      then removeItem index currentItems
      else currentItems
  | SelectProduct index productId =>
      if (index <? List.length currentItems)%nat
      then handleProductChange products index productId currentItems
      else currentItems
  | TypeInto index edit =>
      match nth_error currentItems index with
      | Some item => replaceAt index (edit item) currentItems
      | None => currentItems
      end
  end.

Definition itemSession (products : list (products_services.row num))
    (currentItems : list ItemValues) (script : list ItemAction)
  : list ItemValues :=
  fold_left (itemAct products) script currentItems.
End Invoice.

Arguments ItemAction num : clear implicits.
Arguments ItemValues num : clear implicits.
Arguments FormValues num : clear implicits.
Arguments LineItem num : clear implicits.
End CreateEditInvoice.

(** ** CreateEditExpense.tsx *)

Module CreateEditExpense.
Section Expense.
Context {num : Type} `{Number num}.
Local Open Scope num_scope.
Local Open Scope string_scope.

Record FormValues : Type := {
  vendor_name : option string;
  vendor_gstin : option string;
  expense_date : date;
  expense_description : string;
  expense_account_id : string;
  amount_before_gst : num;
  gst_rate_applied_on_purchase : num;
  place_of_supply_type_for_purchase : SupplyType
}.

Definition schema (data : FormValues) : list Issue :=
  gstinField (vendor_gstin data) ++
  minLength1 "Expense date is required" (expense_date data) ++
  minLength1 "Description is required" (expense_description data) ++
  minLength1 "Please select an expense account" (expense_account_id data) ++
  zNumber [zMin (nlit 0) "Amount must be 0 or greater"]
          (amount_before_gst data) ++
  zNumber [zMin (nlit 0) "GST rate must be 0 or greater";
           zMax (nlit 28) "GST rate cannot exceed 28%"]
          (gst_rate_applied_on_purchase data).

Record GSTAmounts : Type := {
  gstPaidAmount : num;
  cgstInputCredit : num;
  sgstInputCredit : num;
  igstInputCredit : num;
  totalAmount : num
}.

Definition calculateGSTAmounts
    (amountBeforeGST gstRate : num) (supplyType : SupplyType) : GSTAmounts :=
  let gstAmount := (amountBeforeGST * gstRate) / nlit 100 in
  match supplyType with
  | NotApplicable =>
      {| gstPaidAmount := nlit 0;
         cgstInputCredit := nlit 0;
         sgstInputCredit := nlit 0;
         igstInputCredit := nlit 0;
         totalAmount := amountBeforeGST |}
  | IntraState =>
      {| gstPaidAmount := gstAmount;
         cgstInputCredit := gstAmount / nlit 2;
         sgstInputCredit := gstAmount / nlit 2;
         igstInputCredit := nlit 0;
         totalAmount := amountBeforeGST + gstAmount |}
  | InterState =>
      {| gstPaidAmount := gstAmount;
         cgstInputCredit := nlit 0;
         sgstInputCredit := nlit 0;
         igstInputCredit := gstAmount;
         totalAmount := amountBeforeGST + gstAmount |}
  end.

(** [expenseData] of [onSubmit]: the object sent, with the uuid of
    the row it goes to. *)
Definition expenseData (company key : uuid) (data : FormValues)
  : expenses.row num :=
  let amounts :=
    calculateGSTAmounts (amount_before_gst data)
      (gst_rate_applied_on_purchase data)
      (place_of_supply_type_for_purchase data) in
  {| expenses.id := key;
     expenses.company_id := company;
     expenses.vendor_name := orNull (vendor_name data);
     expenses.vendor_gstin := orNull (vendor_gstin data);
     expenses.expense_date := expense_date data;
     expenses.expense_description := expense_description data;
     expenses.expense_account_id := expense_account_id data;
     expenses.amount_before_gst := amount_before_gst data;
     expenses.gst_rate_applied_on_purchase :=
       gst_rate_applied_on_purchase data;
     expenses.gst_paid_amount := gstPaidAmount amounts;
     expenses.total_expense_amount := totalAmount amounts;
     expenses.place_of_supply_type_for_purchase :=
       place_of_supply_type_for_purchase data;
     expenses.cgst_input_credit := cgstInputCredit amounts;
     expenses.sgst_input_credit := sgstInputCredit amounts;
     expenses.igst_input_credit := igstInputCredit amounts |}.

Definition isExpense (id company : uuid) (r : expenses.row num) : bool :=
  String.eqb (expenses.id r) id && String.eqb (expenses.company_id r) company.

Definition onSubmit (companyProfile : option company_profiles.row)
    (id : option uuid) (srv : Server) (db : Database num)
    (data : FormValues) : Database num * Outcome :=
  match companyProfile with
  | None => (db, NoCompanyProfile)
  | Some profile =>
      let company := company_profiles.id profile in
      match id with
      | Some id =>
          match
            request srv 0
              (Some (updateWhere (isExpense id company)
                       (fun r =>
                          expenses.stored
                            (expenseData company (expenses.id r) data))
                       (tbl_expenses db)))
          with
          | None => (db, ToastError "Failed to save expense")
          | Some rows =>
              (with_expenses db rows,
               ToastSuccess "Expense updated successfully")
          end
      | None =>
          match
            request srv 0
              (insertRows (@expenses.id num)
                 [expenses.stored (expenseData company (fresh srv 0) data)]
                 (tbl_expenses db))
          with
          | None => (db, ToastError "Failed to save expense")
          | Some rows =>
              (with_expenses db rows,
               ToastSuccess "Expense recorded successfully")
          end
      end
  end.
End Expense.

Arguments FormValues num : clear implicits.
Arguments GSTAmounts num : clear implicits.
End CreateEditExpense.

(** ** ProductsServices.tsx *)

Module ProductsServices.
Section Page.
Context {num : Type} `{Number num}.
Local Open Scope string_scope.

Record FormValues : Type := {
  item_name : string;
  hsn_sac_code : option string;
  default_sale_price : num;
  default_gst_rate : num
}.

Definition schema (data : FormValues) : list Issue :=
  minLength1 "Item name is required" (item_name data) ++
  zNumber [zMin (nlit 0) "Price must be a positive number"]
          (default_sale_price data) ++
  zNumber [zMin (nlit 0) "GST rate must be 0 or higher";
           zMax (nlit 28) "GST rate cannot exceed 28%"]
          (default_gst_rate data).

(** The values [reset] puts in the form for [editingProduct]. *)
Definition formOf (editingProduct : products_services.row num) : FormValues :=
  {| item_name := products_services.item_name editingProduct;
     hsn_sac_code :=
       match products_services.hsn_sac_code editingProduct with
       | None => Some ""
       | other => other
       end;
     default_sale_price := products_services.default_sale_price editingProduct;
     default_gst_rate := products_services.default_gst_rate editingProduct |}.

(** The object passed to [.update] on [products_services]. *)
Definition updatePatch (data : FormValues) (r : products_services.row num)
  : products_services.row num :=
  {| products_services.id := products_services.id r;
     products_services.company_id := products_services.company_id r;
     products_services.item_name := item_name data;
     products_services.hsn_sac_code := orNull (hsn_sac_code data);
     products_services.default_sale_price := default_sale_price data;
     products_services.default_gst_rate := default_gst_rate data |}.

(** The row passed to [.insert] on [products_services]. *)
Definition insertedProduct (company key : uuid) (data : FormValues)
  : products_services.row num :=
  {| products_services.id := key;
     products_services.company_id := company;
     products_services.item_name := item_name data;
     products_services.hsn_sac_code := orNull (hsn_sac_code data);
     products_services.default_sale_price := default_sale_price data;
     products_services.default_gst_rate := default_gst_rate data |}.

Definition isProduct (id company : uuid) (r : products_services.row num) : bool :=
  String.eqb (products_services.id r) id &&
  String.eqb (products_services.company_id r) company.

(** [onSubmit] on the table [products_services]; [editingProduct] is
    the product the modal was opened on, if any. *)
Definition onSubmit (companyProfile : option company_profiles.row)
    (editingProduct : option (products_services.row num)) (srv : Server)
    (table : list (products_services.row num)) (data : FormValues)
  : list (products_services.row num) * Outcome :=
  match companyProfile with
  | None => (table, NoCompanyProfile)
  | Some profile =>
      let company := company_profiles.id profile in
      match editingProduct with
      | Some editing =>
          match
            request srv 0
              (Some (updateWhere
                       (isProduct (products_services.id editing) company)
                       (updatePatch data) table))
          with
          | None => (table, ToastError "Failed to save product/service")
          | Some rows =>
              (rows, ToastSuccess "Product/service updated successfully")
          end
      | None =>
          match
            request srv 0
              (insertRows (@products_services.id num)
                 [insertedProduct company (fresh srv 0) data] table)
          with
          | None => (table, ToastError "Failed to save product/service")
          | Some rows =>
              (rows, ToastSuccess "Product/service created successfully")
          end
      end
  end.

(** [handleSubmit(onSubmit)] with the zod resolver. *)
Definition handleSubmit (companyProfile : option company_profiles.row)
    (editingProduct : option (products_services.row num)) (srv : Server)
    (table : list (products_services.row num)) (data : FormValues)
  : list (products_services.row num) * Outcome :=
  match schema data with
  | [] => onSubmit companyProfile editingProduct srv table data
  | issues => (table, Invalid issues)
  end.
End Page.

Arguments FormValues num : clear implicits.
End ProductsServices.

(** [.order(...)]: the rows sorted, ascending, under the order [leb]. *)
Fixpoint insertBy {A} (leb : A -> A -> bool) (a : A) (sorted : list A) : list A :=
  match sorted with
  | [] => [a]
  | b :: rest => if leb a b then a :: sorted else b :: insertBy leb a rest
  end.

Definition orderBy {A} (leb : A -> A -> bool) (rows : list A) : list A :=
  fold_right (insertBy leb) [] rows.

(** [.order('account_name')] *)
Definition orderByName : list accounts.row -> list accounts.row :=
  orderBy (fun a b =>
             String.leb (accounts.account_name a) (accounts.account_name b)).

(** ** ProfitLossReport.tsx *)

Module ProfitLossReport.
Section Report.
Context {num : Type} `{Number num}.
Local Open Scope num_scope.

Record AccountSummary : Type := {
  account : accounts.row;
  total : num
}.

(** The component's state the report is rendered from. *)
Record State : Type := {
  totalSales : num;
  expensesByAccount : list AccountSummary
}.

(** The rows of the sales query: the company's invoices dated in the
    period whose status is not ['Draft']. *)
Definition salesData (company : uuid) (startDate endDate : date)
    (db : Database num) : list (invoices.row num) :=
  filter
    (fun r =>
       String.eqb (invoices.company_id r) company &&
       negb (InvoiceStatus_eqb (invoices.status r) Draft) &&
       inRange startDate endDate (invoices.invoice_date r))
    (tbl_invoices db).

Definition expenseAccounts (company : uuid) (db : Database num)
  : list accounts.row :=
  orderByName
    (filter
       (fun a =>
          String.eqb (accounts.company_id a) company &&
          AccountType_eqb (accounts.account_type a) Expense)
       (tbl_accounts db)).

Definition accountExpenses (company : uuid) (startDate endDate : date)
    (db : Database num) (a : accounts.row) : list (expenses.row num) :=
  filter
    (fun e =>
       String.eqb (expenses.company_id e) company &&
       String.eqb (expenses.expense_account_id e) (accounts.id a) &&
       inRange startDate endDate (expenses.expense_date e))
    (tbl_expenses db).

Definition accountSummary (company : uuid) (startDate endDate : date)
    (db : Database num) (a : accounts.row) : AccountSummary :=
  {| account := a;
     total :=
       orZero
         (reduceSum (fun e => orZero (expenses.amount_before_gst e))
            (accountExpenses company startDate endDate db a)) |}.

(** [fetchReportData]: request 0 reads the sales, request 1 the
    accounts, request [2 + k] the expenses of the k-th account.  The
    sales total is set as soon as it is known; a failed request leaves
    the rest of the state as it was. *)
Definition fetchReportData (companyProfile : option company_profiles.row)
    (startDate endDate : date) (srv : Server) (db : Database num)
    (st : State) : State * Outcome :=
  match companyProfile with
  | None => (st, NoCompanyProfile)
  | Some profile =>
      let company := company_profiles.id profile in
      if negb (accepts srv 0)
      then (st, ToastError "Failed to load report data")
      else
        let sales :=
          orZero
            (reduceSum (fun r => orZero (invoices.sub_total_amount r))
               (salesData company startDate endDate db)) in
        let st1 :=
          {| totalSales := sales;
             expensesByAccount := expensesByAccount st |} in
        let accs := expenseAccounts company db in
        if negb (accepts srv 1 &&
                 forallb (fun k => accepts srv (2 + k))
                   (seq 0 (List.length accs)))
        then (st1, ToastError "Failed to load report data")
        else
          ({| totalSales := sales;
              expensesByAccount :=
                map (accountSummary company startDate endDate db) accs |},
           Done)
  end.

Definition totalExpenses (st : State) : num :=
  reduceSum total (expensesByAccount st).

Definition netProfit (st : State) : num :=
  totalSales st - totalExpenses st.

(** The net line as rendered: the label and the amount shown
    under it. *)
Definition netLine (st : State) : string * num :=
  (if nleb (nlit 0) (netProfit st) then "Net Profit"%string
   else "Net Loss"%string,
   nabs (netProfit st)).
End Report.

Arguments AccountSummary num : clear implicits.
Arguments State num : clear implicits.
End ProfitLossReport.

(** ** GSTReport.tsx *)

Module GSTReport.
Module sales.
Record t (num : Type) : Type := {
  taxableValue : num;
  cgst : num;
  sgst : num;
  igst : num
}.
End sales.

Module purchases.
Record t (num : Type) : Type := {
  taxableValue : num;
  cgstInput : num;
  sgstInput : num;
  igstInput : num
}.
End purchases.

Section Report.
Context {num : Type} `{Number num}.
Local Open Scope num_scope.

Record GSTSummary : Type := {
  sales : sales.t num;
  purchases : purchases.t num
}.

(** The rows of the invoice query: the company's invoices dated in the
    period whose status is not ['Draft']. *)
Definition invoicesInPeriod (company : uuid) (startDate endDate : date)
    (db : Database num) : list (invoices.row num) :=
  filter
    (fun r =>
       String.eqb (invoices.company_id r) company &&
       negb (InvoiceStatus_eqb (invoices.status r) Draft) &&
       inRange startDate endDate (invoices.invoice_date r))
    (tbl_invoices db).

(** The embedded [invoice_items (...)] of one invoice. *)
Definition itemsOf (db : Database num) (invoice : invoices.row num)
  : list (invoice_items.row num) :=
  filter
    (fun it => String.eqb (invoice_items.invoice_id it) (invoices.id invoice))
    (tbl_invoice_items db).

(** The body of [forEach] on the items of an invoice. *)
Definition addItem (acc : sales.t num) (item : invoice_items.row num)
  : sales.t num :=
  {| sales.taxableValue := sales.taxableValue acc;
     sales.cgst := sales.cgst acc + orZero (invoice_items.cgst_amount item);
     sales.sgst := sales.sgst acc + orZero (invoice_items.sgst_amount item);
     sales.igst := sales.igst acc + orZero (invoice_items.igst_amount item) |}.

(** The callback of [reduce] on the invoices. *)
Definition addInvoice (db : Database num) (acc : sales.t num)
    (invoice : invoices.row num) : sales.t num :=
  fold_left addItem (itemsOf db invoice)
    {| sales.taxableValue :=
         sales.taxableValue acc + orZero (invoices.sub_total_amount invoice);
       sales.cgst := sales.cgst acc;
       sales.sgst := sales.sgst acc;
       sales.igst := sales.igst acc |}.

Definition salesSummary (company : uuid) (startDate endDate : date)
    (db : Database num) : sales.t num :=
  fold_left (addInvoice db) (invoicesInPeriod company startDate endDate db)
    {| sales.taxableValue := nlit 0; sales.cgst := nlit 0;
       sales.sgst := nlit 0; sales.igst := nlit 0 |}.

Definition expensesInPeriod (company : uuid) (startDate endDate : date)
    (db : Database num) : list (expenses.row num) :=
  filter
    (fun e =>
       String.eqb (expenses.company_id e) company &&
       inRange startDate endDate (expenses.expense_date e))
    (tbl_expenses db).

(** The callback of [reduce] on the expenses. *)
Definition addExpense (acc : purchases.t num) (expense : expenses.row num)
  : purchases.t num :=
  {| purchases.taxableValue :=
       purchases.taxableValue acc + orZero (expenses.amount_before_gst expense);
     purchases.cgstInput :=
       purchases.cgstInput acc + orZero (expenses.cgst_input_credit expense);
     purchases.sgstInput :=
       purchases.sgstInput acc + orZero (expenses.sgst_input_credit expense);
     purchases.igstInput :=
       purchases.igstInput acc + orZero (expenses.igst_input_credit expense) |}.

Definition purchasesSummary (company : uuid) (startDate endDate : date)
    (db : Database num) : purchases.t num :=
  fold_left addExpense (expensesInPeriod company startDate endDate db)
    {| purchases.taxableValue := nlit 0; purchases.cgstInput := nlit 0;
       purchases.sgstInput := nlit 0; purchases.igstInput := nlit 0 |}.

(** [fetchGSTData]: request 0 reads the invoices with their items,
    request 1 the expenses; the summary is set once both are in. *)
Definition fetchGSTData (companyProfile : option company_profiles.row)
    (startDate endDate : date) (srv : Server) (db : Database num)
    (summary : GSTSummary) : GSTSummary * Outcome :=
  match companyProfile with
  | None => (summary, NoCompanyProfile)
  | Some profile =>
      let company := company_profiles.id profile in
      if accepts srv 0 && accepts srv 1
      then
        ({| sales := salesSummary company startDate endDate db;
            purchases := purchasesSummary company startDate endDate db |},
         Done)
      else (summary, ToastError "Failed to load GST data")
  end.

Record NetGSTPayable : Type := {
  cgst : num;
  sgst : num;
  igst : num
}.

Definition netGSTPayable (summary : GSTSummary) : NetGSTPayable :=
  {| cgst := sales.cgst (sales summary) - purchases.cgstInput (purchases summary);
     sgst := sales.sgst (sales summary) - purchases.sgstInput (purchases summary);
     igst := sales.igst (sales summary) - purchases.igstInput (purchases summary) |}.

(** One cell of the "Net GST Payable" block as rendered: the amount
    shown and the label after it. *)
Definition netCell (net : num) : num * string :=
  (nabs net,
   if nleb (nlit 0) net then " (Payable)"%string else " (Credit)"%string).
End Report.

Arguments GSTSummary num : clear implicits.
Arguments NetGSTPayable num : clear implicits.
End GSTReport.

(** ** Invoices.tsx: the list of invoices *)

Module Invoices.
Section Page.
Context {num : Type}.
Local Open Scope string_scope.

(** The list the page holds, as last fetched. *)
Definition State : Type := list (invoices.row num).

(** [fetchInvoices], issued as request [k] of the running handler: the
    company's invoices, latest date first. *)
Definition fetchInvoices (company : uuid) (srv : Server) (k : nat)
    (db : Database num) (st : State) : State :=
  if accepts srv k
  then
    orderBy
      (fun a b => String.leb (invoices.invoice_date b) (invoices.invoice_date a))
      (filter (fun r => String.eqb (invoices.company_id r) company)
         (tbl_invoices db))
  else st.

(** The object passed to [.update]: the status alone. *)
Definition statusPatch (status : InvoiceStatus) (r : invoices.row num)
  : invoices.row num :=
  {| invoices.id := invoices.id r;
     invoices.company_id := invoices.company_id r;
     invoices.customer_name := invoices.customer_name r;
     invoices.customer_gstin := invoices.customer_gstin r;
     invoices.invoice_number := invoices.invoice_number r;
     invoices.invoice_date := invoices.invoice_date r;
     invoices.due_date := invoices.due_date r;
     invoices.sub_total_amount := invoices.sub_total_amount r;
     invoices.total_gst_amount := invoices.total_gst_amount r;
     invoices.total_invoice_amount := invoices.total_invoice_amount r;
     invoices.status := status;
     invoices.place_of_supply_type := invoices.place_of_supply_type r;
     invoices.notes := invoices.notes r |}.

Definition isInvoice (id company : uuid) (r : invoices.row num) : bool :=
  String.eqb (invoices.id r) id && String.eqb (invoices.company_id r) company.

(** [updateInvoiceStatus]; its callers pass ['Sent'] or ['Paid']. *)
Definition updateInvoiceStatus (companyProfile : option company_profiles.row)
    (srv : Server) (db : Database num) (st : State) (invoiceId : uuid)
    (status : InvoiceStatus) : Database num * State * Outcome :=
  match companyProfile with
  | None => (db, st, NoCompanyProfile)
  | Some profile =>
      let company := company_profiles.id profile in
      match
        request srv 0
          (Some (updateWhere (isInvoice invoiceId company) (statusPatch status)
                   (tbl_invoices db)))
      with
      | None => (db, st, ToastError "Failed to update invoice status")
      | Some rows =>
          let db1 := with_invoices db rows in
          (db1, fetchInvoices company srv 1 db1 st,
           ToastSuccess
             (match status with
              | Paid => "Invoice marked as Paid"
              | Sent => "Invoice marked as Sent"
              | Draft => "Invoice marked as Draft"
              | Overdue => "Invoice marked as Overdue"
              end))
      end
  end.

(** What the user can do on the page to the status of an invoice. *)
Inductive Action : Type :=
  | Mount                   (* the page loads its list *)
  | MarkAsSent (k : nat)    (* the "Mark as Sent" button of row k *)
  | MarkAsPaid (k : nat).   (* the "Mark as Paid" button of row k *)

(** One action.  "Mark as Sent" is rendered on the rows listed as
    Draft, "Mark as Paid" on the rows listed as Sent.  Rows are counted
    in the whole list; the search box can only hide some of them. *)
Definition act (companyProfile : option company_profiles.row)
    (srv : Server) (db : Database num) (st : State) (a : Action)
  : Database num * State * Outcome :=
  match a with
  | Mount =>
      match companyProfile with
      | None => (db, st, NoCompanyProfile)
      | Some profile =>
          (db, fetchInvoices (company_profiles.id profile) srv 0 db st, Done)
      end
  | MarkAsSent k =>
      match nth_error st k with
      | Some invoice =>
          if InvoiceStatus_eqb (invoices.status invoice) Draft
          then updateInvoiceStatus companyProfile srv db st
                 (invoices.id invoice) Sent
          else (db, st, Done)
      | None => (db, st, Done)
      end
  | MarkAsPaid k =>
      match nth_error st k with
      | Some invoice =>
          if InvoiceStatus_eqb (invoices.status invoice) Sent
          then updateInvoiceStatus companyProfile srv db st
                 (invoices.id invoice) Paid
          else (db, st, Done)
      | None => (db, st, Done)
      end
  end.

Fixpoint session (companyProfile : option company_profiles.row)
    (db : Database num) (st : State) (script : list (Server * Action))
  : Database num * State :=
  match script with
  | [] => (db, st)
  | (srv, a) :: rest =>
      let '(db1, st1, _) := act companyProfile srv db st a in
      session companyProfile db1 st1 rest
  end.
End Page.
End Invoices.

(** ** The month shown by the reports (date-fns, by calendar day) *)

Module MonthNavigation.
(** A local calendar date: [getFullYear()], [getMonth()] (0 to 11) and
    [getDate()]. *)
Record Date : Type := {
  year : Z;
  month : Z;
  day : Z
}.

Definition isLeapYear (y : Z) : bool :=
  ((y mod 4 =? 0) && (negb (y mod 100 =? 0) || (y mod 400 =? 0)))%Z%bool.

Definition getDaysInMonth (y m : Z) : Z :=
  (if m =? 1 then (if isLeapYear y then 29 else 28)
   else if (m =? 3) || (m =? 5) || (m =? 8) || (m =? 10) then 30
   else 31)%Z.

Definition startOfMonth (d : Date) : Date :=
  {| year := year d; month := month d; day := 1 |}.

Definition endOfMonth (d : Date) : Date :=
  {| year := year d; month := month d;
     day := getDaysInMonth (year d) (month d) |}.

(** [addMonths]: the same day of the month [amount] months on, or the
    last day of that month when it is shorter. *)
Definition addMonths (d : Date) (amount : Z) : Date :=
  let months := (year d * 12 + month d + amount)%Z in
  let y := (months / 12)%Z in
  let m := (months mod 12)%Z in
  {| year := y; month := m; day := Z.min (day d) (getDaysInMonth y m) |}.

Definition subMonths (d : Date) (amount : Z) : Date :=
  addMonths d (- amount).

(** [format(d, 'yyyy-MM-dd')], for a year of four digits: the text
    the reports put in their queries. *)
Definition digit (n : Z) : ascii := ascii_of_N (Z.to_N (48 + n)).

Definition twoDigits (n : Z) (rest : string) : string :=
  String (digit (n / 10)) (String (digit (n mod 10)) rest).

Definition format (d : Date) : string :=
  twoDigits (year d / 100)
    (twoDigits (year d mod 100)
       (String "-"
          (twoDigits (month d + 1)
             (String "-" (twoDigits (day d) EmptyString))))).

(** The period both reports keep in their state. *)
Record State : Type := {
  startDate : Date;
  endDate : Date
}.

(** The period a report opens on, [today] being [new Date()]. *)
Definition initialState (today : Date) : State :=
  {| startDate := startOfMonth today; endDate := endOfMonth today |}.

Definition previousMonth (st : State) : State :=
  {| startDate := startOfMonth (subMonths (startDate st) 1);
     endDate := endOfMonth (subMonths (endDate st) 1) |}.

Definition nextMonth (st : State) : State :=
  {| startDate := startOfMonth (addMonths (startDate st) 1);
     endDate := endOfMonth (addMonths (endDate st) 1) |}.
End MonthNavigation.

(** ** The migration: [create_default_accounts] and the delete policy *)

Module Migration.
Local Open Scope string_scope.

(** The [VALUES] of [create_default_accounts]. *)
Definition defaultAccounts : list (string * AccountType) :=
  [ ("Sales", Income);
    ("Purchases/Direct Expenses", Expense);
    ("Bank Account", Asset);
    ("Cash in Hand", Asset);
    ("GST Payable", Liability);
    ("GST Input Credit", Asset) ].

(** [create_default_accounts(company_id)]; [key k] is the uuid the
    [id] column defaults to for the k-th row. *)
Definition create_default_accounts (key : nat -> uuid) (company_id : uuid)
    (rows : list accounts.row) : option (list accounts.row) :=
  insertRows accounts.id
    (map (fun '(k, (name, type)) =>
            {| accounts.id := key k;
               accounts.company_id := company_id;
               accounts.account_name := name;
               accounts.account_type := type;
               accounts.is_default := true |})
         (combine (seq 0 (List.length defaultAccounts)) defaultAccounts))
    rows.

(** The [USING] clause of "Users can delete non-default accounts for
    their companies", for a user who owns the company. *)
Definition deletePolicy (r : accounts.row) : bool :=
  Bool.eqb (accounts.is_default r) false.
End Migration.

(** ** CompanyContext.tsx *)

Module CompanyContext.
Section Context_.
Context {num : Type}.

(** [Partial<CompanyProfile>] as the settings form fills it. *)
Record ProfileData : Type := {
  company_name : string;
  company_address : option string;
  gstin : option string;
  logo_url : option string;
  fiscal_year_start_month : Z
}.

(** [createCompanyProfile]: request 0 inserts the profile, request 1
    calls [create_default_accounts]; the reply of the call is not
    looked at.  The result is the profile created, if any. *)
Definition createCompanyProfile (user : option uuid) (srv : Server)
    (db : Database num) (data : ProfileData)
  : Database num * option company_profiles.row :=
  match user with
  | None => (db, None)
  | Some user_id =>
      let newProfile :=
        {| company_profiles.id := fresh srv 0;
           company_profiles.user_id := user_id;
           company_profiles.company_name := company_name data;
           company_profiles.company_address := company_address data;
           company_profiles.gstin := gstin data;
           company_profiles.logo_url := logo_url data;
           company_profiles.fiscal_year_start_month :=
             if (fiscal_year_start_month data =? 0)%Z then 4%Z
             else fiscal_year_start_month data |} in
      match
        request srv 0
          (insertRows company_profiles.id [newProfile]
             (tbl_company_profiles db))
      with
      | None => (db, None)
      | Some profiles =>
          let db1 := with_company_profiles db profiles in
          match
            request srv 1
              (Migration.create_default_accounts
                 (fun k => fresh srv (S k)) (company_profiles.id newProfile)
                 (tbl_accounts db1))
          with
          | None => (db1, Some newProfile)
          | Some accs => (with_accounts db1 accs, Some newProfile)
          end
      end
  end.
End Context_.
End CompanyContext.

(** ** ChartOfAccounts.tsx *)

Module ChartOfAccounts.
Section Page.
Context {num : Type}.
Local Open Scope string_scope.

Record FormValues : Type := {
  account_name : string;
  account_type : AccountType
}.

Definition schema (data : FormValues) : list Issue :=
  minLength1 "Account name is required" (account_name data).

(** The component's state. *)
Record State : Type := {
  accounts : list accounts.row;
  showModal : bool;
  editingAccount : option accounts.row
}.

Definition initialState : State :=
  {| accounts := []; showModal := false; editingAccount := None |}.

Definition typeText (t : AccountType) : string :=
  match t with
  | Income => "Income" | Expense => "Expense"
  | Asset => "Asset" | Liability => "Liability"
  end.

(** [.order('account_type').order('account_name')] *)
Definition byTypeThenName (a b : accounts.row) : bool :=
  let ta := typeText (accounts.account_type a) in
  let tb := typeText (accounts.account_type b) in
  String.ltb ta tb ||
  (String.eqb ta tb &&
   String.leb (accounts.account_name a) (accounts.account_name b)).

(** [fetchAccounts], issued as request [k] of the running handler. *)
Definition fetchAccounts (company : uuid) (srv : Server) (k : nat)
    (db : Database num) (st : State) : State :=
  if accepts srv k
  then
    {| accounts :=
         orderBy byTypeThenName
           (filter (fun a => String.eqb (accounts.company_id a) company)
              (tbl_accounts db));
       showModal := showModal st;
       editingAccount := editingAccount st |}
  else st.

Definition openModal (account : option accounts.row) (st : State) : State :=
  {| accounts := accounts st; showModal := true; editingAccount := account |}.

Definition closeModal (st : State) : State :=
  {| accounts := accounts st; showModal := false; editingAccount := None |}.

Definition isAccount (id company : uuid) (r : accounts.row) : bool :=
  String.eqb (accounts.id r) id && String.eqb (accounts.company_id r) company.

(** The object passed to [.update]: name and type. *)
Definition updatePatch (data : FormValues) (r : accounts.row) : accounts.row :=
  {| accounts.id := accounts.id r;
     accounts.company_id := accounts.company_id r;
     accounts.account_name := account_name data;
     accounts.account_type := account_type data;
     accounts.is_default := accounts.is_default r |}.

Definition onSubmit (companyProfile : option company_profiles.row)
    (srv : Server) (db : Database num) (st : State) (data : FormValues)
  : Database num * State * Outcome :=
  match companyProfile with
  | None => (db, st, NoCompanyProfile)
  | Some profile =>
      let company := company_profiles.id profile in
      let saved :=
        match editingAccount st with
        | Some editing =>
            option_map (fun rows => (rows, "Account updated successfully"))
              (request srv 0
                 (Some (updateWhere (isAccount (accounts.id editing) company)
                          (updatePatch data) (tbl_accounts db))))
        | None =>
            option_map (fun rows => (rows, "Account created successfully"))
              (request srv 0
                 (insertRows accounts.id
                    [ {| accounts.id := fresh srv 0;
                         accounts.company_id := company;
                         accounts.account_name := account_name data;
                         accounts.account_type := account_type data;
                         accounts.is_default := false |} ]
                    (tbl_accounts db)))
        end in
      match saved with
      | None => (db, st, ToastError "Failed to save account")
      | Some (rows, message) =>
          let db1 := with_accounts db rows in
          (db1, fetchAccounts company srv 1 db1 (closeModal st),
           ToastSuccess message)
      end
  end.

(** An expense refers to the account (the foreign key of
    [expenses.expense_account_id]). *)
Definition inUse (db : Database num) (r : accounts.row) : bool :=
  existsb (fun e => String.eqb (expenses.expense_account_id e) (accounts.id r))
    (tbl_expenses db).

(** [deleteAccount]; [confirmed] is the answer to the [confirm]
    dialog.  The rows deleted are those the request's filters and the
    delete policy both let through. *)
Definition deleteAccount (companyProfile : option company_profiles.row)
    (confirmed : bool) (srv : Server) (db : Database num) (st : State)
    (id : uuid) : Database num * State * Outcome :=
  match companyProfile with
  | None => (db, st, NoCompanyProfile)
  | Some profile =>
      let company := company_profiles.id profile in
      if negb confirmed then (db, st, Done)
      else
        let doomed (r : accounts.row) : bool :=
          isAccount id company r && Bool.eqb (accounts.is_default r) false &&
          Migration.deletePolicy r in
        if negb (accepts srv 0)
        then (db, st, ToastError "Failed to delete account")
        else if existsb (fun r => doomed r && inUse db r) (tbl_accounts db)
        then
          (db, st,
           ToastError
             "Cannot delete account because it is being used by transactions")
        else
          let db1 := with_accounts db (deleteWhere doomed (tbl_accounts db)) in
          (db1, fetchAccounts company srv 1 db1 st,
           ToastSuccess "Account deleted successfully")
  end.

(** What the user can do on the page. *)
Inductive Action : Type :=
  | Mount                                  (* the page loads its list *)
  | AddAccount                             (* the "Add Account" button *)
  | EditRow (k : nat)                      (* the Edit button of row k *)
  | DeleteRow (k : nat) (confirmed : bool) (* the Delete button of row k *)
  | CloseModal                             (* Cancel, the cross, the backdrop *)
  | SubmitForm (data : FormValues).        (* the form of the modal *)

(** One action.  The Edit and Delete buttons of a row carry
    [disabled={account.is_default}]; the form exists while the modal
    is shown and is submitted through [handleSubmit]. *)
Definition act (companyProfile : option company_profiles.row)
    (srv : Server) (db : Database num) (st : State) (a : Action)
  : Database num * State * Outcome :=
  match a with
  | Mount =>
      match companyProfile with
      | None => (db, st, NoCompanyProfile)
      | Some profile =>
          (db, fetchAccounts (company_profiles.id profile) srv 0 db st, Done)
      end
  | AddAccount => (db, openModal None st, Done)
  | EditRow k =>
      match nth_error (accounts st) k with
      | Some account =>
          if accounts.is_default account then (db, st, Done)
          else (db, openModal (Some account) st, Done)
      | None => (db, st, Done)
      end
  | DeleteRow k confirmed =>
      match nth_error (accounts st) k with
      | Some account =>
          if accounts.is_default account then (db, st, Done)
          else deleteAccount companyProfile confirmed srv db st
                 (accounts.id account)
      | None => (db, st, Done)
      end
  | CloseModal => (db, closeModal st, Done)
  | SubmitForm data =>
      if showModal st
      then
        match schema data with
        | [] => onSubmit companyProfile srv db st data
        | issues => (db, st, Invalid issues)
        end
      else (db, st, Done)
  end.

(** A session on the page: the actions in turn, each with the server's
    behaviour during it. *)
Fixpoint session (companyProfile : option company_profiles.row)
    (db : Database num) (st : State) (script : list (Server * Action))
  : Database num * State :=
  match script with
  | [] => (db, st)
  | (srv, a) :: rest =>
      let '(db1, st1, _) := act companyProfile srv db st a in
      session companyProfile db1 st1 rest
  end.
End Page.
End ChartOfAccounts.

(** ** Scenarios *)

Module Scenario.
Section Scenario.
Context {num : Type} `{Number num}.
Import CreateEditInvoice.
Local Open Scope string_scope.

(** One line: quantity 2, rate 100, GST 18%. *)
Definition item : ItemValues num :=
  {| fi_product_service_id := None;
     fi_item_description := "Widget";
     fi_quantity := nlit 2;
     fi_rate := nlit 100;
     fi_gst_rate_percentage := nlit 18 |}.

Definition invoice (supply : SupplyType) (its : list (ItemValues num))
  : FormValues num :=
  {| customer_name := "Acme Traders";
     customer_gstin := Some "";
     invoice_number := "INV-001";
     invoice_date := "2025-06-10";
     due_date := Some "";
     place_of_supply_type := supply;
     notes := Some "";
     items := its |}.

Definition profile : company_profiles.row :=
  {| company_profiles.id := "co-1";
     company_profiles.user_id := "user-1";
     company_profiles.company_name := "Acme Traders";
     company_profiles.company_address := None;
     company_profiles.gstin := None;
     company_profiles.logo_url := None;
     company_profiles.fiscal_year_start_month := 4 |}.

(** A server that accepts every request; the k-th uuid it draws. *)
Definition server : Server :=
  {| accepts := fun _ => true;
     fresh := fun k => String (ascii_of_nat (65 + k)) "-new" |}.

(** An invoice stored with the given status and subtotal, dated in
    June 2025. *)
Definition stored (key : uuid) (st : InvoiceStatus) (sub : num)
  : invoices.row num :=
  {| invoices.id := key;
     invoices.company_id := "co-1";
     invoices.customer_name := "Old Customer";
     invoices.customer_gstin := None;
     invoices.invoice_number := key;
     invoices.invoice_date := "2025-06-05";
     invoices.due_date := None;
     invoices.sub_total_amount := sub;
     invoices.total_gst_amount := nlit 0;
     invoices.total_invoice_amount := sub;
     invoices.status := st;
     invoices.place_of_supply_type := InterState;
     invoices.notes := None |}.

Definition storedItem (key invoice : uuid) (c s i : num)
  : invoice_items.row num :=
  {| invoice_items.id := key;
     invoice_items.invoice_id := invoice;
     invoice_items.product_service_id := None;
     invoice_items.item_description := "Old line";
     invoice_items.quantity := nlit 1;
     invoice_items.rate := nlit 0;
     invoice_items.item_total_amount := nlit 0;
     invoice_items.gst_rate_percentage := nlit 0;
     invoice_items.cgst_amount := c;
     invoice_items.sgst_amount := s;
     invoice_items.igst_amount := i;
     invoice_items.item_gst_total := nlit 0 |}.

Definition account (key name : string) (type : AccountType) (default : bool)
  : accounts.row :=
  {| accounts.id := key;
     accounts.company_id := "co-1";
     accounts.account_name := name;
     accounts.account_type := type;
     accounts.is_default := default |}.

(** A purchase of [amount] before GST, booked on [account] in June
    2025, with the given input credits. *)
Definition purchase (key account : uuid) (amount c s i : num)
  : expenses.row num :=
  {| expenses.id := key;
     expenses.company_id := "co-1";
     expenses.vendor_name := None;
     expenses.vendor_gstin := None;
     expenses.expense_date := "2025-06-20";
     expenses.expense_description := "Supplies";
     expenses.expense_account_id := account;
     expenses.amount_before_gst := amount;
     expenses.gst_rate_applied_on_purchase := nlit 0;
     expenses.gst_paid_amount := ((c + s) + i)%num;
     expenses.total_expense_amount := (amount + ((c + s) + i))%num;
     expenses.place_of_supply_type_for_purchase := IntraState;
     expenses.cgst_input_credit := c;
     expenses.sgst_input_credit := s;
     expenses.igst_input_credit := i |}.

(** Scenario D and E in one database: a Sent invoice of subtotal 500
    whose one line carries CGST 18 and SGST 18, a Draft invoice of
    subtotal 9999, and a purchase of 800 with input credits 20 and
    20. *)
Definition db : Database num :=
  {| tbl_company_profiles := [profile];
     tbl_accounts :=
       [account "acc-1" "Sales" Income true;
        account "acc-2" "Purchases/Direct Expenses" Expense true;
        account "acc-3" "Rent" Expense false];
     tbl_invoices :=
       [stored "inv-1" Sent (nlit 500); stored "inv-2" Draft (nlit 9999)];
     tbl_invoice_items :=
       [storedItem "item-1" "inv-1" (nlit 18) (nlit 18) (nlit 0);
        storedItem "item-2" "inv-2" (nlit 900) (nlit 900) (nlit 0)];
     tbl_expenses :=
       [purchase "exp-1" "acc-2" (nlit 800) (nlit 20) (nlit 20) (nlit 0)] |}.

(** The invoice [stored] and the purchase [purchase], dated [day]. *)
Definition storedOn (day : date) (key : uuid) (st : InvoiceStatus) (sub : num)
  : invoices.row num :=
  {| invoices.id := key;
     invoices.company_id := "co-1";
     invoices.customer_name := "Old Customer";
     invoices.customer_gstin := None;
     invoices.invoice_number := key;
     invoices.invoice_date := day;
     invoices.due_date := None;
     invoices.sub_total_amount := sub;
     invoices.total_gst_amount := nlit 0;
     invoices.total_invoice_amount := sub;
     invoices.status := st;
     invoices.place_of_supply_type := InterState;
     invoices.notes := None |}.

Definition purchaseOn (day : date) (key account : uuid) (amount c s i : num)
  : expenses.row num :=
  {| expenses.id := key;
     expenses.company_id := "co-1";
     expenses.vendor_name := None;
     expenses.vendor_gstin := None;
     expenses.expense_date := day;
     expenses.expense_description := "Supplies";
     expenses.expense_account_id := account;
     expenses.amount_before_gst := amount;
     expenses.gst_rate_applied_on_purchase := nlit 0;
     expenses.gst_paid_amount := ((c + s) + i)%num;
     expenses.total_expense_amount := (amount + ((c + s) + i))%num;
     expenses.place_of_supply_type_for_purchase := IntraState;
     expenses.cgst_input_credit := c;
     expenses.sgst_input_credit := s;
     expenses.igst_input_credit := i |}.

(** [db] with more around the ends of June 2025: invoices, all Sent
    or Paid, dated 31 May (7000), 1 June (100), 30 June (200), 1 July
    (9000) and 15 June 2024 (3000), each with one line carrying a
    hundredth of its subtotal as CGST and as SGST; purchases dated 31
    May (4000), 30 June (500, booked on Rent) and 1 July (6000), each
    with input credits of a hundredth of the amount. *)
Definition around : Database num :=
  {| tbl_company_profiles := tbl_company_profiles db;
     tbl_accounts := tbl_accounts db;
     tbl_invoices :=
       tbl_invoices db ++
       [storedOn "2025-05-31" "inv-3" Sent (nlit 7000);
        storedOn "2025-06-01" "inv-4" Paid (nlit 100);
        storedOn "2025-06-30" "inv-5" Sent (nlit 200);
        storedOn "2025-07-01" "inv-6" Sent (nlit 9000);
        storedOn "2024-06-15" "inv-7" Paid (nlit 3000)];
     tbl_invoice_items :=
       tbl_invoice_items db ++
       [storedItem "item-3" "inv-3" (nlit 70) (nlit 70) (nlit 0);
        storedItem "item-4" "inv-4" (nlit 1) (nlit 1) (nlit 0);
        storedItem "item-5" "inv-5" (nlit 2) (nlit 2) (nlit 0);
        storedItem "item-6" "inv-6" (nlit 90) (nlit 90) (nlit 0);
        storedItem "item-7" "inv-7" (nlit 30) (nlit 30) (nlit 0)];
     tbl_expenses :=
       tbl_expenses db ++
       [purchaseOn "2025-05-31" "exp-2" "acc-2" (nlit 4000)
          (nlit 40) (nlit 40) (nlit 0);
        purchaseOn "2025-06-30" "exp-3" "acc-3" (nlit 500)
          (nlit 5) (nlit 5) (nlit 0);
        purchaseOn "2025-07-01" "exp-4" "acc-2" (nlit 6000)
          (nlit 60) (nlit 60) (nlit 0)] |}.
End Scenario.
End Scenario.

(** One line of quantity 1 at the given rate, GST 18%. *)
Definition priced {num} `{Number num} (rate : num)
  : CreateEditInvoice.ItemValues num :=
  {| CreateEditInvoice.fi_product_service_id := None;
     CreateEditInvoice.fi_item_description := "Service"%string;
     CreateEditInvoice.fi_quantity := nlit 1;
     CreateEditInvoice.fi_rate := rate;
     CreateEditInvoice.fi_gst_rate_percentage := nlit 18 |}.

(** Three lines priced 0.1, 0.2 and 0.3, in binary64 and exactly. *)
Definition tenthsF64 : list (CreateEditInvoice.ItemValues float) :=
  [priced 0.1%float; priced 0.2%float; priced 0.3%float].

Definition tenthsDec : list (CreateEditInvoice.ItemValues Qc) :=
  [priced (Dec.dec 1 1); priced (Dec.dec 2 1); priced (Dec.dec 3 1)].

(** [|a - b| <= tol] *)
Definition within {num} `{Number num} (tol a b : num) : bool :=
  nleb (nabs (a - b)%num) tol.

(** * Statements *)

(** ** The GST split *)

Section SplitStatements.
Context (num : Type) `{Number num}.
Import CreateEditInvoice CreateEditExpense.
Local Open Scope num_scope.

(** The split of [calculateGSTAmounts] on a purchase. *)
Definition ExpenseSplit (base rate : num) : Prop :=
  let gstTotal := (base * rate) / nlit 100 in
  let intra := calculateGSTAmounts base rate IntraState in
  let inter := calculateGSTAmounts base rate InterState in
  (gstPaidAmount intra = gstTotal /\
   cgstInputCredit intra = gstTotal / nlit 2 /\
   sgstInputCredit intra = gstTotal / nlit 2 /\
   igstInputCredit intra = nlit 0) /\
  (gstPaidAmount inter = gstTotal /\
   cgstInputCredit inter = nlit 0 /\
   sgstInputCredit inter = nlit 0 /\
   igstInputCredit inter = gstTotal).

(** The split of [onSubmit] on an invoice line. *)
Definition LineSplit (item : ItemValues num) : Prop :=
  let base := fi_quantity item * fi_rate item in
  let gstTotal := (base * fi_gst_rate_percentage item) / nlit 100 in
  let intra := lineItem IntraState item in
  let inter := lineItem InterState item in
  (item_total_amount intra = base /\
   item_gst_total intra = gstTotal /\
   cgst_amount intra = gstTotal / nlit 2 /\
   sgst_amount intra = gstTotal / nlit 2 /\
   igst_amount intra = nlit 0) /\
  (item_total_amount inter = base /\
   item_gst_total inter = gstTotal /\
   cgst_amount inter = nlit 0 /\
   sgst_amount inter = nlit 0 /\
   igst_amount inter = gstTotal).

(** Scenarios A and B: one line, quantity 2, rate 100, GST 18%. *)
Definition ScenarioAB : Prop :=
  let intra := lineItems (Scenario.invoice IntraState [Scenario.item]) in
  let inter := lineItems (Scenario.invoice InterState [Scenario.item]) in
  (map item_total_amount intra = [nlit 200] /\
   map item_gst_total intra = [nlit 36] /\
   map cgst_amount intra = [nlit 18] /\
   map sgst_amount intra = [nlit 18] /\
   map igst_amount intra = [nlit 0] /\
   CreateEditInvoice.totalAmount intra = nlit 236) /\
  (map item_total_amount inter = [nlit 200] /\
   map item_gst_total inter = [nlit 36] /\
   map cgst_amount inter = [nlit 0] /\
   map sgst_amount inter = [nlit 0] /\
   map igst_amount inter = [nlit 36] /\
   CreateEditInvoice.totalAmount inter = nlit 236).
End SplitStatements.

Arguments ScenarioAB num {_}.

Section SumStatements.
Context (num : Type) `{Number num}.
Import CreateEditInvoice CreateEditExpense.
Local Open Scope num_scope.

(** [cgst + sgst + igst] of a purchase. *)
Definition splitSum (r : GSTAmounts num) : num :=
  cgstInputCredit r + sgstInputCredit r + igstInputCredit r.

(** [cgst + sgst + igst] of an invoice line. *)
Definition lineSum (l : LineItem num) : num :=
  cgst_amount l + sgst_amount l + igst_amount l.

(** The three components sum to [base * rate / 100], up to [close],
    for every base of at least 0, every rate from 0 to 28 and every
    supply type. *)
Definition SplitSumsToTotal (close : num -> num -> Prop) : Prop :=
  forall (base rate : num) (supply : SupplyType),
    nleb (nlit 0) base = true ->
    nleb (nlit 0) rate = true ->
    nleb rate (nlit 28) = true ->
    close (splitSum (calculateGSTAmounts base rate supply))
          ((base * rate) / nlit 100).

(** Scenario C: a purchase of 1000 at 5%, GST not applicable. *)
Definition ScenarioC : Prop :=
  let r := calculateGSTAmounts (nlit 1000) (nlit 5) NotApplicable in
  gstPaidAmount r = nlit 0 /\
  CreateEditExpense.totalAmount r = nlit 1000.
End SumStatements.

Arguments SplitSumsToTotal num {_} close.
Arguments ScenarioC num {_}.

(** The tolerance [1e-9]. *)
Definition tolerance : float := 1e-9%float.

(** ** Saving an invoice *)

(** The invoice a save writes: the one edited, or the one created. *)
Definition savedId (id : option uuid) (srv : Server) : uuid :=
  match id with
  | Some i => i
  | None => fresh srv 0
  end.

Section SaveStatements.
Context (num : Type) `{Number num}.
Import CreateEditInvoice.
Local Open Scope num_scope.

(** A line of quantity 1.5 at 0.33, GST 18%. *)
Definition fractionalItem : ItemValues num :=
  {| fi_product_service_id := None;
     fi_item_description := "Cable, per metre"%string;
     fi_quantity := nlit 15 / nlit 10;
     fi_rate := nlit 33 / nlit 100;
     fi_gst_rate_percentage := nlit 18 |}.

(** Two lines, 2 at 100 and 1 at 50, both at 18%: 250, 45 and 295.
    And one line of 1.5 at 0.33, created as an invoice on
    [Scenario.db]: the totals computed are 0.495, 0.0891 and 0.5841,
    the row is stored with 0.50, 0.09 and 0.58. *)
Definition ScenarioSave : Prop :=
  let two :=
    lineItems (Scenario.invoice IntraState [Scenario.item; priced (nlit 50)]) in
  let data := Scenario.invoice InterState [fractionalItem] in
  let its := lineItems data in
  let out :=
    onSubmit (Some Scenario.profile) None Scenario.server Scenario.db data in
  (subTotal two = nlit 250 /\
   totalGst two = nlit 45 /\
   totalAmount two = nlit 295) /\
  (subTotal its = nlit 495 / nlit 1000 /\
   totalGst its = nlit 891 / nlit 10000 /\
   totalAmount its = nlit 5841 / nlit 10000) /\
  snd out = ToastSuccess "Invoice created successfully"%string /\
  map (fun r =>
         (invoices.sub_total_amount r, invoices.total_gst_amount r,
          invoices.total_invoice_amount r))
      (filter (isInvoice "A-new"%string "co-1"%string) (tbl_invoices (fst out)))
  = [(nlit 50 / nlit 100, nlit 9 / nlit 100, nlit 58 / nlit 100)].
End SaveStatements.

Arguments ScenarioSave num {_}.

(** ** Days of the calendar *)

Definition digitValue (c : ascii) : Z := (Z.of_N (N_of_ascii c) - 48)%Z.

(** The day a text [yyyy-MM-dd] names, with the month counted from 0
    as [Date] counts it. *)
Definition readDate (s : string) : MonthNavigation.Date :=
  match s with
  | String a (String b (String c (String d (String _
      (String e (String f (String _ (String g (String h _))))))))) =>
      {| MonthNavigation.year :=
           1000 * digitValue a + 100 * digitValue b
           + 10 * digitValue c + digitValue d;
         MonthNavigation.month := 10 * digitValue e + digitValue f - 1;
         MonthNavigation.day := 10 * digitValue g + digitValue h |}
  | _ =>
      {| MonthNavigation.year := 0; MonthNavigation.month := 0;
         MonthNavigation.day := 0 |}
  end%Z.

(** A day of a year of four digits. *)
Definition isDate (d : MonthNavigation.Date) : bool :=
  ((0 <=? MonthNavigation.year d) && (MonthNavigation.year d <=? 9999) &&
   (0 <=? MonthNavigation.month d) && (MonthNavigation.month d <=? 11) &&
   (1 <=? MonthNavigation.day d) && (MonthNavigation.day d <=? 31))%Z.

(** [s] is the text of such a day, as a column of type [date] gives
    it. *)
Definition isDateText (s : string) : bool :=
  isDate (readDate s) && String.eqb (MonthNavigation.format (readDate s)) s.

(** [a] is the day [b] or an earlier day. *)
Definition notAfter (a b : MonthNavigation.Date) : bool :=
  ((MonthNavigation.year a <? MonthNavigation.year b)
   || ((MonthNavigation.year a =? MonthNavigation.year b)
       && ((MonthNavigation.month a <? MonthNavigation.month b)
           || ((MonthNavigation.month a =? MonthNavigation.month b)
               && (MonthNavigation.day a <=? MonthNavigation.day b)))))%Z.

(** The day [d] names is one of the days from [first] to [last], both
    counted. *)
Definition inPeriod (first last : MonthNavigation.Date) (d : date) : bool :=
  notAfter first (readDate d) && notAfter (readDate d) last.

(** The dates of the invoices and of the expenses are texts of
    days. *)
Definition Dated {num} (db : Database num) : bool :=
  forallb (fun r => isDateText (invoices.invoice_date r)) (tbl_invoices db) &&
  forallb (fun x => isDateText (expenses.expense_date x)) (tbl_expenses db).

(** June 2025. *)
Definition june1 : MonthNavigation.Date :=
  {| MonthNavigation.year := 2025; MonthNavigation.month := 5;
     MonthNavigation.day := 1 |}.

Definition june30 : MonthNavigation.Date :=
  {| MonthNavigation.year := 2025; MonthNavigation.month := 5;
     MonthNavigation.day := 30 |}.

(** ** The period reports *)

Section PeriodRows.
Context {num : Type}.

(** An invoice the reports count for the company in the days from
    [first] to [last]: one of the company, not a draft, dated in
    them. *)
Definition isSale (company : uuid) (first last : MonthNavigation.Date)
    (r : invoices.row num) : bool :=
  String.eqb (invoices.company_id r) company &&
  negb (InvoiceStatus_eqb (invoices.status r) Draft) &&
  inPeriod first last (invoices.invoice_date r).

(** An expense of the company dated in those days. *)
Definition isPurchase (company : uuid) (first last : MonthNavigation.Date)
    (x : expenses.row num) : bool :=
  String.eqb (expenses.company_id x) company &&
  inPeriod first last (expenses.expense_date x).

(** An Expense account of the company. *)
Definition isExpenseAccount (company : uuid) (a : accounts.row) : bool :=
  String.eqb (accounts.company_id a) company &&
  AccountType_eqb (accounts.account_type a) Expense.
End PeriodRows.

Section ProfitLossStatements.
Context (num : Type) `{Number num}.
Import ProfitLossReport.
Local Open Scope num_scope.

(** What a loaded Profit & Loss report holds for the days from
    [first] to [last]: as total sales the sum, from 0 and in the order
    of the table, of the subtotals of the invoices counted; one line
    for each Expense account of the company and for no other account,
    its total the sum of the amounts before GST of the expenses of
    those days booked on the account; as net profit the total sales
    less the sum of the lines' totals. *)
Definition ProfitLossShows (company : uuid)
    (first last : MonthNavigation.Date) (db : Database num) (st : State num)
  : Prop :=
  totalSales st
  = orZero
      (fold_left (fun sum r => sum + orZero (invoices.sub_total_amount r))
         (filter (isSale company first last) (tbl_invoices db)) (nlit 0)) /\
  Permutation (map account (expensesByAccount st))
    (filter (isExpenseAccount company) (tbl_accounts db)) /\
  (forall line,
      In line (expensesByAccount st) ->
      total line
      = orZero
          (fold_left (fun sum x => sum + orZero (expenses.amount_before_gst x))
             (filter
                (fun x =>
                   isPurchase company first last x &&
                   String.eqb (expenses.expense_account_id x)
                     (accounts.id (account line)))
                (tbl_expenses db))
             (nlit 0))) /\
  netProfit st
  = totalSales st
    - fold_left (fun sum line => sum + total line) (expensesByAccount st)
        (nlit 0).

(** Scenario D, with a purchase of 800 besides: June 2025 of
    [Scenario.db]. *)
Definition ScenarioD : Prop :=
  let st :=
    fst (fetchReportData (Some Scenario.profile)
           "2025-06-01"%string "2025-06-30"%string
           Scenario.server Scenario.db
           {| totalSales := nlit 0; expensesByAccount := [] |}) in
  totalSales st = nlit 500 /\
  map total (expensesByAccount st) = [nlit 800; nlit 0] /\
  netProfit st = nlit (-300) /\
  netLine st = ("Net Loss"%string, nlit 300).

(** June 2025 of [Scenario.around]: the invoices of 1 June and of 30
    June count, those of 31 May, of 1 July and of June 2024 do not,
    nor does the draft; the purchase of 30 June counts, on Rent, those
    of 31 May and 1 July do not. *)
Definition ScenarioAround : Prop :=
  let st :=
    fst (fetchReportData (Some Scenario.profile)
           (MonthNavigation.format june1) (MonthNavigation.format june30)
           Scenario.server Scenario.around
           {| totalSales := nlit 0; expensesByAccount := [] |}) in
  totalSales st = nlit 800 /\
  map (fun line => (accounts.account_name (account line), total line))
    (expensesByAccount st)
  = [("Purchases/Direct Expenses"%string, nlit 800);
     ("Rent"%string, nlit 500)] /\
  netProfit st = nlit (-500).
End ProfitLossStatements.

Arguments ScenarioD num {_}.
Arguments ScenarioAround num {_}.

Section GSTStatements.
Context (num : Type) `{Number num}.
Import GSTReport.
Local Open Scope num_scope.

(** The line items of the invoices counted, in the order the report
    visits them: invoice by invoice in the order of the table, the
    lines of each in the order of theirs. *)
Definition linesCounted (company : uuid) (first last : MonthNavigation.Date)
    (db : Database num) : list (invoice_items.row num) :=
  flat_map
    (fun invoice =>
       filter
         (fun it =>
            String.eqb (invoice_items.invoice_id it) (invoices.id invoice))
         (tbl_invoice_items db))
    (filter (isSale company first last) (tbl_invoices db)).

(** What a loaded GST summary holds for the days from [first] to
    [last], and the net payable computed from it: for each tax head
    the sum of the head over the lines counted, the sum of its input
    credit over the expenses of those days, and as net value the
    first less the second. *)
Definition GSTShows (company : uuid) (first last : MonthNavigation.Date)
    (db : Database num) (summary : GSTSummary num) : Prop :=
  let lines := linesCounted company first last db in
  let bought := filter (isPurchase company first last) (tbl_expenses db) in
  let over {A} (f : A -> num) (rows : list A) :=
    fold_left (fun sum row => sum + orZero (f row)) rows (nlit 0) in
  (sales.cgst (sales summary) = over (@invoice_items.cgst_amount num) lines /\
   sales.sgst (sales summary) = over (@invoice_items.sgst_amount num) lines /\
   sales.igst (sales summary) = over (@invoice_items.igst_amount num) lines) /\
  (purchases.cgstInput (purchases summary)
   = over (@expenses.cgst_input_credit num) bought /\
   purchases.sgstInput (purchases summary)
   = over (@expenses.sgst_input_credit num) bought /\
   purchases.igstInput (purchases summary)
   = over (@expenses.igst_input_credit num) bought) /\
  (cgst (netGSTPayable summary)
   = over (@invoice_items.cgst_amount num) lines
     - over (@expenses.cgst_input_credit num) bought /\
   sgst (netGSTPayable summary)
   = over (@invoice_items.sgst_amount num) lines
     - over (@expenses.sgst_input_credit num) bought /\
   igst (netGSTPayable summary)
   = over (@invoice_items.igst_amount num) lines
     - over (@expenses.igst_input_credit num) bought).

Definition blankSummary : GSTSummary num :=
  {| sales :=
       {| sales.taxableValue := nlit 0; sales.cgst := nlit 0;
          sales.sgst := nlit 0; sales.igst := nlit 0 |};
     purchases :=
       {| purchases.taxableValue := nlit 0;
          purchases.cgstInput := nlit 0;
          purchases.sgstInput := nlit 0;
          purchases.igstInput := nlit 0 |} |}.

(** Scenario E: June 2025 of [Scenario.db], CGST 18 on sales against
    an input credit of 20. *)
Definition ScenarioE : Prop :=
  let summary :=
    fst (fetchGSTData (Some Scenario.profile)
           "2025-06-01"%string "2025-06-30"%string
           Scenario.server Scenario.db blankSummary) in
  sales.cgst (sales summary) = nlit 18 /\
  purchases.cgstInput (purchases summary) = nlit 20 /\
  cgst (netGSTPayable summary) = nlit (-2) /\
  sgst (netGSTPayable summary) = nlit (-2) /\
  igst (netGSTPayable summary) = nlit 0 /\
  netCell (cgst (netGSTPayable summary)) = (nlit 2, " (Credit)"%string).

(** June 2025 of [Scenario.around]: CGST 18, 1 and 2 on the lines of
    the three invoices counted against input credits of 20 and 5. *)
Definition ScenarioAroundE : Prop :=
  let summary :=
    fst (fetchGSTData (Some Scenario.profile)
           (MonthNavigation.format june1) (MonthNavigation.format june30)
           Scenario.server Scenario.around blankSummary) in
  sales.cgst (sales summary) = nlit 21 /\
  sales.sgst (sales summary) = nlit 21 /\
  sales.igst (sales summary) = nlit 0 /\
  purchases.cgstInput (purchases summary) = nlit 25 /\
  cgst (netGSTPayable summary) = nlit (-4) /\
  sgst (netGSTPayable summary) = nlit (-4) /\
  igst (netGSTPayable summary) = nlit 0.
End GSTStatements.

Arguments ScenarioE num {_}.
Arguments ScenarioAroundE num {_}.
Arguments blankSummary {num _}.

(** The step of a sum of [f(item) || 0] over line items. *)
Definition plusOrZero {num} `{Number num} (f : invoice_items.row num -> num)
  : num -> invoice_items.row num -> num :=
  fun sum it => (sum + orZero (f it))%num.

(** ** Default accounts *)

Section AccountStatements.
Import ChartOfAccounts.

(** The default accounts of a table. *)
Definition defaults (rows : list accounts.row) : list accounts.row :=
  filter accounts.is_default rows.

(** What ties the page to the table: identifiers are unique in the
    table; no row of the table that shares its identifier with an
    account listed as editable, or with the account being edited, is
    a default account; and the account being edited is not one. *)
Definition Consistent {num} (db : Database num) (st : State) : Prop :=
  NoDup (map accounts.id (tbl_accounts db)) /\
  (forall a,
      In a (accounts st) -> accounts.is_default a = false ->
      forall r, In r (tbl_accounts db) -> accounts.id r = accounts.id a ->
                accounts.is_default r = false) /\
  (forall e,
      editingAccount st = Some e ->
      accounts.is_default e = false /\
      forall r, In r (tbl_accounts db) -> accounts.id r = accounts.id e ->
                accounts.is_default r = false).
End AccountStatements.

Section Seeding.
Context (num : Type).

(** The accounts of a company. *)
Definition accountsOf (company : uuid) (db : Database num) : list accounts.row :=
  filter (fun a => String.eqb (accounts.company_id a) company) (tbl_accounts db).

(** The call of [create_default_accounts] made for [company] during
    [createCompanyProfile] gets through. *)
Definition Seeds (srv : Server) (company : uuid) (db : Database num) : Prop :=
  request srv 1
    (Migration.create_default_accounts (fun k => fresh srv (S k)) company
       (tbl_accounts db))
  <> None.

(** Every account belongs to a company of the database. *)
Definition AccountsHaveCompany (db : Database num) : Prop :=
  forall a, In a (tbl_accounts db) ->
            In (accounts.company_id a)
               (map company_profiles.id (tbl_company_profiles db)).
End Seeding.

Arguments accountsOf {num} company db.
Arguments Seeds {num} srv company db.
Arguments AccountsHaveCompany {num} db.

(** ** What the invoice form accepts *)

Section Accepted.
Context (num : Type) `{Number num}.
Import CreateEditInvoice.

(** A number the schema takes that is at least [lo]. *)
Definition AtLeast (lo x : num) : Prop :=
  nisnan x = false /\ nltb x lo = false.

(** A line with a description, a quantity of at least 0.01, a rate of
    at least 0 and a GST rate from 0 to 28. *)
Definition ItemAccepted (it : ItemValues num) : Prop :=
  fi_item_description it <> ""%string /\
  AtLeast oneHundredth (fi_quantity it) /\
  AtLeast (nlit 0) (fi_rate it) /\
  AtLeast (nlit 0) (fi_gst_rate_percentage it) /\
  nltb (nlit 28) (fi_gst_rate_percentage it) = false.

(** A form with a customer name, an invoice number and a date, a GSTIN
    that is absent, empty or well formed, a supply type of a sale, and
    at least one line, all lines accepted. *)
Definition FormAccepted (data : FormValues num) : Prop :=
  customer_name data <> ""%string /\
  (customer_gstin data = None \/
   customer_gstin data = Some ""%string \/
   exists s, customer_gstin data = Some s /\ gstinRegex s = true) /\
  invoice_number data <> ""%string /\
  invoice_date data <> ""%string /\
  place_of_supply_type data <> NotApplicable /\
  items data <> [] /\
  Forall ItemAccepted (items data).
End Accepted.

(** ** The status of an invoice on the list page *)

(** A status and a later status of the same invoice: the same, or on
    from Draft to Sent or Paid, or from Sent to Paid. *)
Definition advances (s s' : InvoiceStatus) : Prop :=
  s' = s \/ (s = Draft /\ (s' = Sent \/ s' = Paid)) \/ (s = Sent /\ s' = Paid).

(** The status [listed] on the page and the status [stored]: the same,
    or the stored one a step ahead. *)
Definition near (listed stored : InvoiceStatus) : Prop :=
  stored = listed \/ (listed = Draft /\ stored = Sent) \/
  (listed = Sent /\ stored = Paid).

Section StatusStatements.
Context {num : Type}.

(** [db'] holds the invoices of [db], in the same order, each with
    nothing but its status changed, and that status advanced; no other
    table differs. *)
Definition StatusOnlyAdvances (db db' : Database num) : Prop :=
  Forall2
    (fun r r' =>
       r' = Invoices.statusPatch (invoices.status r') r /\
       advances (invoices.status r) (invoices.status r'))
    (tbl_invoices db) (tbl_invoices db') /\
  tbl_company_profiles db' = tbl_company_profiles db /\
  tbl_accounts db' = tbl_accounts db /\
  tbl_invoice_items db' = tbl_invoice_items db /\
  tbl_expenses db' = tbl_expenses db.

(** What ties the list of the page to the table: identifiers are unique
    in both, and a listed invoice is the stored one of the same
    identifier or one step behind it. *)
Definition Tracks (db : Database num) (st : Invoices.State (num:=num)) : Prop :=
  NoDup (map (@invoices.id num) (tbl_invoices db)) /\
  NoDup (map (@invoices.id num) st) /\
  forall s r,
    In s st -> In r (tbl_invoices db) -> invoices.id r = invoices.id s ->
    near (invoices.status s) (invoices.status r).
End StatusStatements.

(** ** The period of the reports *)

Section PeriodStatements.
Import MonthNavigation.

(** The calendar month number [index], counted from January of year 0:
    from its first day to its last. *)
Definition monthOf (index : Z) : State :=
  let y := (index / 12)%Z in
  let m := (index mod 12)%Z in
  {| startDate := {| year := y; month := m; day := 1 |};
     endDate := {| year := y; month := m; day := getDaysInMonth y m |} |}.

(** The buttons pressed, in turn: [true] for Next, [false] for
    Previous. *)
Definition navigate (st : State) (clicks : list bool) : State :=
  fold_left (fun s (next : bool) => if next then nextMonth s else previousMonth s)
    clicks st.

(** Next counts one month on, Previous one month back. *)
Definition offset (clicks : list bool) : Z :=
  fold_left (fun n (next : bool) => if next then (n + 1)%Z else (n - 1)%Z)
    clicks 0%Z.
End PeriodStatements.

(** ** The two reports side by side *)

Section ReportStatements.
Context (num : Type) `{Number num}.
Local Open Scope num_scope.

(** Every expense of the company dated in the days from [first] to
    [last] is booked on an Expense account of the company. *)
Definition BookedOnExpenseAccounts (company : uuid)
    (first last : MonthNavigation.Date) (db : Database num) : Prop :=
  forall x,
    In x (tbl_expenses db) ->
    isPurchase company first last x = true ->
    exists a,
      In a (tbl_accounts db) /\
      accounts.id a = expenses.expense_account_id x /\
      isExpenseAccount company a = true.

(** The expenses of those days booked on the account [a]. *)
Definition bookedOn (company : uuid) (first last : MonthNavigation.Date)
    (db : Database num) (a : accounts.row) : list (expenses.row num) :=
  filter
    (fun x =>
       isPurchase company first last x &&
       String.eqb (expenses.expense_account_id x) (accounts.id a))
    (tbl_expenses db).

(** The sum, from 0 and in the order of the list, of the amounts
    before GST of the expenses [rows]. *)
Definition amountsOf (rows : list (expenses.row num)) : num :=
  fold_left (fun sum x => sum + orZero (expenses.amount_before_gst x)) rows
    (nlit 0).

(** What a Profit & Loss report and a GST summary of the same days
    have in common.  The total sales of the first are the taxable
    value of the sales of the second, with [|| 0] applied once more.
    The total expenses of the first are the sum over its lines of the
    sums of the expenses booked on the account of the line, the
    taxable value of the purchases of the second is the sum of the
    expenses of those days in the order of the table; and with
    accounts of distinct identifiers and every expense booked on an
    Expense account, the expenses the first sums line by line are the
    expenses the second sums, each as often, in another order. *)
Definition CountTheSame (company : uuid) (first last : MonthNavigation.Date)
    (db : Database num) (report : ProfitLossReport.State num)
    (gst : GSTReport.GSTSummary num) : Prop :=
  let lines := map ProfitLossReport.account
                 (ProfitLossReport.expensesByAccount report) in
  let bought := filter (isPurchase company first last) (tbl_expenses db) in
  ProfitLossReport.totalSales report
  = orZero (GSTReport.sales.taxableValue (GSTReport.sales gst)) /\
  ProfitLossReport.totalExpenses report
  = fold_left
      (fun sum a => sum + orZero (amountsOf (bookedOn company first last db a)))
      lines (nlit 0) /\
  GSTReport.purchases.taxableValue (GSTReport.purchases gst)
  = amountsOf bought /\
  (NoDup (map accounts.id (tbl_accounts db)) ->
   BookedOnExpenseAccounts company first last db ->
   Permutation (flat_map (bookedOn company first last db) lines) bought).

(** Purchases of a tenth, booked on "Purchases/Direct Expenses", and
    of two and of three tenths, booked on "Rent", in June 2025. *)
Definition tenthsBooked : Database num :=
  {| tbl_company_profiles := [Scenario.profile];
     tbl_accounts := tbl_accounts (Scenario.db (num:=num));
     tbl_invoices := [];
     tbl_invoice_items := [];
     tbl_expenses :=
       [Scenario.purchase "exp-1"%string "acc-2"%string (nlit 1 / nlit 10)
          (nlit 0) (nlit 0) (nlit 0);
        Scenario.purchase "exp-2"%string "acc-3"%string (nlit 2 / nlit 10)
          (nlit 0) (nlit 0) (nlit 0);
        Scenario.purchase "exp-3"%string "acc-3"%string (nlit 3 / nlit 10)
          (nlit 0) (nlit 0) (nlit 0)] |}.

(** The total expenses of the Profit & Loss report and the taxable
    value of the purchases of the GST summary of June 2025 on
    [tenthsBooked]. *)
Definition tenthsTotals : num * num :=
  (ProfitLossReport.totalExpenses
     (fst (ProfitLossReport.fetchReportData (Some Scenario.profile)
             (MonthNavigation.format june1) (MonthNavigation.format june30)
             Scenario.server tenthsBooked
             {| ProfitLossReport.totalSales := nlit 0;
                ProfitLossReport.expensesByAccount := [] |})),
   GSTReport.purchases.taxableValue
     (GSTReport.purchases
        (fst (GSTReport.fetchGSTData (Some Scenario.profile)
                (MonthNavigation.format june1) (MonthNavigation.format june30)
                Scenario.server tenthsBooked blankSummary)))).
End ReportStatements.

Arguments BookedOnExpenseAccounts {num} company first last db.
Arguments bookedOn {num} company first last db a.
Arguments amountsOf {num _} rows.
Arguments CountTheSame {num _} company first last db report gst.
Arguments tenthsBooked {num _}.
Arguments tenthsTotals num {_}.

(** ** Signs in binary64 *)

(** A double that is not below zero: a zero, a positive number, the
    positive infinity, or NaN. *)
Definition notNegative (x : spec_float) : Prop :=
  match x with
  | S754_infinity s | S754_finite s _ _ => s = false
  | S754_zero _ | S754_nan => True
  end.

(** ** Halves in binary64 *)

(** The double 2, and [x / 2 + x / 2 + 0] on doubles. *)
Definition SFtwo : spec_float := S754_finite false 4503599627370496 (-51).

Definition SFhalves (x : spec_float) : spec_float :=
  SFadd prec emax
    (SFadd prec emax (SFdiv prec emax x SFtwo) (SFdiv prec emax x SFtwo))
    (S754_zero false).

(** ** Bounds and frames of a saved invoice *)

(** The share of GST at the highest rate, 28/100. *)
Definition topShare : Qc := (nlit 28 / nlit 100)%num.

Section FrameStatements.
Context {num : Type} `{Number num}.
Import CreateEditInvoice.

(** The tables and rows a save of the invoice [saved] has no business
    with are the same in [db] and [db']. *)
Definition OthersUntouched (company saved : uuid) (db db' : Database num)
  : Prop :=
  tbl_company_profiles db' = tbl_company_profiles db /\
  tbl_accounts db' = tbl_accounts db /\
  tbl_expenses db' = tbl_expenses db /\
  filter (fun r => negb (isInvoice saved company r)) (tbl_invoices db')
  = filter (fun r => negb (isInvoice saved company r)) (tbl_invoices db) /\
  filter (fun it => negb (String.eqb (invoice_items.invoice_id it) saved))
    (tbl_invoice_items db')
  = filter (fun it => negb (String.eqb (invoice_items.invoice_id it) saved))
      (tbl_invoice_items db).

End FrameStatements.

(** ** Further scenarios *)

(** A product of the catalogue: consulting at 1500, GST 18%. *)
Definition sampleProduct {num} `{Number num} : products_services.row num :=
  {| products_services.id := "prod-1"%string;
     products_services.company_id := "co-1"%string;
     products_services.item_name := "Consulting"%string;
     products_services.hsn_sac_code := None;
     products_services.default_sale_price := nlit 1500;
     products_services.default_gst_rate := nlit 18 |}.

(** A server that refuses the k-th request of a handler and accepts
    the others. *)
Definition serverFailingAt (k : nat) : Server :=
  {| accepts := fun j => negb (j =? k)%nat;
     fresh := fresh Scenario.server |}.

(** * Properties *)

(** ** Arithmetic facts of the two instances *)

Ltac dec_eq := apply Qc_is_canon; vm_compute; reflexivity.

Lemma Dec_add_0_r (x : Qc) : (x + nlit 0)%num = x.
Proof. cbn. change (Dec.of_Z 0) with (Q2Qc 0). apply Qcplus_0_r. Qed.

Lemma Dec_add_0_l (x : Qc) : (nlit 0 + x)%num = x.
Proof. cbn. change (Dec.of_Z 0) with (Q2Qc 0). apply Qcplus_0_l. Qed.

(** Two halves make the whole. *)
Lemma Dec_halves (x : Qc) : (x / nlit 2 + x / nlit 2)%num = x.
Proof.
  cbn. unfold Qcdiv. rewrite <- Qcmult_plus_distr_r.
  assert (Hone : (/ Dec.of_Z 2 + / Dec.of_Z 2)%Qc = 1%Qc) by dec_eq.
  rewrite Hone. apply Qcmult_1_r.
Qed.

Lemma F64_is_nan_spec (x : float) :
  PrimFloat.is_nan x = match Prim2SF x with S754_nan => true | _ => false end.
Proof.
  unfold PrimFloat.is_nan. rewrite eqb_spec. unfold SFeqb, SFcompare.
  destruct (Prim2SF x) as [s| s | | s m e]; try (destruct s); try reflexivity;
    cbn; rewrite Z.compare_refl, ?Pos.compare_cont_refl, ?Pos.compare_refl;
    reflexivity.
Qed.

(** [x === x + 0] for every number [x] that is not NaN. *)
Lemma F64_add_0_r (x : float) :
  (PrimFloat.is_nan x || PrimFloat.eqb x (x + nlit 0)%num)%bool = true.
Proof.
  rewrite F64_is_nan_spec. cbn [nadd nlit F64.number].
  rewrite eqb_spec, add_spec.
  change (Prim2SF (F64.of_Z 0)) with (S754_zero false).
  unfold SF64add, SFadd, SFeqb, SFcompare.
  destruct (Prim2SF x) as [s| s | | s m e]; try (destruct s); try reflexivity;
    cbn; rewrite Z.compare_refl, ?Pos.compare_cont_refl, ?Pos.compare_refl;
    reflexivity.
Qed.

(** The bound [0.01] of the quantity check is the binary64 number the
    literal [0.01] denotes. *)
Lemma F64_oneHundredth :
  CreateEditInvoice.oneHundredth = 0.01%float.
Proof. reflexivity. Qed.

(** [0 + 0 + x === x] for every number [x] that is not NaN. *)
Lemma F64_add_0_l (x : float) :
  (PrimFloat.is_nan x || PrimFloat.eqb (nlit 0 + nlit 0 + x)%num x)%bool = true.
Proof.
  rewrite F64_is_nan_spec. cbn [nadd nlit F64.number].
  change (F64.of_Z 0 + F64.of_Z 0)%float with (F64.of_Z 0).
  rewrite eqb_spec, add_spec.
  change (Prim2SF (F64.of_Z 0)) with (S754_zero false).
  unfold SF64add, SFadd, SFeqb, SFcompare.
  destruct (Prim2SF x) as [s| s | | s m e]; try (destruct s); try reflexivity;
    cbn; rewrite Z.compare_refl, ?Pos.compare_cont_refl, ?Pos.compare_refl;
    reflexivity.
Qed.

(** ** Halves in binary64 *)

Section F64Halves.
Local Open Scope Z_scope.

Lemma digits2_pos_succ (p : positive) :
  (Zpos (digits2_pos (Pos.succ p)) <= Zpos (digits2_pos p) + 1)%Z.
Proof.
  induction p as [p IH | p IH |]; cbn [Pos.succ digits2_pos]; lia.
Qed.

Lemma fexp_eq (x : Z) : fexp prec emax x = Z.max (x - 53) (-1074).
Proof. reflexivity. Qed.

Lemma bounded_spec (m : positive) (e : Z) :
  bounded prec emax m e = true <->
  Z.max (Zpos (digits2_pos m) + e - 53) (-1074) = e /\ e <= 971.
Proof.
  unfold bounded, canonical_mantissa. rewrite andb_true_iff, Z.eqb_eq, Z.leb_le.
  rewrite fexp_eq. reflexivity.
Qed.

(** Rounding a mantissa that fits. *)
Lemma binary_round_aux_fits (s : bool) (m : positive) (e : Z) :
  Z.max (Zpos (digits2_pos m) + e - 53) (-1074) = e -> e <= 971 ->
  binary_round_aux prec emax s (Zpos m) e loc_Exact = S754_finite s m e.
Proof.
  intros Hcanon Hle. unfold binary_round_aux, shr_fexp.
  cbn [Zdigits2 shr_record_of_loc]. rewrite fexp_eq, Hcanon, Z.sub_diag.
  cbn [shr shr_m loc_of_shr_record round_nearest_even Zdigits2 shr_record_of_loc].
  rewrite fexp_eq, Hcanon, Z.sub_diag. cbn [shr shr_m].
  replace (e <=? emax - prec) with true; [reflexivity |].
  symmetry. apply Z.leb_le. exact Hle.
Qed.

(** Rounding an even mantissa that is one bit too long. *)
Lemma binary_round_aux_even (s : bool) (m : positive) (e : Z) :
  Z.max (Zpos (digits2_pos m) + (e + 1) - 53) (-1074) = e + 1 -> e + 1 <= 971 ->
  binary_round_aux prec emax s (Zpos m~0) e loc_Exact = S754_finite s m (e + 1).
Proof.
  intros Hcanon Hle. unfold binary_round_aux, shr_fexp.
  cbn [Zdigits2 shr_record_of_loc digits2_pos]. rewrite fexp_eq.
  replace (Z.max (Zpos (Pos.succ (digits2_pos m)) + e - 53) (-1074) - e) with 1
    by lia.
  cbn [shr iter_pos shr_1 orb shr_m loc_of_shr_record round_nearest_even
       Zdigits2 shr_record_of_loc].
  rewrite fexp_eq, Hcanon, Z.sub_diag. cbn [shr shr_m].
  replace (e + 1 <=? emax - prec) with true; [reflexivity |].
  symmetry. apply Z.leb_le. exact Hle.
Qed.

(** A number added to itself. *)
Lemma SFadd_self (s : bool) (m : positive) (e : Z) :
  Z.max (Zpos (digits2_pos m) + e - 53) (-1074) = e ->
  SFadd prec emax (S754_finite s m e) (S754_finite s m e)
  = binary_round_aux prec emax s (Zpos m~0) e loc_Exact.
Proof.
  intro Hcanon. unfold SFadd. rewrite Z.min_id.
  unfold shl_align at 1 2. rewrite Z.sub_diag. cbn [fst].
  assert (Hsum : cond_Zopp s (Zpos m) + cond_Zopp s (Zpos m)
                 = cond_Zopp s (Zpos m~0)) by (destruct s; cbn; lia).
  rewrite Hsum.
  assert (Hround : binary_round prec emax s m~0 e
                   = binary_round_aux prec emax s (Zpos m~0) e loc_Exact).
  { unfold binary_round, shl_align. rewrite fexp_eq. cbn [digits2_pos].
    destruct (Z.max (Zpos (Pos.succ (digits2_pos m)) + e - 53) (-1074) - e)
      eqn:Hdiff; try reflexivity. lia. }
  destruct s; cbn [cond_Zopp Z.opp binary_normalize]; exact Hround.
Qed.

Lemma div_eucl_pow2 (m : positive) (n : Z) :
  52 <= n ->
  Z.div_eucl (Zpos m * 2 ^ n) 4503599627370496 = (Zpos m * 2 ^ (n - 52), 0).
Proof.
  intro Hn.
  assert (Hpow : 2 ^ n = 4503599627370496 * 2 ^ (n - 52)).
  { change 4503599627370496 with (2 ^ 52). rewrite <- Z.pow_add_r by lia.
    f_equal. lia. }
  assert (Hpos : 0 < 2 ^ (n - 52)) by (apply Z.pow_pos_nonneg; lia).
  rewrite Hpow. generalize dependent (2 ^ (n - 52)). intros k _ Hk.
  pose proof (Z.div_eucl_eq (Zpos m * (4503599627370496 * k)) 4503599627370496)
    as Heq.
  pose proof (Z.mod_pos_bound (Zpos m * (4503599627370496 * k)) 4503599627370496)
    as Hbd.
  unfold Z.modulo in Hbd.
  destruct (Z.div_eucl (Zpos m * (4503599627370496 * k)) 4503599627370496)
    as [q r].
  assert (q = Zpos m * k /\ r = 0) as [-> ->] by nia. reflexivity.
Qed.

(** Half of a number above the lowest binade is exact. *)
Lemma SFdiv_two_exact (s : bool) (m : positive) (e : Z) :
  bounded prec emax m e = true -> -1074 < e ->
  SFdiv prec emax (S754_finite s m e) SFtwo = S754_finite s m (e - 1).
Proof.
  intros Hb He. apply bounded_spec in Hb. destruct Hb as [Hcanon Hle].
  assert (Hd : Zpos (digits2_pos m) = 53) by lia.
  unfold SFdiv, SFtwo, SFdiv_core_binary. cbn [Zdigits2]. rewrite Hd.
  change (Zpos (digits2_pos 4503599627370496)) with 53.
  rewrite fexp_eq, xorb_false_r.
  destruct (Z.eq_dec e (-1073)) as [Heq | Hne].
  - replace (Z.min (Z.max (53 + e - (53 + -51) - 53) (-1074)) (e - -51))
      with (-1074) by lia.
    replace (e - -51 - -1074) with 52 by lia. cbv iota.
    rewrite Z.shiftl_mul_pow2 by lia.
    rewrite (@div_eucl_pow2 m 52) by lia.
    change (Zpos m * 2 ^ (52 - 52)) with (Zpos m * 1). rewrite Z.mul_1_r.
    change (new_location 4503599627370496 0) with loc_Exact.
    replace (e - 1) with (-1074) by lia.
    apply binary_round_aux_fits; lia.
  - replace (Z.min (Z.max (53 + e - (53 + -51) - 53) (-1074)) (e - -51))
      with (e - 2) by lia.
    replace (e - -51 - (e - 2)) with 53 by lia. cbv iota.
    rewrite Z.shiftl_mul_pow2 by lia.
    rewrite (@div_eucl_pow2 m 53) by lia.
    change (2 ^ (53 - 52)) with 2.
    replace (Zpos m * 2) with (Zpos m~0) by lia.
    change (new_location 4503599627370496 0) with loc_Exact.
    replace (e - 1) with (e - 2 + 1) by lia.
    apply binary_round_aux_even; lia.
Qed.

Lemma div_eucl_pow2_rem (q r : Z) :
  0 <= r < 4503599627370496 ->
  Z.div_eucl (q * 4503599627370496 + r) 4503599627370496 = (q, r).
Proof.
  intro Hr.
  pose proof (Z.div_eucl_eq (q * 4503599627370496 + r) 4503599627370496) as Heq.
  pose proof (Z.mod_pos_bound (q * 4503599627370496 + r) 4503599627370496) as Hbd.
  unfold Z.modulo in Hbd.
  destruct (Z.div_eucl (q * 4503599627370496 + r) 4503599627370496) as [q' r'].
  assert (q' = q /\ r' = r) as [-> ->] by nia. reflexivity.
Qed.

(** Rounding a tie in the lowest binade: to the even neighbour. *)
Lemma binary_round_aux_tie (s : bool) (p : positive) :
  Zpos (digits2_pos p) <= 52 ->
  exists k,
    binary_round_aux prec emax s (Zpos p) (-1074) (loc_Inexact Eq)
    = S754_finite s k (-1074) /\
    Zpos (digits2_pos k) <= 53 /\
    (Zpos k = Zpos p \/ Zpos k = Zpos p + 1) /\
    Z.even (Zpos k) = true.
Proof.
  intro Hd. unfold binary_round_aux, shr_fexp.
  cbn [Zdigits2 shr_record_of_loc]. rewrite fexp_eq.
  replace (Z.max (Zpos (digits2_pos p) + -1074 - 53) (-1074) - -1074) with 0
    by lia.
  cbn [shr shr_m loc_of_shr_record round_nearest_even].
  destruct (Z.even (Zpos p)) eqn:Heven.
  - exists p. cbn [Zdigits2 shr_record_of_loc]. rewrite fexp_eq.
    replace (Z.max (Zpos (digits2_pos p) + -1074 - 53) (-1074) - -1074) with 0
      by lia.
    cbn [shr shr_m]. change (-1074 <=? emax - prec) with true. cbv iota.
    split; [reflexivity |]. split; [lia |]. split; [now left | exact Heven].
  - exists (Pos.succ p). pose proof (digits2_pos_succ p) as Hsucc.
    replace (Zpos p + 1) with (Zpos (Pos.succ p)) by lia.
    cbn [Zdigits2 shr_record_of_loc]. rewrite fexp_eq.
    replace (Z.max (Zpos (digits2_pos (Pos.succ p)) + -1074 - 53) (-1074)
             - -1074) with 0 by lia.
    cbn [shr shr_m]. change (-1074 <=? emax - prec) with true. cbv iota.
    split; [reflexivity |]. split; [lia |]. split; [right; lia |].
    rewrite Pos2Z.inj_succ, Z.even_succ, <- Z.negb_even, Heven. reflexivity.
Qed.

(** Half of a number of the lowest binade: exact when the mantissa is
    even, a tie rounded to the even neighbour when it is odd. *)
Lemma SFdiv_two_low (s : bool) (m : positive) :
  bounded prec emax m (-1074) = true ->
  (m = 1%positive /\
   SFdiv prec emax (S754_finite s m (-1074)) SFtwo = S754_zero s) \/
  exists k,
    SFdiv prec emax (S754_finite s m (-1074)) SFtwo = S754_finite s k (-1074) /\
    Zpos (digits2_pos k) <= 53 /\
    -1 <= 2 * Zpos k - Zpos m <= 1.
Proof.
  intro Hb. apply bounded_spec in Hb. destruct Hb as [Hcanon _].
  assert (Hd : Zpos (digits2_pos m) <= 53) by lia.
  unfold SFdiv, SFtwo, SFdiv_core_binary. cbn [Zdigits2].
  change (Zpos (digits2_pos 4503599627370496)) with 53.
  rewrite fexp_eq, xorb_false_r.
  replace (Z.min (Z.max (Zpos (digits2_pos m) + -1074 - (53 + -51) - 53) (-1074))
             (-1074 - -51)) with (-1074) by lia.
  change (-1074 - -51 - -1074) with 51. cbv iota.
  rewrite Z.shiftl_mul_pow2 by lia. change (2 ^ 51) with 2251799813685248.
  destruct m as [p | p |].
  - right. cbn [digits2_pos] in Hd.
    replace (Zpos p~1 * 2251799813685248)
      with (Zpos p * 4503599627370496 + 2251799813685248) by lia.
    rewrite div_eucl_pow2_rem by lia.
    change (new_location 4503599627370496 2251799813685248)
      with (loc_Inexact Eq).
    destruct (@binary_round_aux_tie s p) as [k [Hk [Hdk [Hkp _]]]]; [lia |].
    exists k. rewrite Hk. repeat split; lia.
  - right. cbn [digits2_pos] in Hd.
    replace (Zpos p~0 * 2251799813685248)
      with (Zpos p * 4503599627370496 + 0) by lia.
    rewrite div_eucl_pow2_rem by lia.
    change (new_location 4503599627370496 0) with loc_Exact.
    exists p. rewrite binary_round_aux_fits by lia. repeat split; lia.
  - left. split; [reflexivity |]. destruct s; reflexivity.
Qed.

Lemma SFeqb_refl_finite (s : bool) (m : positive) (e : Z) :
  SFeqb (S754_finite s m e) (S754_finite s m e) = true.
Proof.
  unfold SFeqb, SFcompare.
  destruct s; rewrite Z.compare_refl, Pos.compare_cont_refl; reflexivity.
Qed.

(** The two halves of a number above the lowest binade make it. *)
Lemma SFhalves_exact (s : bool) (m : positive) (e : Z) :
  bounded prec emax m e = true -> -1074 < e ->
  SFhalves (S754_finite s m e) = S754_finite s m e.
Proof.
  intros Hb He. unfold SFhalves. rewrite (@SFdiv_two_exact s m e Hb He).
  apply bounded_spec in Hb. destruct Hb as [Hcanon Hle].
  rewrite SFadd_self by lia.
  replace (S754_finite s m e) with (S754_finite s m (e - 1 + 1))
    by (f_equal; lia).
  rewrite binary_round_aux_even by lia. reflexivity.
Qed.

(** The difference of two numbers of the lowest binades whose
    mantissas differ by one at most is within the tolerance. *)
Lemma SFsub_close (s : bool) (a b : positive) :
  -1 <= Zpos a - Zpos b <= 1 ->
  SFleb
    (SFabs
       (binary_normalize prec emax
          (cond_Zopp s (Zpos a) - cond_Zopp s (Zpos b)) (-1074) false))
    (Prim2SF tolerance) = true.
Proof.
  intro Hab.
  assert (Hd : cond_Zopp s (Zpos a) - cond_Zopp s (Zpos b) = -1 \/
               cond_Zopp s (Zpos a) - cond_Zopp s (Zpos b) = 0 \/
               cond_Zopp s (Zpos a) - cond_Zopp s (Zpos b) = 1)
    by (destruct s; cbn [cond_Zopp]; lia).
  destruct Hd as [-> | [-> | ->]]; vm_compute; reflexivity.
Qed.

(** The two halves of a number of the lowest binade make it, or the
    one next to it. *)
Lemma SFhalves_low (s : bool) (m : positive) :
  bounded prec emax m (-1074) = true ->
  SFleb (SFabs (SFsub prec emax (SFhalves (S754_finite s m (-1074)))
                  (S754_finite s m (-1074))))
    (Prim2SF tolerance) = true.
Proof.
  intro Hb. unfold SFhalves.
  destruct (@SFdiv_two_low s m Hb) as [[-> ->] | [k [-> [Hdk Hkm]]]].
  - destruct s; reflexivity.
  - rewrite (@SFadd_self s k (-1074)) by lia.
    destruct (Z.eq_dec (Zpos (digits2_pos k)) 53) as [Hfull | Hshort].
    + rewrite (@binary_round_aux_even s k (-1074)) by lia.
      change (-1074 + 1) with (-1073).
      cbn [SFadd]. unfold SFsub.
      change (Z.min (-1073) (-1074)) with (-1074).
      change (fst (shl_align k (-1073) (-1074))) with (k~0)%positive.
      change (fst (shl_align m (-1074) (-1074))) with m.
      apply SFsub_close. rewrite Pos2Z.inj_xO. lia.
    + rewrite binary_round_aux_fits by (cbn [digits2_pos]; lia).
      cbn [SFadd]. unfold SFsub.
      change (Z.min (-1074) (-1074)) with (-1074).
      change (fst (shl_align k~0 (-1074) (-1074))) with (k~0)%positive.
      change (fst (shl_align m (-1074) (-1074))) with m.
      apply SFsub_close. rewrite Pos2Z.inj_xO. lia.
Qed.

(** [x / 2 + x / 2 + 0] is [x], or within [1e-9] of it, for every
    number [x] that is not NaN. *)
Lemma F64_halves (x : float) :
  (PrimFloat.is_nan x ||
   PrimFloat.eqb (x / nlit 2 + x / nlit 2 + nlit 0)%num x ||
   within tolerance (x / nlit 2 + x / nlit 2 + nlit 0)%num x)%bool = true.
Proof.
  rewrite F64_is_nan_spec. unfold within.
  cbn [nleb nabs nsub nadd ndiv nlit F64.number].
  rewrite eqb_spec, leb_spec, abs_spec, sub_spec, !add_spec, div_spec.
  change (Prim2SF (F64.of_Z 2)) with SFtwo.
  change (Prim2SF (F64.of_Z 0)) with (S754_zero false).
  unfold SF64add, SF64div, SF64sub.
  pose proof (Prim2SF_valid x) as Hvalid.
  destruct (Prim2SF x) as [s | s | | s m e].
  - destruct s; reflexivity.
  - destruct s; reflexivity.
  - reflexivity.
  - cbn [valid_binary] in Hvalid.
    fold (SFhalves (S754_finite s m e)).
    destruct (Z_lt_le_dec (-1074) e) as [Habove | Hlow].
    + rewrite (@SFhalves_exact s m e Hvalid Habove), SFeqb_refl_finite.
      reflexivity.
    + assert (He : e = -1074).
      { apply bounded_spec in Hvalid. lia. }
      subst e. rewrite (@SFhalves_low s m Hvalid). apply orb_true_r.
Qed.
End F64Halves.

(** ** The GST split *)

(** C1.  On a purchase and on an invoice line alike, with
    [gstTotal = base * rate / 100]: an Intra-State supply gets
    [cgst = sgst = gstTotal / 2] and [igst = 0]; an Inter-State supply
    gets [igst = gstTotal] and [cgst = sgst = 0].  This holds in every
    arithmetic, for every base and rate.  One line with quantity 2,
    rate 100 and GST 18% has item total 200, GST 36 and grand total
    236, split 18/18/0 Intra-State and 0/0/36 Inter-State, in binary64
    and in exact arithmetic. *)
Theorem gst_split_by_supply_type :
  (forall (num : Type) (N : Number num) (base rate : num),
      ExpenseSplit base rate) /\
  (forall (num : Type) (N : Number num) (item : CreateEditInvoice.ItemValues num),
      LineSplit item) /\
  ScenarioAB float /\
  ScenarioAB Qc.
Proof.
  split; [| split; [| split]].
  - intros num N base rate. unfold ExpenseSplit. cbn. repeat split.
  - intros num N item. unfold LineSplit. cbn. repeat split.
  - unfold ScenarioAB. vm_compute. repeat split.
  - unfold ScenarioAB. cbn.
    repeat split; try (f_equal; dec_eq); dec_eq.
Qed.

(** C2, as stated, fails: a purchase of 1000 at 5% with GST not
    applicable has components 0, 0 and 0, while
    [1000 * 5 / 100 = 50]; the two are neither within [1e-9] of one
    another in binary64 nor equal in exact arithmetic. *)
Lemma split_sum_not_applicable_differs :
  let r := CreateEditExpense.calculateGSTAmounts
             (nlit 1000) (nlit 5) NotApplicable in
  (splitSum r = 0%float /\
   ((nlit 1000 * nlit 5) / nlit 100)%num = 50%float /\
   within tolerance (splitSum r) 50%float = false) /\
  ~ SplitSumsToTotal float (fun a b => within tolerance a b = true) /\
  ~ SplitSumsToTotal Qc eq.
Proof.
  split; [| split].
  - vm_compute. repeat split.
  - intro Hall.
    specialize (Hall (nlit 1000) (nlit 5) NotApplicable
                  eq_refl eq_refl eq_refl).
    vm_compute in Hall. discriminate Hall.
  - intro Hall.
    specialize (Hall (nlit 1000) (nlit 5) NotApplicable
                  eq_refl eq_refl eq_refl).
    apply (f_equal this) in Hall. vm_compute in Hall. discriminate Hall.
Qed.

(** C2, amended.  For every base and rate, on a purchase and on an
    invoice line: the three components of an Intra-State and of an
    Inter-State split sum to [base * rate / 100] in exact arithmetic;
    in binary64, whenever that total is a number, the Inter-State sum
    [0 + 0 + igst] is the total, and the Intra-State sum
    [total / 2 + total / 2 + 0] is the total or within [1e-9] of it.
    With GST not applicable the three components are 0 in every
    arithmetic: they sum to the GST paid, which is 0, whatever the
    rate. *)
Theorem split_components_sum :
  (forall base rate : Qc,
      splitSum (CreateEditExpense.calculateGSTAmounts base rate IntraState)
      = ((base * rate) / nlit 100)%num /\
      splitSum (CreateEditExpense.calculateGSTAmounts base rate InterState)
      = ((base * rate) / nlit 100)%num) /\
  (forall item : CreateEditInvoice.ItemValues Qc,
      lineSum (CreateEditInvoice.lineItem IntraState item)
      = CreateEditInvoice.item_gst_total
          (CreateEditInvoice.lineItem IntraState item) /\
      lineSum (CreateEditInvoice.lineItem InterState item)
      = CreateEditInvoice.item_gst_total
          (CreateEditInvoice.lineItem InterState item)) /\
  (forall base rate : float,
      let total := ((base * rate) / nlit 100)%num in
      (PrimFloat.is_nan total ||
       PrimFloat.eqb
         (splitSum
            (CreateEditExpense.calculateGSTAmounts base rate InterState))
         total)%bool = true) /\
  (forall base rate : float,
      let total := ((base * rate) / nlit 100)%num in
      let sum :=
        splitSum (CreateEditExpense.calculateGSTAmounts base rate IntraState) in
      (PrimFloat.is_nan total ||
       PrimFloat.eqb sum total ||
       within tolerance sum total)%bool = true) /\
  (forall item : CreateEditInvoice.ItemValues float,
      let quantity := CreateEditInvoice.fi_quantity item in
      let rate := CreateEditInvoice.fi_rate item in
      let gstRate := CreateEditInvoice.fi_gst_rate_percentage item in
      let total := (((quantity * rate) * gstRate) / nlit 100)%num in
      (PrimFloat.is_nan total ||
       PrimFloat.eqb
         (lineSum (CreateEditInvoice.lineItem InterState item)) total)%bool
      = true /\
      (PrimFloat.is_nan total ||
       PrimFloat.eqb
         (lineSum (CreateEditInvoice.lineItem IntraState item)) total ||
       within tolerance
         (lineSum (CreateEditInvoice.lineItem IntraState item)) total)%bool
      = true) /\
  (forall (num : Type) (N : Number num) (base rate : num),
      let r := CreateEditExpense.calculateGSTAmounts base rate NotApplicable in
      CreateEditExpense.cgstInputCredit r = nlit 0 /\
      CreateEditExpense.sgstInputCredit r = nlit 0 /\
      CreateEditExpense.igstInputCredit r = nlit 0 /\
      CreateEditExpense.gstPaidAmount r = nlit 0) /\
  (forall (base rate : Qc) (supply : SupplyType),
      let r := CreateEditExpense.calculateGSTAmounts base rate supply in
      splitSum r = CreateEditExpense.gstPaidAmount r).
Proof.
  split; [| split; [| split; [| split; [| split; [| split]]]]].
  - intros base rate. unfold splitSum. cbn -[nadd ndiv nmul nlit]. split.
    + rewrite Dec_halves. apply Dec_add_0_r.
    + rewrite !Dec_add_0_l. reflexivity.
  - intros item. unfold lineSum. cbn -[nadd ndiv nmul nlit]. split.
    + rewrite Dec_halves. apply Dec_add_0_r.
    + rewrite !Dec_add_0_l. reflexivity.
  - intros base rate total. unfold splitSum. cbn -[nadd ndiv nmul nlit].
    apply F64_add_0_l.
  - intros base rate total sum. subst total sum. unfold splitSum.
    cbn -[nadd ndiv nmul nlit within]. apply F64_halves.
  - intros item quantity rate gstRate total.
    subst quantity rate gstRate total. unfold lineSum.
    cbn -[nadd ndiv nmul nlit within]. split.
    + apply F64_add_0_l.
    + apply F64_halves.
  - intros num N base rate. cbn. repeat split.
  - intros base rate supply r. subst r. unfold splitSum.
    destruct supply; cbn -[nadd ndiv nmul nlit].
    + rewrite Dec_halves. apply Dec_add_0_r.
    + rewrite !Dec_add_0_l. reflexivity.
    + rewrite !Dec_add_0_l. reflexivity.
Qed.

(** The tolerance is needed in binary64: a purchase of [5e-322] at 1%
    has GST of [5e-324], the smallest number above 0, and its two
    halves are 0 each. *)
Example halves_of_the_smallest_number :
  let r :=
    CreateEditExpense.calculateGSTAmounts 5e-322%float 1%float IntraState in
  CreateEditExpense.gstPaidAmount r = 5e-324%float /\
  splitSum r = 0%float /\
  within tolerance (splitSum r) (CreateEditExpense.gstPaidAmount r) = true.
Proof. vm_compute. repeat split. Qed.

(** C6.  In every arithmetic, [calculateGSTAmounts] returns
    [totalAmount = amountBeforeGST + gstPaidAmount] for an Intra-State
    and for an Inter-State purchase; with GST not applicable it returns
    [gstPaidAmount = 0], the three input credits 0 and
    [totalAmount = amountBeforeGST], which is
    [amountBeforeGST + gstPaidAmount] in exact arithmetic and, for every
    amount that is a number, in binary64.  The row stored holds these
    values.  A purchase of 1000 at 5% with GST not applicable has GST
    paid 0 and total 1000. *)
Theorem expense_total_is_amount_plus_gst :
  (forall (num : Type) (N : Number num) (amount rate : num),
      let intra := CreateEditExpense.calculateGSTAmounts amount rate IntraState in
      let inter := CreateEditExpense.calculateGSTAmounts amount rate InterState in
      let na := CreateEditExpense.calculateGSTAmounts amount rate NotApplicable in
      CreateEditExpense.totalAmount intra
      = (amount + CreateEditExpense.gstPaidAmount intra)%num /\
      CreateEditExpense.totalAmount inter
      = (amount + CreateEditExpense.gstPaidAmount inter)%num /\
      CreateEditExpense.gstPaidAmount na = nlit 0 /\
      CreateEditExpense.cgstInputCredit na = nlit 0 /\
      CreateEditExpense.sgstInputCredit na = nlit 0 /\
      CreateEditExpense.igstInputCredit na = nlit 0 /\
      CreateEditExpense.totalAmount na = amount) /\
  (forall (amount rate : Qc) (supply : SupplyType),
      let r := CreateEditExpense.calculateGSTAmounts amount rate supply in
      CreateEditExpense.totalAmount r
      = (amount + CreateEditExpense.gstPaidAmount r)%num) /\
  (forall amount rate : float,
      let r := CreateEditExpense.calculateGSTAmounts amount rate NotApplicable in
      (PrimFloat.is_nan amount ||
       PrimFloat.eqb (CreateEditExpense.totalAmount r)
         (amount + CreateEditExpense.gstPaidAmount r)%num)%bool = true) /\
  (forall (num : Type) (N : Number num) (company key : uuid)
          (data : CreateEditExpense.FormValues num),
      let r := CreateEditExpense.calculateGSTAmounts
                 (CreateEditExpense.amount_before_gst data)
                 (CreateEditExpense.gst_rate_applied_on_purchase data)
                 (CreateEditExpense.place_of_supply_type_for_purchase data) in
      let row := CreateEditExpense.expenseData company key data in
      expenses.amount_before_gst row = CreateEditExpense.amount_before_gst data /\
      expenses.gst_paid_amount row = CreateEditExpense.gstPaidAmount r /\
      expenses.total_expense_amount row = CreateEditExpense.totalAmount r) /\
  ScenarioC float /\
  ScenarioC Qc.
Proof.
  repeat match goal with |- _ /\ _ => split end.
  - intros num N amount rate. cbn. repeat split.
  - intros amount rate supply r. subst r.
    destruct supply; cbn -[nadd ndiv nmul nlit]; try reflexivity.
    symmetry. apply Dec_add_0_r.
  - intros amount rate r. subst r. cbn -[nadd ndiv nmul nlit].
    apply F64_add_0_r.
  - intros num N company key data. cbn. repeat split.
  - unfold ScenarioC. vm_compute. split; reflexivity.
  - unfold ScenarioC. cbn. split; dec_eq.
Qed.

(** ** Tables and sums *)

Lemma insertRows_app {A} (key : A -> uuid) (new rows rows' : list A) :
  insertRows key new rows = Some rows' -> rows' = rows ++ new.
Proof.
  revert rows. induction new as [| r rest IH]; intros rows Hins; cbn in Hins.
  - injection Hins as <-. now rewrite app_nil_r.
  - destruct (keyFree key rows (key r)); [| discriminate Hins].
    apply IH in Hins. now rewrite <- app_assoc in Hins.
Qed.

Lemma insertRows_fresh {A} (key : A -> uuid) (r : A) (new rows rows' : list A) :
  insertRows key (r :: new) rows = Some rows' ->
  forall old, In old rows -> String.eqb (key old) (key r) = false.
Proof.
  cbn. unfold keyFree.
  destruct (existsb (fun r0 => String.eqb (key r0) (key r)) rows) eqn:Hex;
    [discriminate |].
  intros _ old Hin.
  destruct (String.eqb (key old) (key r)) eqn:Heq; [| reflexivity].
  assert (Hsome : existsb (fun r0 => String.eqb (key r0) (key r)) rows = true)
    by (apply existsb_exists; exists old; split; assumption).
  congruence.
Qed.

Lemma filter_deleteWhere_nil {A} (p : A -> bool) (rows : list A) :
  filter p (deleteWhere p rows) = [].
Proof.
  unfold deleteWhere. induction rows as [| r rows IH]; [reflexivity |].
  cbn. destruct (p r) eqn:Hp; cbn; [exact IH |]. now rewrite Hp.
Qed.

Lemma filter_all {A} (p : A -> bool) (rows : list A) :
  (forall r, In r rows -> p r = true) -> filter p rows = rows.
Proof.
  induction rows as [| r rows IH]; intros Hall; [reflexivity |].
  cbn. rewrite (Hall r (or_introl eq_refl)). f_equal.
  apply IH. intros r' Hin. apply Hall. now right.
Qed.

Lemma reduceSum_map {num} `{Number num} {A B} (g : A -> B) (f : B -> num)
    (xs : list A) :
  reduceSum f (map g xs) = reduceSum (fun x => f (g x)) xs.
Proof.
  unfold reduceSum. generalize (nlit 0). induction xs as [| x xs IH]; intro acc.
  - reflexivity.
  - cbn. apply IH.
Qed.

Section Rearrangement.
Context {num : Type} `{Number num}.
(** An arithmetic in which two addends can change places. *)
Hypothesis add_swap : forall a x y : num, (a + x + y = a + y + x)%num.

Lemma fold_sum_perm {A} (f : A -> num) (xs ys : list A) :
  Permutation xs ys ->
  forall acc,
    fold_left (fun sum x => (sum + f x)%num) xs acc
    = fold_left (fun sum x => (sum + f x)%num) ys acc.
Proof.
  induction 1 as [| x xs ys _ IH | x y xs | xs ys zs _ IH1 _ IH2]; intro acc; cbn.
  - reflexivity.
  - apply IH.
  - now rewrite add_swap.
  - now rewrite IH1.
Qed.

Lemma reduceSum_perm {A} (f : A -> num) (xs ys : list A) :
  Permutation xs ys -> reduceSum f xs = reduceSum f ys.
Proof. intro Hperm. unfold reduceSum. now apply fold_sum_perm. Qed.
End Rearrangement.

Lemma Dec_add_swap (a x y : Qc) : (a + x + y = a + y + x)%num.
Proof. cbn. ring. Qed.

(** ** Saving an invoice *)

Lemma itemRows_invoice {num} `{Number num} (srv : Server) (invoice : uuid)
    (its : list (CreateEditInvoice.LineItem num)) :
  forall r, In r (CreateEditInvoice.itemRows srv invoice its) ->
            String.eqb (invoice_items.invoice_id r) invoice = true.
Proof.
  intros r Hin. unfold CreateEditInvoice.itemRows in Hin.
  apply in_map_iff in Hin. destruct Hin as [[k item] [<- _]].
  cbn. apply String.eqb_refl.
Qed.

Lemma storedItemRows_invoice {num} `{Number num} (srv : Server)
    (invoice : uuid) (its : list (CreateEditInvoice.LineItem num)) :
  forall r,
    In r (map invoice_items.stored (CreateEditInvoice.itemRows srv invoice its)) ->
    String.eqb (invoice_items.invoice_id r) invoice = true.
Proof.
  intros r Hin. apply in_map_iff in Hin. destruct Hin as [r0 [<- Hr0]].
  cbn [invoice_items.stored invoice_items.invoice_id].
  now apply (itemRows_invoice srv invoice its).
Qed.

(** C3, as stated, fails on the rows stored: each of the three totals
    is rounded to two decimals by its own [numeric(15,2)] column.  An
    invoice of one line of 1.5 at 0.33 with GST 18% is created; its
    row holds the subtotal 0.50, the GST total 0.09 and the grand
    total 0.58, which is not 0.50 + 0.09, in binary64 and in exact
    arithmetic alike. *)
Lemma stored_totals_rounded_apart :
  (let data := Scenario.invoice (num:=float) InterState [@fractionalItem float _] in
   let out :=
     CreateEditInvoice.onSubmit (Some Scenario.profile) None Scenario.server
       Scenario.db data in
   snd out = ToastSuccess "Invoice created successfully"%string /\
   map (fun r =>
          (invoices.sub_total_amount r, invoices.total_gst_amount r,
           invoices.total_invoice_amount r,
           PrimFloat.eqb (invoices.total_invoice_amount r)
             (invoices.sub_total_amount r + invoices.total_gst_amount r)%num,
           within tolerance (invoices.total_invoice_amount r)
             (invoices.sub_total_amount r + invoices.total_gst_amount r)%num))
       (filter (CreateEditInvoice.isInvoice "A-new"%string "co-1"%string)
          (tbl_invoices (fst out)))
   = [((nlit 50 / nlit 100)%num, (nlit 9 / nlit 100)%num,
       (nlit 58 / nlit 100)%num, false, false)]) /\
  (let data := Scenario.invoice (num:=Qc) InterState [@fractionalItem Qc _] in
   let out :=
     CreateEditInvoice.onSubmit (Some Scenario.profile) None Scenario.server
       Scenario.db data in
   snd out = ToastSuccess "Invoice created successfully"%string /\
   forall r,
     In r (tbl_invoices (fst out)) ->
     CreateEditInvoice.isInvoice "A-new"%string "co-1"%string r = true ->
     invoices.total_invoice_amount r = Dec.dec 58 2 /\
     (invoices.sub_total_amount r + invoices.total_gst_amount r)%num
     = Dec.dec 59 2 /\
     invoices.total_invoice_amount r
     <> (invoices.sub_total_amount r + invoices.total_gst_amount r)%num).
Proof.
  split.
  - vm_compute. split; reflexivity.
  - cbv zeta. split; [reflexivity |].
    intros r Hin Hr. cbn in Hin.
    destruct Hin as [<- | [<- | [<- | []]]]; try discriminate Hr.
    split; [dec_eq | split; [dec_eq |]].
    intro Heq. apply (f_equal this) in Heq. vm_compute in Heq. discriminate Heq.
Qed.

(** C3, amended.  In every arithmetic the aggregator of [onSubmit] returns as
    subtotal the sum, from 0 and in the order of the form, of
    [quantity * rate] over the items, as GST total the sum of
    [quantity * rate * gstRate / 100], and as grand total exactly
    [subTotal + totalGst].  On every save that succeeds, whatever the
    database held, the three amounts of the invoice row are these
    three values as a [numeric(15,2)] column keeps them, computed from
    the form's items and from nothing stored before, and the items
    stored for the invoice are the freshly computed ones (on an edit
    the old ones are all gone).  Two lines of 200 and 50 at 18% give
    250, 45 and 295; one line of 1.5 at 0.33 gives 0.495, 0.0891 and
    0.5841, stored as 0.50, 0.09 and 0.58. *)
Theorem invoice_totals_recomputed_on_save
    (num : Type) (N : Number num) (profile : company_profiles.row)
    (id : option uuid) (srv : Server) (db : Database num)
    (data : CreateEditInvoice.FormValues num) (message : string)
    (Hsaved : snd (CreateEditInvoice.onSubmit (Some profile) id srv db data)
              = ToastSuccess message) :
  let company := company_profiles.id profile in
  let its := CreateEditInvoice.lineItems data in
  let db' := fst (CreateEditInvoice.onSubmit (Some profile) id srv db data) in
  let saved := savedId id srv in
  let ofInvoice :=
    fun it : invoice_items.row num =>
      String.eqb (invoice_items.invoice_id it) saved in
  (CreateEditInvoice.totalAmount its
   = (CreateEditInvoice.subTotal its + CreateEditInvoice.totalGst its)%num /\
   CreateEditInvoice.subTotal its
   = fold_left
       (fun sum i =>
          (sum + CreateEditInvoice.fi_quantity i * CreateEditInvoice.fi_rate i)%num)
       (CreateEditInvoice.items data) (nlit 0) /\
   CreateEditInvoice.totalGst its
   = fold_left
       (fun sum i =>
          (sum
           + ((CreateEditInvoice.fi_quantity i * CreateEditInvoice.fi_rate i)
              * CreateEditInvoice.fi_gst_rate_percentage i) / nlit 100)%num)
       (CreateEditInvoice.items data) (nlit 0)) /\
  (forall r,
      In r (tbl_invoices db') ->
      CreateEditInvoice.isInvoice saved company r = true ->
      invoices.sub_total_amount r = ncolumn (CreateEditInvoice.subTotal its) /\
      invoices.total_gst_amount r = ncolumn (CreateEditInvoice.totalGst its) /\
      invoices.total_invoice_amount r
      = ncolumn
          (CreateEditInvoice.subTotal its + CreateEditInvoice.totalGst its)%num) /\
  match id with
  | Some i =>
      tbl_invoices db'
      = updateWhere (CreateEditInvoice.isInvoice i company)
          (fun r => invoices.stored (CreateEditInvoice.updatePatch data its r))
          (tbl_invoices db) /\
      filter ofInvoice (tbl_invoice_items db')
      = map invoice_items.stored (CreateEditInvoice.itemRows srv saved its)
  | None =>
      tbl_invoices db'
      = tbl_invoices db
        ++ [invoices.stored
              (CreateEditInvoice.insertedInvoice company saved data its)] /\
      tbl_invoice_items db'
      = tbl_invoice_items db
        ++ map invoice_items.stored (CreateEditInvoice.itemRows srv saved its)
  end /\
  ScenarioSave float /\
  ScenarioSave Qc.
Proof.
  intros company its db' saved ofInvoice.
  split; [| split; [| split; [| split]]].
  - repeat split.
    + unfold CreateEditInvoice.subTotal, its, CreateEditInvoice.lineItems.
      rewrite reduceSum_map. reflexivity.
    + unfold CreateEditInvoice.totalGst, its, CreateEditInvoice.lineItems.
      rewrite reduceSum_map. reflexivity.
  - intros r Hin Hr. subst db'. unfold CreateEditInvoice.onSubmit in *.
    fold company in Hin, Hsaved. fold its in Hin, Hsaved.
    destruct id as [i |]; unfold request in *; subst ofInvoice saved;
      cbn [savedId] in *.
    + destruct (accepts srv 0); [| discriminate Hsaved].
      destruct (accepts srv 1); [| discriminate Hsaved].
      cbn [tbl_invoice_items with_invoices with_invoice_items] in *.
      destruct (accepts srv 2); [| discriminate Hsaved].
      destruct (insertRows _ _ _); [| discriminate Hsaved].
      cbn in Hin. unfold updateWhere in Hin. apply in_map_iff in Hin.
      destruct Hin as [r0 [Hr0 _]].
      destruct (CreateEditInvoice.isInvoice i company r0) eqn:Hp.
      * subst r. cbn. repeat split; reflexivity.
      * subst r. congruence.
    + destruct (accepts srv 0); [| discriminate Hsaved].
      destruct (insertRows (@invoices.id num) _ _) as [rows |] eqn:Hins;
        [| discriminate Hsaved].
      destruct (accepts srv 1); [| discriminate Hsaved].
      cbn [tbl_invoice_items with_invoices with_invoice_items] in *.
      destruct (insertRows (@invoice_items.id num) _ _); [| discriminate Hsaved].
      cbn in Hin.
      pose proof (@insertRows_app _ _ _ _ _ Hins) as ->.
      apply in_app_or in Hin. destruct Hin as [Hold | [<- | []]].
      * pose proof (@insertRows_fresh _ _ _ _ _ _ Hins r Hold) as Hfresh.
        cbn in Hfresh. unfold CreateEditInvoice.isInvoice in Hr.
        rewrite Hfresh in Hr. discriminate Hr.
      * cbn. repeat split; reflexivity.
  - subst db'. unfold CreateEditInvoice.onSubmit in *.
    fold company in Hsaved |- *. fold its in Hsaved |- *.
    destruct id as [i |]; unfold request in *; subst ofInvoice saved;
      cbn [savedId] in *.
    + destruct (accepts srv 0); [| discriminate Hsaved].
      destruct (accepts srv 1); [| discriminate Hsaved].
      cbn [tbl_invoice_items with_invoices with_invoice_items] in *.
      destruct (accepts srv 2); [| discriminate Hsaved].
      destruct (insertRows _ _ _) as [rows |] eqn:Hins; [| discriminate Hsaved].
      cbn. split; [reflexivity |].
      pose proof (@insertRows_app _ _ _ _ _ Hins) as ->.
      rewrite filter_app.
      rewrite (filter_deleteWhere_nil
                 (fun r : invoice_items.row num =>
                    String.eqb (invoice_items.invoice_id r) i)).
      cbn. apply filter_all. apply storedItemRows_invoice.
    + destruct (accepts srv 0); [| discriminate Hsaved].
      destruct (insertRows (@invoices.id num) _ _) as [rows |] eqn:Hins;
        [| discriminate Hsaved].
      destruct (accepts srv 1); [| discriminate Hsaved].
      cbn [tbl_invoice_items with_invoices with_invoice_items] in *.
      destruct (insertRows (@invoice_items.id num) _ _) as [rows' |] eqn:Hins';
        [| discriminate Hsaved].
      cbn. split.
      * exact (@insertRows_app _ _ _ _ _ Hins).
      * exact (@insertRows_app _ _ _ _ _ Hins').
  - unfold ScenarioSave. vm_compute. repeat split.
  - unfold ScenarioSave. cbn.
    repeat split; try dec_eq. repeat f_equal; dec_eq.
Qed.

(** The save of an edit of the Sent invoice of [Scenario.db]. *)
Lemma invoice_totals_recomputed_on_save_witness :
  let data := Scenario.invoice (num:=float) IntraState [Scenario.item] in
  let out :=
    CreateEditInvoice.onSubmit (Some Scenario.profile) (Some "inv-1"%string)
      Scenario.server Scenario.db data in
  snd out = ToastSuccess "Invoice updated successfully"%string /\
  (forall r,
      In r (tbl_invoices (fst out)) ->
      CreateEditInvoice.isInvoice "inv-1"%string "co-1"%string r = true ->
      invoices.sub_total_amount r
      = ncolumn (CreateEditInvoice.subTotal (CreateEditInvoice.lineItems data)) /\
      invoices.total_gst_amount r
      = ncolumn (CreateEditInvoice.totalGst (CreateEditInvoice.lineItems data)) /\
      invoices.total_invoice_amount r
      = ncolumn
          (CreateEditInvoice.subTotal (CreateEditInvoice.lineItems data)
           + CreateEditInvoice.totalGst (CreateEditInvoice.lineItems data))%num).
Proof.
  split; [reflexivity |].
  exact (proj1 (proj2
    (@invoice_totals_recomputed_on_save float _ Scenario.profile
       (Some "inv-1"%string) Scenario.server Scenario.db
       (Scenario.invoice IntraState [Scenario.item])
       "Invoice updated successfully"%string eq_refl))).
Defined.

(** ** Order of the items *)

(** C7, as stated, fails in the arithmetic of the program: lines priced
    0.1, 0.2, 0.3 and the same lines in reverse order, both accepted by
    the form, have subtotals 0.6000000000000001 and 0.6. *)
Lemma aggregate_depends_on_item_order :
  let there := Scenario.invoice IntraState tenthsF64 in
  let back := Scenario.invoice IntraState (rev tenthsF64) in
  Permutation (CreateEditInvoice.items there) (CreateEditInvoice.items back) /\
  CreateEditInvoice.schema there = [] /\
  CreateEditInvoice.schema back = [] /\
  CreateEditInvoice.subTotal (CreateEditInvoice.lineItems there)
  = 0.6000000000000001%float /\
  CreateEditInvoice.subTotal (CreateEditInvoice.lineItems back)
  = 0.6%float /\
  PrimFloat.eqb
    (CreateEditInvoice.subTotal (CreateEditInvoice.lineItems there))
    (CreateEditInvoice.subTotal (CreateEditInvoice.lineItems back)) = false /\
  PrimFloat.eqb
    (CreateEditInvoice.totalAmount (CreateEditInvoice.lineItems there))
    (CreateEditInvoice.totalAmount (CreateEditInvoice.lineItems back)) = false.
Proof.
  cbv zeta. split; [| vm_compute; repeat split].
  cbn [CreateEditInvoice.items Scenario.invoice]. apply Permutation_rev.
Qed.

(** C7, amended.  In exact arithmetic, two forms with the same supply
    type whose items are a permutation of one another get the same
    subtotal, GST total and grand total. *)
Theorem aggregate_permutation_exact
    (data data' : CreateEditInvoice.FormValues Qc)
    (Hsupply : CreateEditInvoice.place_of_supply_type data
               = CreateEditInvoice.place_of_supply_type data')
    (Hperm : Permutation (CreateEditInvoice.items data)
               (CreateEditInvoice.items data')) :
  let its := CreateEditInvoice.lineItems data in
  let its' := CreateEditInvoice.lineItems data' in
  CreateEditInvoice.subTotal its = CreateEditInvoice.subTotal its' /\
  CreateEditInvoice.totalGst its = CreateEditInvoice.totalGst its' /\
  CreateEditInvoice.totalAmount its = CreateEditInvoice.totalAmount its'.
Proof.
  intros its its'.
  assert (Hits : Permutation its its').
  { unfold its, its', CreateEditInvoice.lineItems. rewrite Hsupply.
    now apply Permutation_map. }
  assert (Hsub : CreateEditInvoice.subTotal its = CreateEditInvoice.subTotal its')
    by (apply (reduceSum_perm Dec_add_swap); exact Hits).
  assert (Hgst : CreateEditInvoice.totalGst its = CreateEditInvoice.totalGst its')
    by (apply (reduceSum_perm Dec_add_swap); exact Hits).
  repeat split; try assumption.
  unfold CreateEditInvoice.totalAmount. now rewrite Hsub, Hgst.
Qed.

(** Three lines priced 0.1, 0.2, 0.3 and their reverse, exactly. *)
Lemma aggregate_permutation_exact_witness :
  let its :=
    CreateEditInvoice.lineItems (Scenario.invoice IntraState tenthsDec) in
  let its' :=
    CreateEditInvoice.lineItems (Scenario.invoice IntraState (rev tenthsDec)) in
  CreateEditInvoice.subTotal its = CreateEditInvoice.subTotal its' /\
  CreateEditInvoice.totalGst its = CreateEditInvoice.totalGst its' /\
  CreateEditInvoice.totalAmount its = CreateEditInvoice.totalAmount its'.
Proof.
  exact (@aggregate_permutation_exact
           (Scenario.invoice IntraState tenthsDec)
           (Scenario.invoice IntraState (rev tenthsDec))
           eq_refl (Permutation_rev tenthsDec)).
Defined.

(** ** Validation before saving *)

(** C8.  A form whose item list is empty does not reach [onSubmit]:
    the schema raises "At least one item is required", nothing is
    computed or written, and the database is as it was. *)
Theorem empty_invoice_rejected
    (num : Type) (N : Number num) (companyProfile : option company_profiles.row)
    (id : option uuid) (srv : Server) (db : Database num)
    (data : CreateEditInvoice.FormValues num)
    (Hempty : CreateEditInvoice.items data = []) :
  In "At least one item is required"%string (CreateEditInvoice.schema data) /\
  CreateEditInvoice.handleSubmit companyProfile id srv db data
  = (db, Invalid (CreateEditInvoice.schema data)).
Proof.
  assert (Hin : In "At least one item is required"%string
                  (CreateEditInvoice.schema data)).
  { unfold CreateEditInvoice.schema. rewrite Hempty. cbn [List.length Nat.ltb Nat.leb].
    repeat (apply in_or_app; right). now left. }
  split; [exact Hin |].
  unfold CreateEditInvoice.handleSubmit.
  destruct (CreateEditInvoice.schema data); [destruct Hin | reflexivity].
Qed.

(** A form without items, submitted on [Scenario.db]. *)
Lemma empty_invoice_rejected_witness :
  let data := Scenario.invoice (num:=float) IntraState [] in
  In "At least one item is required"%string (CreateEditInvoice.schema data) /\
  CreateEditInvoice.handleSubmit (Some Scenario.profile) (Some "inv-1"%string)
    Scenario.server Scenario.db data
  = (Scenario.db, Invalid (CreateEditInvoice.schema data)).
Proof.
  exact (@empty_invoice_rejected float _ (Some Scenario.profile)
           (Some "inv-1"%string) Scenario.server Scenario.db
           (Scenario.invoice IntraState []) eq_refl).
Defined.

(** ** The status of an invoice *)

Lemma updateWhere_preserves {A B} (p : A -> bool) (patch : A -> A) (f : A -> B)
    (rows : list A) :
  (forall r, f (patch r) = f r) ->
  map f (updateWhere p patch rows) = map f rows.
Proof.
  intro Hf. unfold updateWhere. rewrite map_map. apply map_ext.
  intro r. destruct (p r); [apply Hf | reflexivity].
Qed.

(** C10.  Whatever the server does: saving an edited invoice leaves
    the identifier and the status of every stored invoice as they
    were; saving a new invoice either stores nothing or appends one
    invoice, whose status is Draft, to the invoices stored. *)
Theorem invoice_save_keeps_status :
  forall (num : Type) (N : Number num)
         (companyProfile : option company_profiles.row) (srv : Server)
         (db : Database num) (data : CreateEditInvoice.FormValues num),
    (forall id : uuid,
        let db' :=
          fst (CreateEditInvoice.onSubmit companyProfile (Some id) srv db data) in
        map (fun r => (invoices.id r, invoices.status r)) (tbl_invoices db')
        = map (fun r => (invoices.id r, invoices.status r)) (tbl_invoices db)) /\
    (let db' :=
       fst (CreateEditInvoice.onSubmit companyProfile None srv db data) in
     tbl_invoices db' = tbl_invoices db \/
     exists created,
       tbl_invoices db' = tbl_invoices db ++ [created] /\
       invoices.status created = Draft).
Proof.
  intros num N companyProfile srv db data. split.
  - intros id db'. subst db'. unfold CreateEditInvoice.onSubmit.
    destruct companyProfile as [profile |]; [| reflexivity].
    unfold request. destruct (accepts srv 0); [| reflexivity].
    assert (Hkept :
      map (fun r => (invoices.id r, invoices.status r))
        (updateWhere
           (CreateEditInvoice.isInvoice id (company_profiles.id profile))
           (fun r =>
              invoices.stored
                (CreateEditInvoice.updatePatch data
                   (CreateEditInvoice.lineItems data) r))
           (tbl_invoices db))
      = map (fun r => (invoices.id r, invoices.status r)) (tbl_invoices db))
      by (apply updateWhere_preserves; reflexivity).
    destruct (accepts srv 1); [| exact Hkept].
    cbn [tbl_invoice_items with_invoices with_invoice_items].
    destruct (accepts srv 2); [| exact Hkept].
    destruct (insertRows _ _ _); exact Hkept.
  - intros db'. subst db'. unfold CreateEditInvoice.onSubmit.
    destruct companyProfile as [profile |]; [| now left].
    unfold request. destruct (accepts srv 0); [| now left].
    destruct (insertRows (@invoices.id num) _ _) as [rows |] eqn:Hins;
      [| now left].
    right.
    exists (invoices.stored
              (CreateEditInvoice.insertedInvoice (company_profiles.id profile)
                 (fresh srv 0) data (CreateEditInvoice.lineItems data))).
    split; [| reflexivity].
    apply insertRows_app in Hins. subst rows.
    destruct (accepts srv 1); [| reflexivity].
    cbn [tbl_invoice_items with_invoices with_invoice_items].
    destruct (insertRows _ _ _); reflexivity.
Qed.

(** ** The period reports *)

Lemma Dec_orZero (x : Qc) : orZero x = x.
Proof.
  unfold orZero. cbn [nfalsy nlit Dec.number].
  destruct (Qc_eq_bool x (Dec.of_Z 0)) eqn:Hzero; [| reflexivity].
  symmetry. now apply Qc_eq_bool_correct.
Qed.

Lemma reduceSum_ext {num} `{Number num} {A} (f g : A -> num) (xs : list A) :
  (forall x, f x = g x) -> reduceSum f xs = reduceSum g xs.
Proof.
  intro Hfg. unfold reduceSum. generalize (nlit 0).
  induction xs as [| x xs IH]; intro acc; cbn; [reflexivity |].
  rewrite Hfg. apply IH.
Qed.

Lemma InvoiceStatus_eqb_eq (a b : InvoiceStatus) :
  InvoiceStatus_eqb a b = true <-> a = b.
Proof. destruct a, b; cbn; split; congruence. Qed.

Lemma AccountType_eqb_eq (a b : AccountType) :
  AccountType_eqb a b = true <-> a = b.
Proof. destruct a, b; cbn; split; congruence. Qed.

Lemma insertBy_perm {A} (leb : A -> A -> bool) (a : A) (sorted : list A) :
  Permutation (insertBy leb a sorted) (a :: sorted).
Proof.
  induction sorted as [| b rest IH]; cbn; [reflexivity |].
  destruct (leb a b); [reflexivity |].
  rewrite IH. apply perm_swap.
Qed.

Lemma orderBy_perm {A} (leb : A -> A -> bool) (rows : list A) :
  Permutation (orderBy leb rows) rows.
Proof.
  induction rows as [| a rows IH]; cbn; [reflexivity |].
  rewrite insertBy_perm. now constructor.
Qed.

(** *** The order of dates written [yyyy-MM-dd] *)

Section DateOrder.
Import MonthNavigation.

Lemma digit_compare (x y : Z) :
  (0 <= x < 10)%Z -> (0 <= y < 10)%Z ->
  Ascii.compare (digit x) (digit y) = (x ?= y)%Z.
Proof.
  intros Hx Hy. unfold Ascii.compare, digit.
  rewrite !N_ascii_embedding.
  - rewrite (Z2N.inj_compare (48 + x) (48 + y)); [| lia | lia].
    apply Z.add_compare_mono_l.
  - apply N2Z.inj_lt. rewrite Z2N.id by lia.
    change (Z.of_N 256) with 256%Z. lia.
  - apply N2Z.inj_lt. rewrite Z2N.id by lia.
    change (Z.of_N 256) with 256%Z. lia.
Qed.

Lemma two_digits_bounds (a : Z) :
  (0 <= a < 100)%Z -> (0 <= a / 10 < 10)%Z /\ (0 <= a mod 10 < 10)%Z.
Proof.
  intro Ha. split.
  - split; [apply Z.div_pos | apply Z.div_lt_upper_bound]; lia.
  - apply Z.mod_pos_bound. lia.
Qed.

Lemma twoDigits_compare (a b : Z) (s t : string) :
  (0 <= a < 100)%Z -> (0 <= b < 100)%Z ->
  String.compare (twoDigits a s) (twoDigits b t)
  = match (a ?= b)%Z with
    | Eq => String.compare s t
    | c => c
    end.
Proof.
  intros Ha Hb. unfold twoDigits. cbn [String.compare].
  pose proof (Z.div_mod a 10 ltac:(lia)) as Hda.
  pose proof (Z.div_mod b 10 ltac:(lia)) as Hdb.
  destruct (two_digits_bounds Ha) as [Hqa Hra].
  destruct (two_digits_bounds Hb) as [Hqb Hrb].
  rewrite !digit_compare by assumption.
  destruct (Z.compare_spec (a / 10) (b / 10)) as [Hq | Hq | Hq].
  - destruct (Z.compare_spec (a mod 10) (b mod 10)) as [Hr | Hr | Hr];
      destruct (Z.compare_spec a b); try reflexivity; lia.
  - destruct (Z.compare_spec a b); try reflexivity; lia.
  - destruct (Z.compare_spec a b); try reflexivity; lia.
Qed.

Lemma isDate_bounds (d : Date) :
  isDate d = true ->
  (0 <= year d <= 9999 /\ 0 <= month d <= 11 /\ 1 <= day d <= 31)%Z.
Proof.
  unfold isDate. rewrite !andb_true_iff, !Z.leb_le. tauto.
Qed.

Lemma format_compare (a b : Date) :
  isDate a = true -> isDate b = true ->
  String.compare (format a) (format b)
  = match (year a ?= year b)%Z with
    | Eq => match (month a ?= month b)%Z with
            | Eq => (day a ?= day b)%Z
            | c => c
            end
    | c => c
    end.
Proof.
  intros Ha Hb.
  destruct (isDate_bounds _ Ha) as [Hya [Hma Hda]].
  destruct (isDate_bounds _ Hb) as [Hyb [Hmb Hdb]]. unfold format.
  pose proof (Z.div_mod (year a) 100 ltac:(lia)) as Hqa.
  pose proof (Z.div_mod (year b) 100 ltac:(lia)) as Hqb.
  pose proof (Z.mod_pos_bound (year a) 100 ltac:(lia)) as Hra.
  pose proof (Z.mod_pos_bound (year b) 100 ltac:(lia)) as Hrb.
  assert (0 <= year a / 100 < 100)%Z
    by (split; [apply Z.div_pos | apply Z.div_lt_upper_bound]; lia).
  assert (0 <= year b / 100 < 100)%Z
    by (split; [apply Z.div_pos | apply Z.div_lt_upper_bound]; lia).
  rewrite !twoDigits_compare by lia.
  cbn [String.compare]. rewrite !twoDigits_compare by lia.
  cbn [String.compare]. rewrite !twoDigits_compare by lia.
  cbn [String.compare].
  replace (Ascii.compare "-" "-") with Eq by reflexivity.
  rewrite (Z.add_comm (month a) 1), (Z.add_comm (month b) 1),
    Z.add_compare_mono_l.
  destruct (Z.compare_spec (year a / 100) (year b / 100)) as [Hq | Hq | Hq].
  - destruct (Z.compare_spec (year a mod 100) (year b mod 100))
      as [Hr | Hr | Hr];
      destruct (Z.compare_spec (year a) (year b)); try lia; try reflexivity.
    destruct (month a ?= month b)%Z; try reflexivity.
    now destruct (day a ?= day b)%Z.
  - destruct (Z.compare_spec (year a) (year b)); try reflexivity; lia.
  - destruct (Z.compare_spec (year a) (year b)); try reflexivity; lia.
Qed.

(** On texts of days the order of the texts is the order of the
    days. *)
Lemma format_leb (a b : Date) :
  isDate a = true -> isDate b = true ->
  String.leb (format a) (format b) = notAfter a b.
Proof.
  intros Ha Hb. unfold String.leb. rewrite (format_compare _ _ Ha Hb).
  unfold notAfter.
  destruct (Z.compare_spec (year a) (year b)) as [Hy | Hy | Hy].
  - rewrite Hy, Z.ltb_irrefl, Z.eqb_refl. cbn [orb andb].
    destruct (Z.compare_spec (month a) (month b)) as [Hm | Hm | Hm].
    + rewrite Hm, Z.ltb_irrefl, Z.eqb_refl. cbn [orb andb].
      destruct (Z.compare_spec (day a) (day b)); symmetry;
        [apply Z.leb_le | apply Z.leb_le | apply Z.leb_gt]; lia.
    + apply Z.ltb_lt in Hm. now rewrite Hm.
    + assert (Hlt : (month a <? month b)%Z = false) by (apply Z.ltb_ge; lia).
      assert (Heq : (month a =? month b)%Z = false) by (apply Z.eqb_neq; lia).
      now rewrite Hlt, Heq.
  - apply Z.ltb_lt in Hy. now rewrite Hy.
  - assert (Hlt : (year a <? year b)%Z = false) by (apply Z.ltb_ge; lia).
    assert (Heq : (year a =? year b)%Z = false) by (apply Z.eqb_neq; lia).
    now rewrite Hlt, Heq.
Qed.

(** The filter of the queries on a date column, [gte] and [lte] with
    the two formatted ends, keeps the days of the period. *)
Lemma inRange_inPeriod (first last : Date) (d : date) :
  isDate first = true -> isDate last = true -> isDateText d = true ->
  inRange (format first) (format last) d = inPeriod first last d.
Proof.
  intros Hfirst Hlast Hd. unfold isDateText in Hd.
  apply andb_true_iff in Hd. destruct Hd as [Hday Htext].
  apply String.eqb_eq in Htext. unfold inRange, inPeriod.
  rewrite <- Htext at 1 2. now rewrite !format_leb.
Qed.
End DateOrder.

Section DatedTables.
Context {num : Type}.

Lemma Dated_invoices (db : Database num) :
  Dated db = true ->
  forall r, In r (tbl_invoices db) -> isDateText (invoices.invoice_date r) = true.
Proof.
  unfold Dated. rewrite andb_true_iff, !forallb_forall. tauto.
Qed.

Lemma Dated_expenses (db : Database num) :
  Dated db = true ->
  forall x, In x (tbl_expenses db) -> isDateText (expenses.expense_date x) = true.
Proof.
  unfold Dated. rewrite andb_true_iff, !forallb_forall. tauto.
Qed.

(** The rows the three queries of the reports return. *)
Lemma salesData_isSale (company : uuid) (first last : MonthNavigation.Date)
    (db : Database num) :
  isDate first = true -> isDate last = true -> Dated db = true ->
  ProfitLossReport.salesData company (MonthNavigation.format first)
    (MonthNavigation.format last) db
  = filter (isSale company first last) (tbl_invoices db).
Proof.
  intros Hfirst Hlast Hdated. unfold ProfitLossReport.salesData, isSale.
  apply filter_ext_in. intros r Hr.
  now rewrite (inRange_inPeriod _ _ _ Hfirst Hlast (Dated_invoices _ Hdated r Hr)).
Qed.

Lemma expensesInPeriod_isPurchase (company : uuid)
    (first last : MonthNavigation.Date) (db : Database num) :
  isDate first = true -> isDate last = true -> Dated db = true ->
  GSTReport.expensesInPeriod company (MonthNavigation.format first)
    (MonthNavigation.format last) db
  = filter (isPurchase company first last) (tbl_expenses db).
Proof.
  intros Hfirst Hlast Hdated. unfold GSTReport.expensesInPeriod, isPurchase.
  apply filter_ext_in. intros x Hx.
  now rewrite (inRange_inPeriod _ _ _ Hfirst Hlast (Dated_expenses _ Hdated x Hx)).
Qed.

Lemma accountExpenses_isPurchase (company : uuid)
    (first last : MonthNavigation.Date) (db : Database num)
    (a : accounts.row) :
  isDate first = true -> isDate last = true -> Dated db = true ->
  ProfitLossReport.accountExpenses company (MonthNavigation.format first)
    (MonthNavigation.format last) db a
  = filter
      (fun x =>
         isPurchase company first last x &&
         String.eqb (expenses.expense_account_id x) (accounts.id a))
      (tbl_expenses db).
Proof.
  intros Hfirst Hlast Hdated.
  unfold ProfitLossReport.accountExpenses, isPurchase.
  apply filter_ext_in. intros x Hx.
  rewrite (inRange_inPeriod _ _ _ Hfirst Hlast (Dated_expenses _ Hdated x Hx)).
  destruct (String.eqb (expenses.company_id x) company),
    (String.eqb (expenses.expense_account_id x) (accounts.id a)),
    (inPeriod first last (expenses.expense_date x)); reflexivity.
Qed.
End DatedTables.

(** C4.  A Profit & Loss report that loads for the days from [first]
    to [last] holds, in every arithmetic: as total sales the sum of
    [sub_total_amount || 0] over the company's invoices that are not
    drafts and are dated, by the calendar, on [first], on [last] or on
    a day between, and over no other invoice; one line for each
    Expense account of the company and for no other account, its
    total the sum of [amount_before_gst || 0] over the company's
    expenses of those days booked on the account; and as net profit
    the total sales less the sum of these totals, whatever its sign.
    With a Sent invoice of 500, a Draft invoice of 9999 and a purchase
    of 800 in June 2025, total sales are 500 and the net profit is
    -300; with invoices and purchases added on 31 May, 1 June, 30 June
    and 1 July, those of 1 June and 30 June count and the others do
    not; in binary64 and exactly. *)
Theorem profit_and_loss_totals :
  (forall (num : Type) (N : Number num) (profile : company_profiles.row)
          (first last : MonthNavigation.Date) (srv : Server)
          (db : Database num) (st : ProfitLossReport.State num),
      isDate first = true -> isDate last = true -> Dated db = true ->
      snd (ProfitLossReport.fetchReportData (Some profile)
             (MonthNavigation.format first) (MonthNavigation.format last)
             srv db st) = Done ->
      ProfitLossShows (company_profiles.id profile) first last db
        (fst (ProfitLossReport.fetchReportData (Some profile)
                (MonthNavigation.format first) (MonthNavigation.format last)
                srv db st))) /\
  ScenarioD float /\
  ScenarioD Qc /\
  ScenarioAround float /\
  ScenarioAround Qc.
Proof.
  repeat match goal with |- _ /\ _ => split end.
  - intros num N profile first last srv db st Hfirst Hlast Hdated Hloaded.
    unfold ProfitLossReport.fetchReportData in *.
    destruct (accepts srv 0); [| discriminate Hloaded]. cbn [negb] in *.
    destruct (accepts srv 1 && _)%bool; [| discriminate Hloaded].
    cbn [negb fst] in *. unfold ProfitLossShows.
    cbn [ProfitLossReport.totalSales ProfitLossReport.expensesByAccount].
    repeat match goal with |- _ /\ _ => split end.
    + rewrite salesData_isSale by assumption. reflexivity.
    + rewrite map_map. cbn [ProfitLossReport.account
                             ProfitLossReport.accountSummary].
      rewrite map_id. apply orderBy_perm.
    + intros line Hline. apply in_map_iff in Hline.
      destruct Hline as [a [<- _]].
      cbn [ProfitLossReport.total ProfitLossReport.account
           ProfitLossReport.accountSummary].
      rewrite accountExpenses_isPurchase by assumption. reflexivity.
    + reflexivity.
  - unfold ScenarioD. vm_compute. repeat split.
  - unfold ScenarioD. cbn.
    repeat split; try (repeat f_equal; dec_eq).
  - unfold ScenarioAround. vm_compute. repeat split.
  - unfold ScenarioAround. cbn.
    repeat split; try (repeat f_equal; dec_eq).
Qed.

(** The report of June 2025 on [Scenario.around]. *)
Lemma profit_and_loss_totals_witness :
  ProfitLossShows (num:=float) "co-1"%string june1 june30 Scenario.around
    (fst (ProfitLossReport.fetchReportData (Some Scenario.profile)
            (MonthNavigation.format june1) (MonthNavigation.format june30)
            Scenario.server Scenario.around
            {| ProfitLossReport.totalSales := nlit 0;
               ProfitLossReport.expensesByAccount := [] |})).
Proof.
  exact (proj1 profit_and_loss_totals float _ Scenario.profile
           june1 june30 Scenario.server Scenario.around
           {| ProfitLossReport.totalSales := nlit 0;
              ProfitLossReport.expensesByAccount := [] |}
           eq_refl eq_refl eq_refl eq_refl).
Defined.

Section GSTFolds.
Context {num : Type} `{Number num}.
Import GSTReport.
Local Open Scope num_scope.

Lemma fold_addItem (its : list (invoice_items.row num)) (acc : sales.t num) :
  fold_left addItem its acc
  = {| sales.taxableValue := sales.taxableValue acc;
       sales.cgst :=
         fold_left (plusOrZero (@invoice_items.cgst_amount num)) its (sales.cgst acc);
       sales.sgst :=
         fold_left (plusOrZero (@invoice_items.sgst_amount num)) its (sales.sgst acc);
       sales.igst :=
         fold_left (plusOrZero (@invoice_items.igst_amount num)) its (sales.igst acc) |}.
Proof.
  revert acc. induction its as [| it its IH]; intro acc; cbn.
  - now destruct acc.
  - rewrite IH. reflexivity.
Qed.

Lemma fold_addInvoice (db : Database num) (invs : list (invoices.row num))
    (acc : sales.t num) :
  let its := flat_map (itemsOf db) invs in
  sales.cgst (fold_left (addInvoice db) invs acc)
  = fold_left (plusOrZero (@invoice_items.cgst_amount num)) its (sales.cgst acc) /\
  sales.sgst (fold_left (addInvoice db) invs acc)
  = fold_left (plusOrZero (@invoice_items.sgst_amount num)) its (sales.sgst acc) /\
  sales.igst (fold_left (addInvoice db) invs acc)
  = fold_left (plusOrZero (@invoice_items.igst_amount num)) its (sales.igst acc).
Proof.
  revert acc. induction invs as [| inv invs IH]; intro acc.
  - repeat split.
  - cbn [fold_left flat_map]. cbv zeta. rewrite !fold_left_app.
    destruct (IH (addInvoice db acc inv)) as [Hc [Hs Hi]].
    rewrite Hc, Hs, Hi. unfold addInvoice. rewrite fold_addItem.
    repeat split.
Qed.

Lemma fold_addExpense (exps : list (expenses.row num)) (acc : purchases.t num) :
  fold_left addExpense exps acc
  = {| purchases.taxableValue :=
         fold_left (fun sum e => sum + orZero (expenses.amount_before_gst e))
           exps (purchases.taxableValue acc);
       purchases.cgstInput :=
         fold_left (fun sum e => sum + orZero (expenses.cgst_input_credit e))
           exps (purchases.cgstInput acc);
       purchases.sgstInput :=
         fold_left (fun sum e => sum + orZero (expenses.sgst_input_credit e))
           exps (purchases.sgstInput acc);
       purchases.igstInput :=
         fold_left (fun sum e => sum + orZero (expenses.igst_input_credit e))
           exps (purchases.igstInput acc) |}.
Proof.
  revert acc. induction exps as [| e exps IH]; intro acc; cbn.
  - now destruct acc.
  - rewrite IH. reflexivity.
Qed.
End GSTFolds.

(** C5.  A GST summary that loads for the days from [first] to
    [last] holds, in every arithmetic: as sales GST of each tax head
    the sum of the head over the line items of the company's invoices
    that are not drafts and are dated, by the calendar, on [first], on
    [last] or on a day between; as input credit of the head the sum of
    it over the company's expenses of those days; and the net payable
    of the head is the first sum less the second: nothing clamps it
    or takes its absolute value.  With CGST 18 on sales and an input
    credit of 20 the net CGST is -2, rendered as 2 with the label
    "(Credit)"; with invoices and purchases added on 31 May, 1 June,
    30 June and 1 July, those of 1 June and 30 June count and the
    others do not; in binary64 and exactly. *)
Theorem gst_net_payable_keeps_sign :
  (forall (num : Type) (N : Number num) (profile : company_profiles.row)
          (first last : MonthNavigation.Date) (srv : Server)
          (db : Database num) (summary : GSTReport.GSTSummary num),
      isDate first = true -> isDate last = true -> Dated db = true ->
      snd (GSTReport.fetchGSTData (Some profile)
             (MonthNavigation.format first) (MonthNavigation.format last)
             srv db summary) = Done ->
      GSTShows (company_profiles.id profile) first last db
        (fst (GSTReport.fetchGSTData (Some profile)
                (MonthNavigation.format first) (MonthNavigation.format last)
                srv db summary))) /\
  ScenarioE float /\
  ScenarioE Qc /\
  ScenarioAroundE float /\
  ScenarioAroundE Qc.
Proof.
  repeat match goal with |- _ /\ _ => split end.
  - intros num N profile first last srv db summary Hfirst Hlast Hdated Hloaded.
    unfold GSTReport.fetchGSTData in *.
    destruct (accepts srv 0 && accepts srv 1)%bool; [| discriminate Hloaded].
    cbn [fst]. unfold GSTShows, GSTReport.netGSTPayable.
    cbn [GSTReport.sales GSTReport.purchases GSTReport.cgst GSTReport.sgst
         GSTReport.igst].
    pose proof (fold_addInvoice db
                  (GSTReport.invoicesInPeriod (company_profiles.id profile)
                     (MonthNavigation.format first)
                     (MonthNavigation.format last) db)
                  {| GSTReport.sales.taxableValue := nlit 0;
                     GSTReport.sales.cgst := nlit 0;
                     GSTReport.sales.sgst := nlit 0;
                     GSTReport.sales.igst := nlit 0 |}) as Hsales.
    cbv zeta in Hsales.
    change (GSTReport.invoicesInPeriod (company_profiles.id profile)
              (MonthNavigation.format first) (MonthNavigation.format last) db)
      with (ProfitLossReport.salesData (company_profiles.id profile)
              (MonthNavigation.format first) (MonthNavigation.format last) db)
      in Hsales.
    rewrite salesData_isSale in Hsales by assumption.
    destruct Hsales as [Hc [Hs Hi]].
    unfold GSTReport.salesSummary, GSTReport.purchasesSummary.
    change (GSTReport.invoicesInPeriod (company_profiles.id profile)
              (MonthNavigation.format first) (MonthNavigation.format last) db)
      with (ProfitLossReport.salesData (company_profiles.id profile)
              (MonthNavigation.format first) (MonthNavigation.format last) db).
    rewrite salesData_isSale by assumption.
    rewrite expensesInPeriod_isPurchase by assumption.
    rewrite fold_addExpense.
    cbn [GSTReport.purchases.cgstInput GSTReport.purchases.sgstInput
         GSTReport.purchases.igstInput].
    rewrite Hc, Hs, Hi.
    repeat match goal with |- _ /\ _ => split end; reflexivity.
  - unfold ScenarioE. vm_compute. repeat split.
  - unfold ScenarioE. cbn.
    repeat split; try (repeat f_equal; dec_eq).
  - unfold ScenarioAroundE. vm_compute. repeat split.
  - unfold ScenarioAroundE. cbn.
    repeat split; try (repeat f_equal; dec_eq).
Qed.

(** The summary of June 2025 on [Scenario.around]. *)
Lemma gst_net_payable_keeps_sign_witness :
  GSTShows (num:=float) "co-1"%string june1 june30 Scenario.around
    (fst (GSTReport.fetchGSTData (Some Scenario.profile)
            (MonthNavigation.format june1) (MonthNavigation.format june30)
            Scenario.server Scenario.around blankSummary)).
Proof.
  exact (proj1 gst_net_payable_keeps_sign float _ Scenario.profile
           june1 june30 Scenario.server Scenario.around blankSummary
           eq_refl eq_refl eq_refl eq_refl).
Defined.

(** ** Default accounts *)

Lemma NoDup_key_unique {A} (key : A -> uuid) (rows : list A) :
  NoDup (map key rows) ->
  forall a b, In a rows -> In b rows -> key a = key b -> a = b.
Proof.
  induction rows as [| r rows IH]; intros Hnd a b Ha Hb Hkey; [destruct Ha |].
  cbn in Hnd. apply NoDup_cons_iff in Hnd. destruct Hnd as [Hnotin Hnd].
  destruct Ha as [<- | Ha], Hb as [<- | Hb].
  - reflexivity.
  - exfalso. apply Hnotin. rewrite Hkey. now apply in_map.
  - exfalso. apply Hnotin. rewrite <- Hkey. now apply in_map.
  - now apply IH.
Qed.

Lemma NoDup_key_filter {A} (key : A -> uuid) (p : A -> bool) (rows : list A) :
  NoDup (map key rows) -> NoDup (map key (filter p rows)).
Proof.
  induction rows as [| r rows IH]; intro Hnd; [constructor |].
  cbn in Hnd. apply NoDup_cons_iff in Hnd. destruct Hnd as [Hnotin Hnd].
  cbn. destruct (p r); [| now apply IH].
  cbn. constructor; [| now apply IH].
  intro Hin. apply Hnotin. apply in_map_iff in Hin.
  destruct Hin as [x [Hx Hin]]. apply filter_In in Hin.
  apply in_map_iff. exists x. tauto.
Qed.

Lemma insertRows_one {A} (key : A -> uuid) (r : A) (rows rows' : list A) :
  insertRows key [r] rows = Some rows' ->
  rows' = rows ++ [r] /\ ~ In (key r) (map key rows).
Proof.
  intro Hins. split; [now apply insertRows_app in Hins |].
  intro Hin. apply in_map_iff in Hin. destruct Hin as [old [Hkey Hold]].
  pose proof (@insertRows_fresh _ _ _ _ _ _ Hins old Hold) as Hfresh.
  rewrite Hkey, String.eqb_refl in Hfresh. discriminate Hfresh.
Qed.

Section Defaults.
Import ChartOfAccounts.

Lemma defaults_deleteWhere (p : accounts.row -> bool) (rows : list accounts.row) :
  (forall r, p r = true -> accounts.is_default r = false) ->
  defaults (deleteWhere p rows) = defaults rows.
Proof.
  intro Hp. unfold defaults, deleteWhere.
  induction rows as [| r rows IH]; [reflexivity |].
  cbn. destruct (p r) eqn:Hpr; cbn.
  - rewrite (Hp r Hpr). exact IH.
  - destruct (accounts.is_default r); [f_equal |]; exact IH.
Qed.

Lemma defaults_updateWhere (p : accounts.row -> bool)
    (patch : accounts.row -> accounts.row) (rows : list accounts.row) :
  (forall r, In r rows -> p r = true -> accounts.is_default r = false) ->
  (forall r, accounts.is_default (patch r) = accounts.is_default r) ->
  defaults (updateWhere p patch rows) = defaults rows.
Proof.
  intros Hp Hpatch. unfold defaults, updateWhere.
  induction rows as [| r rows IH]; [reflexivity |].
  cbn. assert (IH' := IH (fun x Hx => Hp x (or_intror Hx))).
  destruct (p r) eqn:Hpr.
  - rewrite Hpatch, (Hp r (or_introl eq_refl) Hpr). exact IH'.
  - destruct (accounts.is_default r); [f_equal |]; exact IH'.
Qed.

Lemma Consistent_fetch {num} (company : uuid) (srv : Server) (k : nat)
    (db : Database num) (st : State) :
  NoDup (map accounts.id (tbl_accounts db)) ->
  (forall e,
      editingAccount st = Some e ->
      accounts.is_default e = false /\
      forall r, In r (tbl_accounts db) -> accounts.id r = accounts.id e ->
                accounts.is_default r = false) ->
  (forall a,
      In a (accounts st) -> accounts.is_default a = false ->
      forall r, In r (tbl_accounts db) -> accounts.id r = accounts.id a ->
                accounts.is_default r = false) ->
  Consistent db (fetchAccounts company srv k db st).
Proof.
  intros Hnd Hedit Hlist. unfold fetchAccounts.
  destruct (accepts srv k); [| exact (conj Hnd (conj Hlist Hedit))].
  split; [exact Hnd | split; [| exact Hedit]]. cbn.
  intros a Ha Hdef r Hr Hid.
  apply (Permutation_in _ (orderBy_perm _ _)) in Ha.
  apply filter_In in Ha. destruct Ha as [Ha _].
  now rewrite (NoDup_key_unique accounts.id _ Hnd r a Hr Ha Hid).
Qed.
End Defaults.

Section DefaultsFrozen.
Context {num : Type}.
Import ChartOfAccounts.

Lemma Consistent_closeModal (db : Database num) (st : State) :
  Consistent db st -> Consistent db (closeModal st).
Proof.
  intros [Hnd [Hlist _]]. split; [exact Hnd | split; [exact Hlist |]].
  cbn. intros e He. discriminate He.
Qed.

Lemma deleteAccount_keeps_defaults
    (companyProfile : option company_profiles.row) (confirmed : bool)
    (srv : Server) (db : Database num) (st : State) (id : uuid) :
  Consistent db st ->
  let '(db', st', _) := deleteAccount companyProfile confirmed srv db st id in
  Consistent db' st' /\ defaults (tbl_accounts db') = defaults (tbl_accounts db).
Proof.
  intros Hcons. unfold deleteAccount.
  destruct companyProfile as [profile |]; [| now split].
  destruct confirmed; cbn [negb]; [| now split].
  destruct (accepts srv 0); cbn [negb]; [| now split].
  destruct (existsb _ _); [now split |].
  destruct Hcons as [Hnd [Hlist Hedit]].
  set (doomed := fun r : accounts.row =>
                   (isAccount id (company_profiles.id profile) r
                    && Bool.eqb (accounts.is_default r) false
                    && Migration.deletePolicy r)%bool).
  assert (Hsub : forall r, In r (deleteWhere doomed (tbl_accounts db)) ->
                           In r (tbl_accounts db)).
  { intros r Hr. unfold deleteWhere in Hr. now apply filter_In in Hr. }
  split.
  - apply Consistent_fetch; cbn.
    + now apply NoDup_key_filter.
    + intros e He. destruct (Hedit e He) as [Hdef Hrows].
      split; [exact Hdef |]. intros r Hr. apply Hrows. now apply Hsub.
    + intros a Ha Hdef r Hr. apply (Hlist a Ha Hdef). now apply Hsub.
  - cbn. apply defaults_deleteWhere. intros r Hr. subst doomed. cbn in Hr.
    apply andb_true_iff in Hr. destruct Hr as [Hr _].
    apply andb_true_iff in Hr. destruct Hr as [_ Hr].
    now apply Bool.eqb_prop in Hr.
Qed.

Lemma onSubmit_keeps_defaults
    (companyProfile : option company_profiles.row)
    (srv : Server) (db : Database num) (st : State) (data : FormValues) :
  Consistent db st ->
  let '(db', st', _) := onSubmit companyProfile srv db st data in
  Consistent db' st' /\ defaults (tbl_accounts db') = defaults (tbl_accounts db).
Proof.
  intros Hcons. unfold onSubmit.
  destruct companyProfile as [profile |]; [| now split].
  pose proof Hcons as [Hnd [Hlist Hedit]].
  destruct (editingAccount st) as [editing |] eqn:Hediting;
    unfold request; destruct (accepts srv 0); cbn [option_map];
    try (now split).
  - (* the account being edited is not a default one *)
    destruct (Hedit editing eq_refl) as [_ Hrows].
    set (p := isAccount (accounts.id editing) (company_profiles.id profile)).
    assert (Hp : forall r, In r (tbl_accounts db) -> p r = true ->
                           accounts.is_default r = false).
    { intros r Hr Hpr. apply (Hrows r Hr). subst p. unfold isAccount in Hpr.
      apply andb_true_iff in Hpr. destruct Hpr as [Hid _].
      now apply String.eqb_eq in Hid. }
    assert (Hfrom : forall r, In r (updateWhere p (updatePatch data) (tbl_accounts db)) ->
              exists r0, In r0 (tbl_accounts db) /\
                         accounts.id r = accounts.id r0 /\
                         accounts.is_default r = accounts.is_default r0).
    { intros r Hr. unfold updateWhere in Hr. apply in_map_iff in Hr.
      destruct Hr as [r0 [<- Hr0]]. exists r0.
      destruct (p r0); repeat split; assumption. }
    split.
    + apply Consistent_fetch; cbn.
      * rewrite updateWhere_preserves by reflexivity. exact Hnd.
      * intros e He. discriminate He.
      * intros a Ha Hdef r Hr Hid. destruct (Hfrom r Hr) as [r0 [Hr0 [Hid0 Hdef0]]].
        rewrite Hdef0. apply (Hlist a Ha Hdef r0 Hr0). congruence.
    + cbn. apply defaults_updateWhere; [exact Hp | reflexivity].
  - (* a new account is not a default one *)
    destruct (insertRows accounts.id _ (tbl_accounts db)) as [rows |] eqn:Hins;
      cbn [option_map]; [| now split].
    apply insertRows_one in Hins. destruct Hins as [-> Hfresh].
    split.
    + apply Consistent_fetch; cbn.
      * rewrite map_app. cbn.
        apply (Permutation_NoDup (Permutation_cons_append _ _)).
        now constructor.
      * intros e He. discriminate He.
      * intros a Ha Hdef r Hr Hid. apply in_app_or in Hr.
        destruct Hr as [Hr | [<- | []]]; [| reflexivity].
        now apply (Hlist a Ha Hdef r Hr).
    + cbn. unfold defaults. rewrite filter_app. cbn. apply app_nil_r.
Qed.

(** One action keeps the page consistent with the table and leaves
    the default accounts of the table as they were. *)
Lemma act_keeps_defaults (companyProfile : option company_profiles.row)
    (srv : Server) (db : Database num) (st : State) (a : Action) :
  Consistent db st ->
  let '(db', st', _) := act companyProfile srv db st a in
  Consistent db' st' /\ defaults (tbl_accounts db') = defaults (tbl_accounts db).
Proof.
  intros Hcons. pose proof Hcons as [Hnd [Hlist Hedit]].
  destruct a as [| | k | k confirmed | | data]; cbn [act].
  - destruct companyProfile as [profile |]; [| now split].
    split; [| reflexivity]. now apply Consistent_fetch.
  - split; [| reflexivity].
    split; [exact Hnd | split; [exact Hlist |]].
    cbn. intros e He. discriminate He.
  - destruct (nth_error (accounts st) k) as [account |] eqn:Hk; [| now split].
    destruct (accounts.is_default account) eqn:Hdef; [now split |].
    split; [| reflexivity].
    split; [exact Hnd | split; [exact Hlist |]].
    cbn. intros e He. injection He as <-.
    split; [exact Hdef |].
    apply (Hlist account (nth_error_In _ _ Hk) Hdef).
  - destruct (nth_error (accounts st) k) as [account |] eqn:Hk; [| now split].
    destruct (accounts.is_default account) eqn:Hdef; [now split |].
    now apply deleteAccount_keeps_defaults.
  - split; [| reflexivity]. now apply Consistent_closeModal.
  - destruct (showModal st); [| now split].
    destruct (schema data); [| now split].
    now apply onSubmit_keeps_defaults.
Qed.

Lemma session_keeps_defaults (companyProfile : option company_profiles.row)
    (script : list (Server * Action)) :
  forall (db : Database num) (st : State),
    Consistent db st ->
    defaults (tbl_accounts (fst (session companyProfile db st script)))
    = defaults (tbl_accounts db).
Proof.
  induction script as [| [srv a] script IH]; intros db st Hcons; [reflexivity |].
  cbn [session].
  pose proof (act_keeps_defaults companyProfile srv a Hcons) as Hstep.
  destruct (act companyProfile srv db st a) as [[db1 st1] out].
  destruct Hstep as [Hcons1 Hsame]. rewrite (IH db1 st1 Hcons1). exact Hsame.
Qed.
End DefaultsFrozen.

Lemma filter_none {A} (p : A -> bool) (rows : list A) :
  (forall r, In r rows -> p r = false) -> filter p rows = [].
Proof.
  induction rows as [| r rows IH]; intro Hnone; [reflexivity |].
  cbn. rewrite (Hnone r (or_introl eq_refl)).
  apply IH. intros x Hx. apply Hnone. now right.
Qed.

(** The handler [onSubmit] of the accounts page has no check of its
    own: run on a state whose account being edited is a default one,
    which no action of the page produces, it renames the account. *)
Example onSubmit_alone_renames_default :
  let st :=
    {| ChartOfAccounts.accounts := [];
       ChartOfAccounts.showModal := true;
       ChartOfAccounts.editingAccount :=
         Some (Scenario.account "acc-1" "Sales" Income true) |} in
  let data :=
    {| ChartOfAccounts.account_name := "Revenue"%string;
       ChartOfAccounts.account_type := Income |} in
  let '(db', _, _) :=
    ChartOfAccounts.onSubmit (Some Scenario.profile) Scenario.server
      (Scenario.db (num:=float)) st data in
  map accounts.account_name (defaults (tbl_accounts db'))
  = ["Revenue"%string; "Purchases/Direct Expenses"%string].
Proof. reflexivity. Qed.

(** C9.  Six default accounts are not seeded for every company that
    is created: [createCompanyProfile] awaits the call of
    [create_default_accounts] and, unlike the other requests to the
    database, does not look at its reply.  When the profile is inserted
    and the call is refused, the company is returned as created and
    has no account, default or other. *)
Lemma company_created_without_default_accounts :
  let data :=
    {| CompanyContext.company_name := "Second Company"%string;
       CompanyContext.company_address := None;
       CompanyContext.gstin := None;
       CompanyContext.logo_url := None;
       CompanyContext.fiscal_year_start_month := 0%Z |} in
  let created :=
    CompanyContext.createCompanyProfile (Some "user-2"%string)
      (serverFailingAt 1) (Scenario.db (num:=float)) data in
  option_map company_profiles.id (snd created) = Some "A-new"%string /\
  List.length (accountsOf "A-new"%string (fst created)) = 0 /\
  List.length (accountsOf "A-new"%string (fst created)) <> 6.
Proof.
  cbv zeta. split; [reflexivity | split; [reflexivity | discriminate]].
Qed.

(** X20.  [create_default_accounts] inserts six accounts.  When a
    company is created and the call gets through, the company has
    exactly six accounts, the six named in the migration, all default
    ones, and the accounts of the other companies are as they were.
    On the accounts page, whatever the user does and whatever the
    server answers, the default accounts of the table stay as they
    are: none is deleted, none is changed. *)
Theorem default_accounts_seeded_and_frozen :
  List.length Migration.defaultAccounts = 6 /\
  (forall (num : Type) (user : uuid) (srv : Server) (db : Database num)
          (data : CompanyContext.ProfileData) (profile : company_profiles.row),
      snd (CompanyContext.createCompanyProfile (Some user) srv db data)
      = Some profile ->
      Seeds srv (company_profiles.id profile) db ->
      AccountsHaveCompany db ->
      let db' := fst (CompanyContext.createCompanyProfile (Some user) srv db data) in
      let own := accountsOf (company_profiles.id profile) db' in
      List.length own = 6 /\
      map (fun a => (accounts.account_name a, accounts.account_type a)) own
      = Migration.defaultAccounts /\
      (forall a, In a own -> accounts.is_default a = true) /\
      tbl_accounts db' = tbl_accounts db ++ own) /\
  (forall (num : Type) (companyProfile : option company_profiles.row)
          (db : Database num)
          (script : list (Server * ChartOfAccounts.Action)),
      NoDup (map accounts.id (tbl_accounts db)) ->
      defaults
        (tbl_accounts
           (fst (ChartOfAccounts.session companyProfile db
                   ChartOfAccounts.initialState script)))
      = defaults (tbl_accounts db)).
Proof.
  split; [reflexivity | split].
  - intros num user srv db data profile Hcreated Hseeds Hfk db' own.
    subst own db'. unfold CompanyContext.createCompanyProfile in *.
    unfold Seeds in Hseeds. unfold request in *.
    destruct (accepts srv 0); [| discriminate Hcreated].
    destruct (insertRows company_profiles.id _ (tbl_company_profiles db))
      as [profiles |] eqn:Hins; [| discriminate Hcreated].
    apply insertRows_one in Hins. destruct Hins as [-> Hfresh].
    cbn [company_profiles.id tbl_accounts with_company_profiles] in *.
    assert (Hprofile : company_profiles.id profile = fresh srv 0).
    { destruct (accepts srv 1);
        [destruct (Migration.create_default_accounts _ _ _) |];
        cbn in Hcreated; injection Hcreated as <-; reflexivity. }
    rewrite Hprofile in *.
    destruct (accepts srv 1); [| now contradiction Hseeds].
    destruct (Migration.create_default_accounts _ _ _) as [accs |] eqn:Hseed;
      [| now contradiction Hseeds].
    unfold Migration.create_default_accounts in Hseed.
    apply insertRows_app in Hseed. subst accs.
    cbn [fst tbl_accounts with_accounts]. unfold accountsOf.
    cbn [tbl_accounts with_accounts]. rewrite filter_app.
    rewrite (filter_none _ (tbl_accounts db)).
    2:{ intros a Ha. destruct (String.eqb _ _) eqn:Heq; [| reflexivity].
        exfalso. apply Hfresh. apply String.eqb_eq in Heq. rewrite <- Heq.
        now apply Hfk. }
    cbn. rewrite !String.eqb_refl. cbn.
    repeat split.
    intros a Ha. repeat (destruct Ha as [<- | Ha]; [reflexivity |]). destruct Ha.
  - intros num companyProfile db script Hnd.
    apply session_keeps_defaults.
    split; [exact Hnd | split]; cbn.
    + intros a [].
    + intros e He. discriminate He.
Qed.

(** A second company created on [Scenario.db], and a session on the
    accounts page that tries every button on default and other rows. *)
Lemma default_accounts_seeded_and_frozen_witness :
  let data :=
    {| CompanyContext.company_name := "Second Company"%string;
       CompanyContext.company_address := None;
       CompanyContext.gstin := None;
       CompanyContext.logo_url := None;
       CompanyContext.fiscal_year_start_month := 0%Z |} in
  let created :=
    CompanyContext.createCompanyProfile (Some "user-2"%string) Scenario.server
      (Scenario.db (num:=float)) data in
  let rename :=
    {| ChartOfAccounts.account_name := "Office rent"%string;
       ChartOfAccounts.account_type := Expense |} in
  let script :=
    [(Scenario.server, ChartOfAccounts.Mount);
     (Scenario.server, ChartOfAccounts.EditRow 0);
     (Scenario.server, ChartOfAccounts.SubmitForm rename);
     (Scenario.server, ChartOfAccounts.EditRow 1);
     (Scenario.server, ChartOfAccounts.SubmitForm rename);
     (Scenario.server, ChartOfAccounts.DeleteRow 0 true);
     (Scenario.server, ChartOfAccounts.DeleteRow 1 true)] in
  List.length (accountsOf "A-new"%string (fst created)) = 6 /\
  defaults
    (tbl_accounts
       (fst (ChartOfAccounts.session (Some Scenario.profile)
               (Scenario.db (num:=float)) ChartOfAccounts.initialState script)))
  = defaults (tbl_accounts (Scenario.db (num:=float))).
Proof.
  intros data created rename script.
  destruct default_accounts_seeded_and_frozen as [_ [Hseeded Hfrozen]].
  split.
  - refine (proj1 (Hseeded float "user-2"%string Scenario.server Scenario.db data
                     _ eq_refl _ _)).
    + unfold Seeds. cbn. discriminate.
    + intros a Ha. cbn in *. intuition (subst; cbn; auto).
  - apply Hfrozen. cbn.
    repeat constructor; cbn; intuition discriminate.
Defined.

(** * Further properties *)

(** ** The lines of the invoice form *)

Lemma replaceAt_length {A} (index : nat) (x : A) (xs : list A) :
  List.length (replaceAt index x xs) = List.length xs.
Proof.
  revert index. induction xs as [| y xs IH]; intros [| k]; cbn; auto.
Qed.

Lemma replaceAt_nth {A} (index : nat) (x : A) (xs : list A) (k : nat) :
  nth_error (replaceAt index x xs) k
  = if (k =? index)%nat && (index <? List.length xs)%nat
    then Some x else nth_error xs k.
Proof.
  revert index k. induction xs as [| y xs IH]; intros index k.
  - destruct index, k; cbn; try reflexivity.
    now rewrite andb_false_r.
  - destruct index as [| i], k as [| j]; cbn; try reflexivity.
    rewrite IH. reflexivity.
Qed.

Section ItemList.
Context {num : Type} `{Number num}.
Import CreateEditInvoice.

Lemma indexed_filter_drops (index : nat) (items : list (ItemValues num)) :
  forall from,
    map snd
      (filter (fun '(i, _) => negb (i =? from + index)%nat)
         (combine (seq from (List.length items)) items))
    = firstn index items ++ skipn (S index) items.
Proof.
  revert index. induction items as [| item items IH]; intros index from.
  - now destruct index.
  - cbn [List.length seq combine filter].
    destruct index as [| k].
    + rewrite Nat.add_0_r, Nat.eqb_refl. cbn [negb firstn skipn app].
      clear IH. generalize (Nat.lt_succ_diag_r from).
      generalize (S from) as start. revert from.
      induction items as [| x xs IHxs]; intros from start Hlt; [reflexivity |].
      cbn. assert (Hne : (start =? from)%nat = false)
        by (apply Nat.eqb_neq; intro; subst; now apply Nat.lt_irrefl in Hlt).
      rewrite Hne. cbn. f_equal. apply IHxs. now apply Nat.lt_lt_succ_r.
    + assert (Hne : (from =? from + S k)%nat = false).
      { apply Nat.eqb_neq. intro Heq.
        rewrite <- (Nat.add_0_r from) in Heq at 1.
        apply Nat.add_cancel_l in Heq. discriminate Heq. }
      rewrite Hne. cbn [negb map snd firstn app].
      change (skipn (S (S k)) (item :: items)) with (skipn (S k) items).
      f_equal. rewrite <- (IH k (S from)).
      now rewrite Nat.add_succ_comm.
Qed.

Lemma removeItem_drops (index : nat) (items : list (ItemValues num)) :
  removeItem index items = firstn index items ++ skipn (S index) items.
Proof. exact (indexed_filter_drops index items 0). Qed.

Lemma itemAct_length (products : list (products_services.row num))
    (items : list (ItemValues num)) (a : ItemAction num) :
  (1 <= List.length items)%nat ->
  (1 <= List.length (itemAct products items a))%nat.
Proof.
  intro Hlen. destruct a as [| index | index productId | index edit]; cbn [itemAct].
  - unfold addItem. rewrite length_app. apply Nat.le_trans with (1 := Hlen).
    apply Nat.le_add_r.
  - destruct ((0 <? index)%nat && (index <? List.length items)%nat) eqn:Hshown;
      [| exact Hlen].
    apply andb_true_iff in Hshown. destruct Hshown as [Hpos Hin].
    apply Nat.ltb_lt in Hpos. apply Nat.ltb_lt in Hin.
    rewrite removeItem_drops, length_app, length_firstn.
    rewrite Nat.min_l by (now apply Nat.lt_le_incl).
    apply Nat.le_trans with (m := index); [exact Hpos | apply Nat.le_add_r].
  - destruct (index <? List.length items)%nat; [| exact Hlen].
    unfold handleProductChange.
    destruct (String.eqb productId ""); [exact Hlen |].
    destruct (find _ products); [| exact Hlen].
    destruct (nth_error items index); [| exact Hlen].
    now rewrite replaceAt_length.
  - destruct (nth_error items index); [| exact Hlen].
    now rewrite replaceAt_length.
Qed.
End ItemList.

(** X1.  Whatever the user does to the lines of the invoice form (add
    a line, remove a line with its bin, pick a product, type into a
    line), a form that has a line keeps at least one: the bin is not
    rendered on the first line. *)
Theorem invoice_form_keeps_a_line
    (num : Type) (N : Number num)
    (products : list (products_services.row num))
    (items : list (CreateEditInvoice.ItemValues num))
    (script : list (CreateEditInvoice.ItemAction num))
    (Hline : items <> []) :
  CreateEditInvoice.itemSession products items script <> [].
Proof.
  assert (Hlen : (1 <= List.length items)%nat).
  { destruct items; [contradiction | cbn; apply le_n_S, Nat.le_0_l]. }
  clear Hline. unfold CreateEditInvoice.itemSession.
  revert items Hlen. induction script as [| a script IH]; intros items Hlen.
  - cbn. intro Hnil. rewrite Hnil in Hlen. now apply Nat.nle_succ_0 in Hlen.
  - cbn [fold_left]. apply IH. now apply itemAct_length.
Qed.

(** The form as it opens, after the user tries the bin of every line
    and adds and removes lines. *)
Lemma invoice_form_keeps_a_line_witness :
  CreateEditInvoice.itemSession (num:=float) []
    [CreateEditInvoice.blankItem]
    [CreateEditInvoice.ClickRemove 0; CreateEditInvoice.ClickAddItem;
     CreateEditInvoice.ClickRemove 1; CreateEditInvoice.ClickRemove 0]
  <> [].
Proof.
  apply invoice_form_keeps_a_line. discriminate.
Defined.

(** X2.  [removeItem] drops the line at [index] and keeps the others in
    their order; an index past the end drops nothing; and removing the
    last line undoes [addItem]. *)
Theorem remove_item_drops_one_line :
  forall (num : Type) (N : Number num)
         (items : list (CreateEditInvoice.ItemValues num)) (index : nat),
    CreateEditInvoice.removeItem index items
    = firstn index items ++ skipn (S index) items /\
    CreateEditInvoice.removeItem (List.length items + index) items = items /\
    CreateEditInvoice.removeItem (List.length items)
      (CreateEditInvoice.addItem items) = items.
Proof.
  intros num N items index. split; [apply removeItem_drops | split].
  - rewrite removeItem_drops.
    rewrite firstn_all2 by apply Nat.le_add_r.
    rewrite skipn_all2; [apply app_nil_r |].
    apply Nat.le_trans with (m := List.length items + index);
      [apply Nat.le_add_r | apply Nat.le_succ_diag_r].
  - rewrite removeItem_drops. unfold CreateEditInvoice.addItem.
    rewrite firstn_app, Nat.sub_diag, firstn_all. cbn [firstn].
    rewrite skipn_all2; [now rewrite !app_nil_r |].
    rewrite length_app. cbn. rewrite Nat.add_1_r. apply Nat.le_refl.
Qed.

Lemma handleProductChange_chosen {num} `{Number num}
    (products : list (products_services.row num)) (index : nat)
    (productId : string) (items : list (CreateEditInvoice.ItemValues num))
    (product : products_services.row num)
    (item : CreateEditInvoice.ItemValues num) :
  productId <> ""%string ->
  find (fun p => String.eqb (products_services.id p) productId) products
  = Some product ->
  nth_error items index = Some item ->
  CreateEditInvoice.handleProductChange products index productId items
  = replaceAt index
      {| CreateEditInvoice.fi_product_service_id :=
           Some (products_services.id product);
         CreateEditInvoice.fi_item_description :=
           products_services.item_name product;
         CreateEditInvoice.fi_quantity := CreateEditInvoice.fi_quantity item;
         CreateEditInvoice.fi_rate :=
           products_services.default_sale_price product;
         CreateEditInvoice.fi_gst_rate_percentage :=
           products_services.default_gst_rate product |}
      items /\
  (index <? List.length items)%nat = true.
Proof.
  intros Hid Hfound Hline. unfold CreateEditInvoice.handleProductChange.
  apply String.eqb_neq in Hid. rewrite Hid, Hfound, Hline.
  split; [reflexivity |].
  apply Nat.ltb_lt. apply nth_error_Some. now rewrite Hline.
Qed.

(** X3.  [handleProductChange] leaves the lines alone when no product
    is chosen or the chosen one is not in the catalogue.  For a product
    of the catalogue chosen on a line of the form, that line takes the
    product's identifier, name, price and GST rate and keeps its
    quantity; the number of lines and every other line stay as they
    were. *)
Theorem product_choice_changes_one_line :
  forall (num : Type) (N : Number num)
         (products : list (products_services.row num)) (index : nat)
         (productId : string) (items : list (CreateEditInvoice.ItemValues num)),
    CreateEditInvoice.handleProductChange products index "" items = items /\
    (find (fun p => String.eqb (products_services.id p) productId) products
     = None ->
     CreateEditInvoice.handleProductChange products index productId items
     = items) /\
    (forall product item,
        productId <> ""%string ->
        find (fun p => String.eqb (products_services.id p) productId) products
        = Some product ->
        nth_error items index = Some item ->
        let items' :=
          CreateEditInvoice.handleProductChange products index productId items in
        List.length items' = List.length items /\
        nth_error items' index
        = Some {| CreateEditInvoice.fi_product_service_id :=
                    Some (products_services.id product);
                  CreateEditInvoice.fi_item_description :=
                    products_services.item_name product;
                  CreateEditInvoice.fi_quantity :=
                    CreateEditInvoice.fi_quantity item;
                  CreateEditInvoice.fi_rate :=
                    products_services.default_sale_price product;
                  CreateEditInvoice.fi_gst_rate_percentage :=
                    products_services.default_gst_rate product |} /\
        forall k, k <> index -> nth_error items' k = nth_error items k).
Proof.
  intros num N products index productId items. split; [reflexivity | split].
  - intro Hnone. unfold CreateEditInvoice.handleProductChange.
    rewrite Hnone. now destruct (String.eqb productId "").
  - intros product item Hid Hfound Hline items'. subst items'.
    destruct (handleProductChange_chosen products index items Hid Hfound Hline)
      as [-> Hin].
    split; [apply replaceAt_length | split].
    + now rewrite replaceAt_nth, Nat.eqb_refl, Hin.
    + intros k Hk. rewrite replaceAt_nth.
      apply Nat.eqb_neq in Hk. now rewrite Hk.
Qed.

(** The sample product chosen on the one line of a new form. *)
Lemma product_choice_changes_one_line_witness :
  List.length
    (CreateEditInvoice.handleProductChange (num:=float) [sampleProduct] 0
       "prod-1" [CreateEditInvoice.blankItem])
  = 1%nat.
Proof.
  exact (proj1
    (proj2 (proj2
       (@product_choice_changes_one_line float _ [sampleProduct] 0
          "prod-1"%string
          [CreateEditInvoice.blankItem]))
       sampleProduct CreateEditInvoice.blankItem
       ltac:(discriminate) eq_refl eq_refl)).
Defined.

Lemma minLength1_any_message (msg msg' : Issue) (s : string) :
  minLength1 msg s = [] -> minLength1 msg' s = [].
Proof.
  unfold minLength1. destruct (String.length s <? 1)%nat;
    [discriminate | reflexivity].
Qed.

Lemma zNumber_min_any_message {num} `{Number num} (bound : num)
    (msg msg' : Issue) (x : num) :
  zNumber [zMin bound msg] x = [] -> zNumber [zMin bound msg'] x = [].
Proof.
  unfold zNumber, zMin. destruct (nisnan x); [discriminate |]. cbn.
  destruct (nltb x bound); [discriminate | reflexivity].
Qed.

Lemma zNumber_range_any_message {num} `{Number num} (lo hi : num)
    (m1 m2 m1' m2' : Issue) (x : num) :
  zNumber [zMin lo m1; zMax hi m2] x = [] ->
  zNumber [zMin lo m1'; zMax hi m2'] x = [].
Proof.
  unfold zNumber, zMin, zMax. destruct (nisnan x); [discriminate |]. cbn.
  destruct (nltb x lo); [discriminate |].
  destruct (nltb hi x); [discriminate | reflexivity].
Qed.

(** X4.  A product that passes the checks of its own form (a name, a
    price of at least 0, a GST rate from 0 to 28), chosen on a line of
    an invoice, gives a line whose only possible issues are those of
    the quantity the line already had. *)
Theorem catalogue_product_gives_valid_line
    (num : Type) (N : Number num)
    (products : list (products_services.row num)) (index : nat)
    (product : products_services.row num)
    (item : CreateEditInvoice.ItemValues num)
    (items : list (CreateEditInvoice.ItemValues num))
    (Hid : products_services.id product <> ""%string)
    (Hfound :
       find (fun p => String.eqb (products_services.id p)
                        (products_services.id product)) products
       = Some product)
    (Hline : nth_error items index = Some item)
    (Hvalid : ProductsServices.schema (ProductsServices.formOf product) = []) :
  exists item',
    nth_error
      (CreateEditInvoice.handleProductChange products index
         (products_services.id product) items) index = Some item' /\
    CreateEditInvoice.itemSchema item'
    = zNumber
        [zMin CreateEditInvoice.oneHundredth
           "Quantity must be greater than 0"%string]
        (CreateEditInvoice.fi_quantity item).
Proof.
  destruct (handleProductChange_chosen products index items Hid Hfound Hline)
    as [-> Hin].
  eexists. split; [now rewrite replaceAt_nth, Nat.eqb_refl, Hin |].
  unfold ProductsServices.schema, ProductsServices.formOf in Hvalid.
  cbn [ProductsServices.item_name ProductsServices.default_sale_price
       ProductsServices.default_gst_rate] in Hvalid.
  apply app_eq_nil in Hvalid. destruct Hvalid as [Hname Hrest].
  apply app_eq_nil in Hrest. destruct Hrest as [Hprice Hgst].
  unfold CreateEditInvoice.itemSchema.
  cbn [CreateEditInvoice.fi_item_description CreateEditInvoice.fi_quantity
       CreateEditInvoice.fi_rate CreateEditInvoice.fi_gst_rate_percentage].
  rewrite (minLength1_any_message _ "Item description is required"%string _ Hname).
  rewrite (zNumber_min_any_message _ _ "Rate must be 0 or greater"%string _ Hprice).
  rewrite (zNumber_range_any_message _ _ _ _
             "GST rate must be 0 or greater"%string
             "GST rate cannot exceed 28%"%string _ Hgst).
  cbn [app]. now rewrite !app_nil_r.
Qed.

(** The sample product chosen on the one line of a new form. *)
Lemma catalogue_product_gives_valid_line_witness :
  exists item',
    nth_error
      (CreateEditInvoice.handleProductChange (num:=float) [sampleProduct] 0
         "prod-1" [CreateEditInvoice.blankItem]) 0 = Some item' /\
    CreateEditInvoice.itemSchema item' = [].
Proof.
  exact (@catalogue_product_gives_valid_line float _ [sampleProduct] 0
           sampleProduct CreateEditInvoice.blankItem
           [CreateEditInvoice.blankItem]
           ltac:(discriminate) eq_refl eq_refl eq_refl).
Defined.

(** ** What the invoice form accepts *)

Lemma minLength1_nil (msg : Issue) (s : string) :
  minLength1 msg s = [] <-> s <> ""%string.
Proof.
  unfold minLength1. destruct s as [| c s]; cbn.
  - split; [discriminate | intro Hne; now contradiction Hne].
  - split; [discriminate | reflexivity].
Qed.

Lemma app_nil_iff {A} (xs ys : list A) :
  xs ++ ys = [] <-> xs = [] /\ ys = [].
Proof.
  split; [apply app_eq_nil | intros [-> ->]; reflexivity].
Qed.

Lemma flat_map_nil {A B} (f : A -> list B) (xs : list A) :
  flat_map f xs = [] <-> Forall (fun x => f x = []) xs.
Proof.
  induction xs as [| x xs IH]; cbn.
  - split; [constructor | reflexivity].
  - split.
    + intro Hnil. apply app_eq_nil in Hnil. destruct Hnil as [Hx Hxs].
      constructor; [exact Hx | now apply IH].
    + intro Hall. inversion Hall as [| ? ? Hx Hxs]; subst.
      rewrite Hx. now apply IH.
Qed.

Section AcceptedFacts.
Context {num : Type} `{Number num}.
Import CreateEditInvoice.

Lemma zNumber_min_nil (lo : num) (msg : Issue) (x : num) :
  zNumber [zMin lo msg] x = [] <-> AtLeast lo x.
Proof.
  unfold zNumber, zMin, AtLeast. destruct (nisnan x); cbn.
  - split; [discriminate | intros [Hnan _]; discriminate Hnan].
  - destruct (nltb x lo); cbn; split; try discriminate; auto.
    intros [_ Hlt]. discriminate Hlt.
Qed.

Lemma zNumber_range_nil (lo hi : num) (m1 m2 : Issue) (x : num) :
  zNumber [zMin lo m1; zMax hi m2] x = [] <->
  AtLeast lo x /\ nltb hi x = false.
Proof.
  unfold zNumber, zMin, zMax, AtLeast. destruct (nisnan x); cbn.
  - split; [discriminate | intros [[Hnan _] _]; discriminate Hnan].
  - destruct (nltb x lo), (nltb hi x); cbn; split; try discriminate; auto;
      intros [[_ Hlo] Hhi]; discriminate.
Qed.

Lemma itemSchema_nil (it : ItemValues num) :
  itemSchema it = [] <-> ItemAccepted it.
Proof.
  unfold itemSchema, ItemAccepted.
  rewrite !app_nil_iff, minLength1_nil, !zNumber_min_nil, zNumber_range_nil.
  tauto.
Qed.

Lemma gstinField_nil (v : option string) :
  gstinField v = [] <->
  v = None \/ v = Some ""%string \/ exists s, v = Some s /\ gstinRegex s = true.
Proof.
  unfold gstinField. destruct v as [s |].
  - destruct (gstinRegex s) eqn:Hre; cbn [orb].
    + split; [| reflexivity]. intros _. right. right. now exists s.
    + destruct s as [| c s]; cbn [String.length Nat.eqb].
      * split; [| reflexivity]. intros _. right. now left.
      * split; [discriminate |].
        intros [Hnone | [Hempty | [s' [Hs' Hre']]]]; try discriminate.
        injection Hs' as <-. rewrite Hre in Hre'. discriminate Hre'.
  - split; [now left | reflexivity].
Qed.

Lemma schema_nil (data : FormValues num) :
  schema data = [] <-> FormAccepted data.
Proof.
  unfold schema, FormAccepted.
  rewrite !app_nil_iff, !minLength1_nil, gstinField_nil, flat_map_nil.
  assert (Hplace :
    match place_of_supply_type data with
    | IntraState | InterState => []
    | NotApplicable => ["invalid_enum_value"%string]
    end = [] <-> place_of_supply_type data <> NotApplicable)
    by (destruct (place_of_supply_type data); split;
        congruence || discriminate || reflexivity).
  assert (Hitems :
    (if (List.length (items data) <? 1)%nat
     then ["At least one item is required"%string] else []) = []
    <-> items data <> [])
    by (destruct (items data); cbn; split;
        congruence || discriminate || reflexivity).
  assert (Hall :
    Forall (fun x => itemSchema x = []) (items data)
    <-> Forall (ItemAccepted (num:=num)) (items data))
    by (split; apply Forall_impl; intro it; apply itemSchema_nil).
  rewrite Hplace, Hitems, Hall. tauto.
Qed.
End AcceptedFacts.

(** ** Totals of an accepted invoice, in exact arithmetic *)

Section DecOrder.
Local Open Scope Qc_scope.

Lemma Qc_mult_nonneg (x y : Qc) : 0 <= x -> 0 <= y -> 0 <= x * y.
Proof.
  intros Hx Hy. replace 0 with (0 * y) by ring.
  now apply Qcmult_le_compat_r.
Qed.

Lemma Qc_plus_nonneg (x y : Qc) : 0 <= x -> 0 <= y -> 0 <= x + y.
Proof.
  intros Hx Hy. replace 0 with (0 + 0) by ring.
  now apply Qcplus_le_compat.
Qed.

Lemma Dec_AtLeast (lo x : Qc) : AtLeast lo x -> lo <= x.
Proof.
  intros [_ Hlt]. cbn in Hlt. apply negb_false_iff in Hlt.
  now apply Qle_bool_iff in Hlt.
Qed.

Lemma Dec_not_above (hi x : Qc) : nltb hi x = false -> x <= hi.
Proof.
  intro Hlt. cbn in Hlt. apply negb_false_iff in Hlt.
  now apply Qle_bool_iff in Hlt.
Qed.

Lemma Dec_line_bounds (supply : SupplyType)
    (it : CreateEditInvoice.ItemValues Qc) :
  ItemAccepted it ->
  let l := CreateEditInvoice.lineItem supply it in
  0 <= CreateEditInvoice.item_total_amount l /\
  0 <= CreateEditInvoice.item_gst_total l /\
  CreateEditInvoice.item_gst_total l
  <= topShare * CreateEditInvoice.item_total_amount l.
Proof.
  intros [_ [Hq [Hr [Hg Hg28]]]] l. subst l.
  apply Dec_AtLeast in Hq, Hr, Hg. apply Dec_not_above in Hg28.
  assert (H0 : nlit 0 = 0 :> Qc) by dec_eq. rewrite H0 in Hr, Hg.
  assert (Hq0 : 0 <= CreateEditInvoice.fi_quantity it).
  { apply Qcle_trans with (2 := Hq). unfold Qcle. vm_compute. discriminate. }
  assert (Hinv : 0 <= / nlit 100)
    by (unfold Qcle; vm_compute; discriminate).
  cbn [CreateEditInvoice.lineItem CreateEditInvoice.item_total_amount
       CreateEditInvoice.item_gst_total nmul ndiv Dec.number].
  set (q := CreateEditInvoice.fi_quantity it) in *.
  set (r := CreateEditInvoice.fi_rate it) in *.
  set (g := CreateEditInvoice.fi_gst_rate_percentage it) in *.
  assert (Hqr : 0 <= q * r) by now apply Qc_mult_nonneg.
  split; [exact Hqr | split].
  - unfold Qcdiv. apply Qc_mult_nonneg; [| exact Hinv].
    now apply Qc_mult_nonneg.
  - unfold topShare. cbn [nmul ndiv Dec.number]. unfold Qcdiv.
    replace (nlit 28 * / nlit 100 * (q * r))
      with (nlit 28 * (q * r) * / nlit 100) by ring.
    apply Qcmult_le_compat_r; [| exact Hinv].
    rewrite (Qcmult_comm (nlit 28)).
    rewrite !(Qcmult_comm (q * r)).
    now apply Qcmult_le_compat_r.
Qed.

Lemma Dec_sums_bounds {A} (f g : A -> Qc) (xs : list A) :
  (forall x, In x xs -> 0 <= f x /\ 0 <= g x /\ g x <= topShare * f x) ->
  forall a b,
    0 <= a -> 0 <= b -> b <= topShare * a ->
    let S := fold_left (fun sum x => (sum + f x)%num) xs a in
    let G := fold_left (fun sum x => (sum + g x)%num) xs b in
    0 <= S /\ 0 <= G /\ G <= topShare * S.
Proof.
  induction xs as [| x xs IH]; intros Hall a b Ha Hb Hab; cbn.
  - auto.
  - destruct (Hall x (or_introl eq_refl)) as [Hf [Hg Hgf]].
    apply IH.
    + intros y Hy. apply Hall. now right.
    + now apply Qc_plus_nonneg.
    + now apply Qc_plus_nonneg.
    + rewrite Qcmult_plus_distr_r. now apply Qcplus_le_compat.
Qed.
End DecOrder.

(** ** Totals of an accepted invoice, in binary64 *)

Section F64Signs.

Lemma binary_round_aux_sign (s : bool) (m e : Z) (l : location) :
  match binary_round_aux prec emax s m e l with
  | S754_zero s' | S754_infinity s' | S754_finite s' _ _ => s' = s
  | S754_nan => True
  end.
Proof.
  unfold binary_round_aux.
  destruct (shr_fexp prec emax m e l) as [mrs e1].
  destruct (shr_fexp prec emax _ e1 loc_Exact) as [mrs' e2].
  destruct (shr_m mrs') as [| p | p]; [reflexivity | | exact I].
  now destruct (e2 <=? emax - prec)%Z.
Qed.

Lemma binary_round_aux_notNegative (m e : Z) (l : location) :
  notNegative (binary_round_aux prec emax false m e l).
Proof.
  pose proof (binary_round_aux_sign false m e l) as Hsign.
  now destruct (binary_round_aux prec emax false m e l).
Qed.

Lemma binary_round_notNegative (m : positive) (e : Z) :
  notNegative (binary_round prec emax false m e).
Proof.
  unfold binary_round. destruct (shl_align m e _) as [mz ez].
  apply binary_round_aux_notNegative.
Qed.

Lemma SFmul_notNegative (x y : spec_float) :
  notNegative x -> notNegative y -> notNegative (SFmul prec emax x y).
Proof.
  destruct x as [sx | sx | | sx mx ex], y as [sy | sy | | sy my ey];
    cbn [notNegative SFmul]; intros Hx Hy; subst; try exact I; try reflexivity.
  apply binary_round_aux_notNegative.
Qed.

Lemma SFadd_notNegative (x y : spec_float) :
  notNegative x -> notNegative y -> notNegative (SFadd prec emax x y).
Proof.
  destruct x as [sx | sx | | sx mx ex], y as [sy | sy | | sy my ey];
    cbn [notNegative SFadd]; intros Hx Hy; subst; try exact I;
    try reflexivity.
  - now destruct sx, sy.
  - cbn [cond_Zopp Z.add binary_normalize]. apply binary_round_notNegative.
Qed.

(** Division by a positive number. *)
Lemma SFdiv_notNegative (x : spec_float) (m : positive) (e : Z) :
  notNegative x ->
  notNegative (SFdiv prec emax x (S754_finite false m e)).
Proof.
  destruct x as [sx | sx | | sx mx ex];
    cbn [notNegative SFdiv]; intros Hx; subst; try exact I; try reflexivity.
  destruct (SFdiv_core_binary prec emax (Z.pos mx) ex (Z.pos m) e)
    as [[mz ez] lz].
  apply binary_round_aux_notNegative.
Qed.

(** A number the schema takes that is at least a number that is not
    negative. *)
Lemma F64_AtLeast_notNegative (lo x : float) :
  notNegative (Prim2SF lo) -> Prim2SF lo <> S754_nan ->
  AtLeast lo x -> notNegative (Prim2SF x).
Proof.
  intros Hlo Hnan [_ Hlt]. cbn [nltb F64.number] in Hlt.
  rewrite ltb_spec in Hlt. unfold SFltb in Hlt.
  destruct (Prim2SF x) as [sx | sx | | sx mx ex],
    (Prim2SF lo) as [sl | sl | | sl ml el];
    cbn [notNegative SFcompare] in *; subst;
    try exact I; try reflexivity; try (now contradiction Hnan);
    destruct sx; try reflexivity; discriminate Hlt.
Qed.

Lemma F64_notNegative_ltb (x : float) :
  notNegative (Prim2SF x) -> PrimFloat.ltb x (nlit 0) = false.
Proof.
  intro Hx. rewrite ltb_spec. unfold SFltb.
  change (Prim2SF (nlit 0)) with (S754_zero false).
  destruct (Prim2SF x) as [sx | sx | | sx mx ex];
    cbn [notNegative SFcompare] in *; subst; reflexivity.
Qed.

Lemma F64_line_notNegative (supply : SupplyType)
    (it : CreateEditInvoice.ItemValues float) :
  ItemAccepted it ->
  let l := CreateEditInvoice.lineItem supply it in
  notNegative (Prim2SF (CreateEditInvoice.item_total_amount l)) /\
  notNegative (Prim2SF (CreateEditInvoice.item_gst_total l)).
Proof.
  intros [_ [Hq [Hr [Hg _]]]] l. subst l.
  assert (Hzero : notNegative (Prim2SF (nlit 0)) /\
                  Prim2SF (nlit 0) <> S754_nan)
    by (split; [exact I | discriminate]).
  assert (Hcent : notNegative (Prim2SF CreateEditInvoice.oneHundredth) /\
                  Prim2SF CreateEditInvoice.oneHundredth <> S754_nan)
    by (split; [reflexivity | discriminate]).
  apply (F64_AtLeast_notNegative (proj1 Hcent) (proj2 Hcent)) in Hq.
  apply (F64_AtLeast_notNegative (proj1 Hzero) (proj2 Hzero)) in Hr, Hg.
  cbn [CreateEditInvoice.lineItem CreateEditInvoice.item_total_amount
       CreateEditInvoice.item_gst_total nmul ndiv F64.number].
  assert (Htotal :
    notNegative
      (Prim2SF (CreateEditInvoice.fi_quantity it * CreateEditInvoice.fi_rate it)%float)).
  { rewrite mul_spec. now apply SFmul_notNegative. }
  split; [exact Htotal |].
  rewrite div_spec, mul_spec.
  change (Prim2SF (nlit 100))
    with (S754_finite false 7036874417766400 (-46)).
  apply SFdiv_notNegative. now apply SFmul_notNegative.
Qed.

Lemma F64_sum_notNegative {A} (f : A -> float) (xs : list A) :
  (forall x, In x xs -> notNegative (Prim2SF (f x))) ->
  forall acc : float,
    notNegative (Prim2SF acc) ->
    notNegative
      (Prim2SF (fold_left (fun sum x => (sum + f x)%num) xs acc)).
Proof.
  induction xs as [| x xs IH]; intros Hall acc Hacc; [exact Hacc |].
  cbn [fold_left]. apply IH.
  - intros y Hy. apply Hall. now right.
  - cbn [nadd F64.number]. rewrite add_spec.
    apply SFadd_notNegative; [exact Hacc |]. apply Hall. now left.
Qed.
End F64Signs.

(** X6.  The totals of a form the schema accepts.  In binary64, the
    arithmetic of the program: neither the subtotal, nor the GST
    total, nor the grand total is below zero (each is a number that
    is 0 or more, or NaN when an infinite quantity meets a rate of
    0).  In exact arithmetic moreover the GST total is at most 28% of
    the subtotal and the grand total at least the subtotal. *)
Theorem accepted_invoice_totals_bounds :
  (forall data : CreateEditInvoice.FormValues float,
      CreateEditInvoice.schema data = [] ->
      let its := CreateEditInvoice.lineItems data in
      PrimFloat.ltb (CreateEditInvoice.subTotal its) (nlit 0) = false /\
      PrimFloat.ltb (CreateEditInvoice.totalGst its) (nlit 0) = false /\
      PrimFloat.ltb (CreateEditInvoice.totalAmount its) (nlit 0) = false) /\
  (forall data : CreateEditInvoice.FormValues Qc,
      CreateEditInvoice.schema data = [] ->
      let its := CreateEditInvoice.lineItems data in
      (0 <= CreateEditInvoice.subTotal its)%Qc /\
      (0 <= CreateEditInvoice.totalGst its)%Qc /\
      (CreateEditInvoice.totalGst its
       <= topShare * CreateEditInvoice.subTotal its)%Qc /\
      (CreateEditInvoice.subTotal its <= CreateEditInvoice.totalAmount its)%Qc).
Proof.
  split.
  - intros data Haccepted its. apply schema_nil in Haccepted.
    destruct Haccepted as [_ [_ [_ [_ [_ [_ Hlines]]]]]].
    rewrite Forall_forall in Hlines.
    assert (Hsub : notNegative (Prim2SF (CreateEditInvoice.subTotal its))).
    { unfold CreateEditInvoice.subTotal, reduceSum.
      apply F64_sum_notNegative; [| exact I].
      intros l Hl. unfold its, CreateEditInvoice.lineItems in Hl.
      apply in_map_iff in Hl. destruct Hl as [it [<- Hit]].
      apply F64_line_notNegative. now apply Hlines. }
    assert (Hgst : notNegative (Prim2SF (CreateEditInvoice.totalGst its))).
    { unfold CreateEditInvoice.totalGst, reduceSum.
      apply F64_sum_notNegative; [| exact I].
      intros l Hl. unfold its, CreateEditInvoice.lineItems in Hl.
      apply in_map_iff in Hl. destruct Hl as [it [<- Hit]].
      apply F64_line_notNegative. now apply Hlines. }
    repeat split; apply F64_notNegative_ltb; try assumption.
    unfold CreateEditInvoice.totalAmount. cbn [nadd F64.number].
    rewrite add_spec. now apply SFadd_notNegative.
  - intros data Haccepted its. apply schema_nil in Haccepted.
    destruct Haccepted as [_ [_ [_ [_ [_ [_ Hlines]]]]]].
    assert (H0 : nlit 0 = 0%Qc :> Qc) by dec_eq.
    assert (Hsums :
      (0 <= CreateEditInvoice.subTotal its)%Qc /\
      (0 <= CreateEditInvoice.totalGst its)%Qc /\
      (CreateEditInvoice.totalGst its
       <= topShare * CreateEditInvoice.subTotal its)%Qc).
    { unfold CreateEditInvoice.subTotal, CreateEditInvoice.totalGst, reduceSum.
      rewrite H0. apply Dec_sums_bounds.
      - intros l Hl. unfold its, CreateEditInvoice.lineItems in Hl.
        apply in_map_iff in Hl. destruct Hl as [it [<- Hit]].
        apply Dec_line_bounds. rewrite Forall_forall in Hlines.
        now apply Hlines.
      - apply Qcle_refl.
      - apply Qcle_refl.
      - rewrite Qcmult_0_r. apply Qcle_refl. }
    destruct Hsums as [Hs [Hg Hgs]]. repeat split; try assumption.
    unfold CreateEditInvoice.totalAmount. cbn [nadd Dec.number].
    rewrite <- (Qcplus_0_r (CreateEditInvoice.subTotal its)) at 1.
    apply Qcplus_le_compat; [apply Qcle_refl | exact Hg].
Qed.

(** One line of quantity 2 at 100 with GST 18%, in binary64. *)
Lemma accepted_invoice_totals_bounds_witness :
  let its :=
    CreateEditInvoice.lineItems
      (Scenario.invoice (num:=float) IntraState [Scenario.item]) in
  PrimFloat.ltb (CreateEditInvoice.subTotal its) (nlit 0) = false /\
  PrimFloat.ltb (CreateEditInvoice.totalGst its) (nlit 0) = false /\
  PrimFloat.ltb (CreateEditInvoice.totalAmount its) (nlit 0) = false.
Proof.
  exact (proj1 accepted_invoice_totals_bounds
           (Scenario.invoice IntraState [Scenario.item]) eq_refl).
Defined.

(** The bound of 28% is one of exact arithmetic: in binary64 a line
    of 1 at 4.77 with GST 28%, which the schema accepts, has the GST
    total 1.3356000000000001, above 0.28 * 4.77 = 1.3356. *)
Example gst_share_bound_is_exact_only :
  let data :=
    Scenario.invoice IntraState
      [{| CreateEditInvoice.fi_product_service_id := None;
          CreateEditInvoice.fi_item_description := "Service"%string;
          CreateEditInvoice.fi_quantity := 1%float;
          CreateEditInvoice.fi_rate := 4.77%float;
          CreateEditInvoice.fi_gst_rate_percentage := 28%float |}] in
  let its := CreateEditInvoice.lineItems data in
  CreateEditInvoice.schema data = [] /\
  CreateEditInvoice.totalGst its = 1.3356000000000001%float /\
  ((nlit 28 / nlit 100) * CreateEditInvoice.subTotal its)%num = 1.3356%float /\
  PrimFloat.leb (CreateEditInvoice.totalGst its)
    ((nlit 28 / nlit 100) * CreateEditInvoice.subTotal its)%num = false.
Proof. vm_compute. repeat split. Qed.

(** ** The shape of a GSTIN *)

Lemma matchClasses_sound (classes : list (ascii -> bool)) :
  forall s,
    matchClasses classes s = true ->
    String.length s = List.length classes /\
    forall k p c,
      nth_error classes k = Some p -> String.get k s = Some c -> p c = true.
Proof.
  induction classes as [| q classes IH]; intros [| c0 s] Hmatch;
    cbn in Hmatch; try discriminate.
  - split; [reflexivity |]. intros [| k] p c Hp; discriminate Hp.
  - apply andb_true_iff in Hmatch. destruct Hmatch as [Hq Hrest].
    destruct (IH s Hrest) as [Hlen Hall]. split; [cbn; now rewrite Hlen |].
    intros [| k] p c Hp Hc; cbn in Hp, Hc.
    + injection Hp as <-. injection Hc as <-. exact Hq.
    + exact (Hall k p c Hp Hc).
Qed.

Lemma get_none_iff (s : string) :
  forall k, String.get k s = None <-> (String.length s <= k)%nat.
Proof.
  induction s as [| a s IHs]; intros [| k]; cbn.
  - split; [intros _; apply Nat.le_refl | reflexivity].
  - split; [intros _; apply Nat.le_0_l | reflexivity].
  - split; [discriminate | intro Hle; now apply Nat.nle_succ_0 in Hle].
  - rewrite IHs. split; [apply le_n_S | apply le_S_n].
Qed.

(** Every character class of the GSTIN pattern is within the digits and
    the capital letters. *)
Lemma gstin_classes_plain (p : ascii -> bool) :
  In p
    (repeat isDigit 2 ++ repeat isUpper 5 ++ repeat isDigit 4 ++
     [isUpper; (fun c => isOneToNine c || isUpper c);
      (fun c => Ascii.eqb c "Z"%char);
      (fun c => isDigit c || isUpper c)]) ->
  forall c, p c = true -> (isDigit c || isUpper c)%bool = true.
Proof.
  assert (Hnine : forall c, isOneToNine c = true -> isDigit c = true).
  { intros c Hc. unfold isOneToNine in Hc. unfold isDigit.
    apply andb_true_iff in Hc. destruct Hc as [Hlo Hhi].
    apply andb_true_iff. split; [| exact Hhi].
    apply Nat.leb_le. apply Nat.leb_le in Hlo.
    apply Nat.le_trans with (2 := Hlo). apply Nat.le_succ_diag_r. }
  cbn [repeat app]. intros Hin c Hc.
  repeat (destruct Hin as [<- | Hin];
          [ first [ now rewrite Hc
                  | rewrite Hc; apply orb_true_r
                  | exact Hc
                  | apply Ascii.eqb_eq in Hc; subst c; reflexivity
                  | apply orb_true_iff in Hc; destruct Hc as [Hc | Hc];
                    [apply Hnine in Hc; now rewrite Hc
                    | rewrite Hc; apply orb_true_r] ]
          |]).
  destruct Hin.
Qed.

(** X7.  A GSTIN the forms accept as well formed has exactly 15
    characters, each a digit or a capital letter, the first two digits
    and the fourteenth the letter Z. *)
Theorem gstin_shape (s : string) (Hformed : gstinRegex s = true) :
  String.length s = 15%nat /\
  (forall k c, String.get k s = Some c -> (isDigit c || isUpper c)%bool = true) /\
  (forall c, String.get 0 s = Some c \/ String.get 1 s = Some c ->
             isDigit c = true) /\
  String.get 13 s = Some "Z"%char.
Proof.
  unfold gstinRegex in Hformed.
  apply matchClasses_sound in Hformed. destruct Hformed as [Hlen Hall].
  cbn [repeat app List.length] in Hlen, Hall.
  split; [exact Hlen | split; [| split]].
  - intros k c Hc.
    assert (Hk : (k < 15)%nat).
    { rewrite <- Hlen. destruct (Nat.lt_ge_cases k (String.length s)) as [Hlt | Hge];
        [exact Hlt |].
      apply get_none_iff in Hge. rewrite Hge in Hc. discriminate Hc. }
    match type of Hall with
    | forall k p c, nth_error ?cls k = Some p -> _ => set (classes := cls) in *
    end.
    destruct (nth_error classes k) as [p |] eqn:Hp.
    + apply (@gstin_classes_plain p (nth_error_In _ _ Hp)).
      exact (Hall k p c Hp Hc).
    + apply nth_error_None in Hp. exfalso.
      exact (Nat.lt_irrefl _ (Nat.lt_le_trans _ _ _ Hk Hp)).
  - intros c [Hc | Hc].
    + exact (Hall 0%nat _ c eq_refl Hc).
    + exact (Hall 1%nat _ c eq_refl Hc).
  - destruct (String.get 13 s) as [c |] eqn:Hc.
    + pose proof (Hall 13%nat _ c eq_refl Hc) as Hz. cbn beta in Hz.
      apply Ascii.eqb_eq in Hz. now subst c.
    + exfalso. apply get_none_iff in Hc. rewrite Hlen in Hc.
      do 13 apply le_S_n in Hc. now apply Nat.nle_succ_0 in Hc.
Qed.

(** A sample GSTIN. *)
Lemma gstin_shape_witness :
  String.length "27AAPFU0939F1ZV" = 15%nat /\
  String.get 13 "27AAPFU0939F1ZV" = Some "Z"%char.
Proof.
  pose proof (@gstin_shape "27AAPFU0939F1ZV"%string eq_refl) as Hshape.
  exact (conj (proj1 Hshape) (proj2 (proj2 (proj2 Hshape)))).
Defined.

(** ** What saving an invoice leaves alone *)

Lemma filter_others_updateWhere {A} (p : A -> bool) (patch : A -> A)
    (rows : list A) :
  (forall r, p (patch r) = p r) ->
  filter (fun r => negb (p r)) (updateWhere p patch rows)
  = filter (fun r => negb (p r)) rows.
Proof.
  intro Hp. unfold updateWhere. induction rows as [| r rows IH]; [reflexivity |].
  cbn. destruct (p r) eqn:Hr.
  - rewrite Hp, Hr. exact IH.
  - rewrite Hr. cbn. now rewrite IH.
Qed.

Lemma filter_others_deleteWhere {A} (p : A -> bool) (rows : list A) :
  filter (fun r => negb (p r)) (deleteWhere p rows)
  = filter (fun r => negb (p r)) rows.
Proof.
  unfold deleteWhere. induction rows as [| r rows IH]; [reflexivity |].
  cbn. destruct (p r) eqn:Hr; cbn; [exact IH |]. rewrite Hr. cbn. now rewrite IH.
Qed.

Lemma filter_others_app {A} (p : A -> bool) (rows new : list A) :
  (forall r, In r new -> p r = true) ->
  filter (fun r => negb (p r)) (rows ++ new)
  = filter (fun r => negb (p r)) rows.
Proof.
  intro Hnew. rewrite filter_app.
  rewrite (filter_none (fun r => negb (p r)) new); [apply app_nil_r |].
  intros r Hr. now rewrite (Hnew r Hr).
Qed.

Section SaveFrame.
Context {num : Type} `{Number num}.
Import CreateEditInvoice.

Lemma OthersUntouched_refl (company saved : uuid) (db : Database num) :
  OthersUntouched company saved db db.
Proof. repeat split. Qed.

Lemma isInvoice_updatePatch (id company : uuid) (data : FormValues num)
    (its : list (LineItem num)) (r : invoices.row num) :
  isInvoice id company (updatePatch data its r) = isInvoice id company r.
Proof. reflexivity. Qed.
End SaveFrame.

(** X9.  Whatever the server does, saving an invoice changes neither
    the company profiles, nor the accounts, nor the expenses, nor any
    invoice other than the one saved, nor the lines of any other
    invoice; without a company profile it changes nothing at all. *)
Theorem invoice_save_leaves_others :
  forall (num : Type) (N : Number num) (id : option uuid) (srv : Server)
         (db : Database num) (data : CreateEditInvoice.FormValues num),
    CreateEditInvoice.onSubmit None id srv db data = (db, NoCompanyProfile) /\
    forall profile : company_profiles.row,
      OthersUntouched (company_profiles.id profile) (savedId id srv) db
        (fst (CreateEditInvoice.onSubmit (Some profile) id srv db data)).
Proof.
  intros num N id srv db data. split; [reflexivity |]. intro profile.
  unfold CreateEditInvoice.onSubmit.
  set (company := company_profiles.id profile).
  set (its := CreateEditInvoice.lineItems data).
  destruct id as [i |]; unfold request; cbn [savedId].
  - destruct (accepts srv 0); [| apply OthersUntouched_refl].
    assert (Hinv :
      filter (fun r => negb (CreateEditInvoice.isInvoice i company r))
        (updateWhere (CreateEditInvoice.isInvoice i company)
           (fun r => invoices.stored (CreateEditInvoice.updatePatch data its r))
           (tbl_invoices db))
      = filter (fun r => negb (CreateEditInvoice.isInvoice i company r))
          (tbl_invoices db))
      by (apply filter_others_updateWhere; reflexivity).
    destruct (accepts srv 1); [| now repeat split].
    cbn [tbl_invoice_items with_invoices with_invoice_items].
    pose proof (filter_others_deleteWhere
                  (fun r : invoice_items.row num =>
                     String.eqb (invoice_items.invoice_id r) i)
                  (tbl_invoice_items db)) as Hdel.
    destruct (accepts srv 2); [| now repeat split].
    destruct (insertRows _ _ _) as [rows |] eqn:Hins; [| now repeat split].
    apply insertRows_app in Hins. subst rows.
    repeat split; try assumption. cbn [fst tbl_invoice_items with_invoice_items].
    rewrite (filter_others_app
               (fun r : invoice_items.row num =>
                  String.eqb (invoice_items.invoice_id r) i)).
    + exact Hdel.
    + apply storedItemRows_invoice.
  - destruct (accepts srv 0); [| apply OthersUntouched_refl].
    destruct (insertRows (@invoices.id num) _ _) as [rows |] eqn:Hins;
      [| apply OthersUntouched_refl].
    apply insertRows_app in Hins. subst rows.
    assert (Hinv :
      filter (fun r => negb (CreateEditInvoice.isInvoice (fresh srv 0) company r))
        (tbl_invoices db
         ++ [invoices.stored
               (CreateEditInvoice.insertedInvoice company (fresh srv 0) data
                  its)])
      = filter
          (fun r => negb (CreateEditInvoice.isInvoice (fresh srv 0) company r))
          (tbl_invoices db)).
    { apply (filter_others_app (CreateEditInvoice.isInvoice (fresh srv 0) company)).
      intros r [<- | []]. unfold CreateEditInvoice.isInvoice. cbn.
      now rewrite !String.eqb_refl. }
    destruct (accepts srv 1); [| now repeat split].
    cbn [tbl_invoice_items with_invoices with_invoice_items].
    destruct (insertRows (@invoice_items.id num) _ _) as [rows |] eqn:Hins';
      [| now repeat split].
    apply insertRows_app in Hins'. subst rows.
    repeat split; try assumption. cbn [fst tbl_invoice_items with_invoice_items].
    apply (filter_others_app
             (fun r : invoice_items.row num =>
                String.eqb (invoice_items.invoice_id r) (fresh srv 0))).
    apply storedItemRows_invoice.
Qed.

(** X8.  An edit is not undone when a later request fails.  Once the
    update of the invoice has got through, a failure of the deletion or
    of the insertion of the lines ends in the error toast with the
    invoice row already rewritten (with the new amounts, as the
    columns keep them): if the deletion fails the old lines are all
    still stored, and if only the insertion fails the invoice is left
    without any line. *)
Theorem failed_edit_is_not_undone
    (num : Type) (N : Number num) (profile : company_profiles.row)
    (i : uuid) (srv : Server) (db : Database num)
    (data : CreateEditInvoice.FormValues num)
    (Hupdate : accepts srv 0 = true)
    (Hfails : accepts srv 1 = false \/ accepts srv 2 = false) :
  let result :=
    CreateEditInvoice.onSubmit (Some profile) (Some i) srv db data in
  snd result = ToastError "Failed to save invoice" /\
  tbl_invoices (fst result)
  = updateWhere (CreateEditInvoice.isInvoice i (company_profiles.id profile))
      (fun r =>
         invoices.stored
           (CreateEditInvoice.updatePatch data
              (CreateEditInvoice.lineItems data) r))
      (tbl_invoices db) /\
  (accepts srv 1 = false ->
   tbl_invoice_items (fst result) = tbl_invoice_items db) /\
  (accepts srv 1 = true ->
   filter (fun it => String.eqb (invoice_items.invoice_id it) i)
     (tbl_invoice_items (fst result)) = []).
Proof.
  intro result. subst result. unfold CreateEditInvoice.onSubmit, request.
  rewrite Hupdate.
  destruct (accepts srv 1) eqn:Hdelete.
  - destruct Hfails as [Hfails | Hfails]; [discriminate Hfails |].
    cbn [tbl_invoice_items with_invoices with_invoice_items].
    rewrite Hfails. cbn. repeat split; try discriminate.
    intros _.
    apply (filter_deleteWhere_nil
             (fun r : invoice_items.row num =>
                String.eqb (invoice_items.invoice_id r) i)).
  - cbn. repeat split. discriminate.
Qed.

(** The edit of the Sent invoice of [Scenario.db] when the insertion of
    the new lines fails. *)
Lemma failed_edit_is_not_undone_witness :
  let result :=
    CreateEditInvoice.onSubmit (num:=float) (Some Scenario.profile)
      (Some "inv-1"%string) (serverFailingAt 2) Scenario.db
      (Scenario.invoice IntraState [Scenario.item]) in
  snd result = ToastError "Failed to save invoice" /\
  map (@invoices.sub_total_amount float) (tbl_invoices (fst result))
  = [200%float; 9999%float] /\
  filter (fun it => String.eqb (invoice_items.invoice_id it) "inv-1")
    (tbl_invoice_items (fst result)) = [].
Proof.
  pose proof (@failed_edit_is_not_undone float _ Scenario.profile
                "inv-1"%string (serverFailingAt 2) Scenario.db
                (Scenario.invoice IntraState [Scenario.item])
                eq_refl (or_intror eq_refl)) as [Htoast [_ [_ Hgone]]].
  split; [exact Htoast | split; [reflexivity | exact (Hgone eq_refl)]].
Defined.

(** ** The stored lines and the stored header *)

(** X10.  After an edit that succeeds, the lines stored for the invoice
    are as many as the lines of the form and all follow the supply type
    written in the invoice row: for an Intra-State invoice every line
    has IGST 0 and equal CGST and SGST; for an Inter-State invoice
    every line has CGST 0 and SGST 0 and its whole GST as IGST. *)
Theorem saved_lines_follow_supply_type
    (num : Type) (N : Number num) (profile : company_profiles.row)
    (i : uuid) (srv : Server) (db : Database num)
    (data : CreateEditInvoice.FormValues num) (message : string)
    (Hsaved :
       snd (CreateEditInvoice.onSubmit (Some profile) (Some i) srv db data)
       = ToastSuccess message) :
  let db' :=
    fst (CreateEditInvoice.onSubmit (Some profile) (Some i) srv db data) in
  let stored :=
    filter (fun it => String.eqb (invoice_items.invoice_id it) i)
      (tbl_invoice_items db') in
  List.length stored = List.length (CreateEditInvoice.items data) /\
  (forall r,
      In r (tbl_invoices db') ->
      CreateEditInvoice.isInvoice i (company_profiles.id profile) r = true ->
      invoices.place_of_supply_type r
      = CreateEditInvoice.place_of_supply_type data) /\
  (forall it,
      In it stored ->
      match CreateEditInvoice.place_of_supply_type data with
      | IntraState =>
          invoice_items.igst_amount it = nlit 0 /\
          invoice_items.cgst_amount it = invoice_items.sgst_amount it
      | InterState =>
          invoice_items.cgst_amount it = nlit 0 /\
          invoice_items.sgst_amount it = nlit 0 /\
          invoice_items.igst_amount it = invoice_items.item_gst_total it
      | NotApplicable =>
          invoice_items.cgst_amount it = nlit 0 /\
          invoice_items.sgst_amount it = nlit 0 /\
          invoice_items.igst_amount it = nlit 0
      end).
Proof.
  intros db' stored.
  assert (Hstored :
    stored
    = map invoice_items.stored
        (CreateEditInvoice.itemRows srv i (CreateEditInvoice.lineItems data))
    /\ tbl_invoices db'
       = updateWhere (CreateEditInvoice.isInvoice i (company_profiles.id profile))
           (fun r =>
              invoices.stored
                (CreateEditInvoice.updatePatch data
                   (CreateEditInvoice.lineItems data) r))
           (tbl_invoices db)).
  { subst stored db'. unfold CreateEditInvoice.onSubmit, request in *.
    destruct (accepts srv 0); [| discriminate Hsaved].
    destruct (accepts srv 1); [| discriminate Hsaved].
    cbn [tbl_invoice_items with_invoices with_invoice_items] in *.
    destruct (accepts srv 2); [| discriminate Hsaved].
    destruct (insertRows _ _ _) as [rows |] eqn:Hins; [| discriminate Hsaved].
    apply insertRows_app in Hins. subst rows. cbn. split; [| reflexivity].
    rewrite filter_app.
    rewrite (filter_deleteWhere_nil
               (fun r : invoice_items.row num =>
                  String.eqb (invoice_items.invoice_id r) i)).
    cbn. apply filter_all. apply storedItemRows_invoice. }
  destruct Hstored as [Hlines Hrows]. split; [| split].
  - rewrite Hlines. unfold CreateEditInvoice.itemRows, CreateEditInvoice.lineItems.
    rewrite !length_map, length_combine, length_seq, length_map.
    apply Nat.min_id.
  - intros r Hr Hmine. rewrite Hrows in Hr. unfold updateWhere in Hr.
    apply in_map_iff in Hr. destruct Hr as [r0 [Hr0 _]].
    destruct (CreateEditInvoice.isInvoice i (company_profiles.id profile) r0)
      eqn:Hp; subst r; [reflexivity | congruence].
  - intros it Hit. rewrite Hlines in Hit. apply in_map_iff in Hit.
    destruct Hit as [row [<- Hrow]].
    unfold CreateEditInvoice.itemRows in Hrow. apply in_map_iff in Hrow.
    destruct Hrow as [[k l] [<- Hl]]. apply in_combine_r in Hl.
    unfold CreateEditInvoice.lineItems in Hl. apply in_map_iff in Hl.
    destruct Hl as [item [<- _]].
    destruct (CreateEditInvoice.place_of_supply_type data);
      cbn -[ncolumn nlit]; repeat split; apply ncolumn_zero.
Qed.

(** The edit of the Sent invoice of [Scenario.db], saved Intra-State. *)
Lemma saved_lines_follow_supply_type_witness :
  let db' :=
    fst (CreateEditInvoice.onSubmit (num:=float) (Some Scenario.profile)
           (Some "inv-1"%string) Scenario.server Scenario.db
           (Scenario.invoice IntraState [Scenario.item])) in
  List.length
    (filter (fun it => String.eqb (invoice_items.invoice_id it) "inv-1")
       (tbl_invoice_items db')) = 1%nat.
Proof.
  exact (proj1
    (@saved_lines_follow_supply_type float _ Scenario.profile "inv-1"%string
       Scenario.server Scenario.db
       (Scenario.invoice IntraState [Scenario.item])
       "Invoice updated successfully"%string eq_refl)).
Defined.

(** ** A new invoice and the reports *)

Lemma fold_left_ext_in {A B} (f g : A -> B -> A) (xs : list B) :
  (forall a x, In x xs -> f a x = g a x) ->
  forall a, fold_left f xs a = fold_left g xs a.
Proof.
  induction xs as [| x xs IH]; intros Hfg a; [reflexivity |].
  cbn. rewrite (Hfg a x (or_introl eq_refl)).
  apply IH. intros b y Hy. apply Hfg. now right.
Qed.

(** X11.  Creating an invoice, whatever the server does, changes no
    figure of the reports: the invoices counted as sales by the Profit
    & Loss report and the sales side of the GST summary are, for every
    company and period, what they were, since the invoice is stored as
    a Draft. *)
Theorem new_invoice_is_not_a_sale :
  forall (num : Type) (N : Number num)
         (companyProfile : option company_profiles.row) (srv : Server)
         (db : Database num) (data : CreateEditInvoice.FormValues num)
         (company : uuid) (startDate endDate : date),
    let db' :=
      fst (CreateEditInvoice.onSubmit companyProfile None srv db data) in
    ProfitLossReport.salesData company startDate endDate db'
    = ProfitLossReport.salesData company startDate endDate db /\
    GSTReport.salesSummary company startDate endDate db'
    = GSTReport.salesSummary company startDate endDate db.
Proof.
  intros num N companyProfile srv db data company startDate endDate db'.
  subst db'. unfold CreateEditInvoice.onSubmit.
  destruct companyProfile as [profile |]; [| now split].
  unfold request. destruct (accepts srv 0); [| now split].
  destruct (insertRows (@invoices.id num) _ _) as [rows |] eqn:Hins;
    [| now split].
  pose proof (@insertRows_fresh _ _ _ _ _ _ Hins) as Hfresh.
  apply insertRows_app in Hins. subst rows.
  set (new := invoices.stored (CreateEditInvoice.insertedInvoice _ _ _ _)) in *.
  assert (Hsales : forall d : Database num,
    tbl_invoices d = tbl_invoices db ++ [new] ->
    ProfitLossReport.salesData company startDate endDate d
    = ProfitLossReport.salesData company startDate endDate db).
  { intros d Hd. unfold ProfitLossReport.salesData. rewrite Hd.
    rewrite filter_app. cbn. rewrite andb_false_r. cbn. apply app_nil_r. }
  assert (Hperiod : forall d : Database num,
    tbl_invoices d = tbl_invoices db ++ [new] ->
    GSTReport.invoicesInPeriod company startDate endDate d
    = GSTReport.invoicesInPeriod company startDate endDate db).
  { intros d Hd. unfold GSTReport.invoicesInPeriod. rewrite Hd.
    rewrite filter_app. cbn. rewrite andb_false_r. cbn. apply app_nil_r. }
  assert (Hsame : forall d : Database num,
    tbl_invoices d = tbl_invoices db ++ [new] ->
    tbl_invoice_items d = tbl_invoice_items db ->
    GSTReport.salesSummary company startDate endDate d
    = GSTReport.salesSummary company startDate endDate db).
  { intros d Hd Hitems. unfold GSTReport.salesSummary. rewrite (Hperiod d Hd).
    apply fold_left_ext_in. intros acc inv _.
    unfold GSTReport.addInvoice, GSTReport.itemsOf. now rewrite Hitems. }
  destruct (accepts srv 1).
  - cbn [tbl_invoice_items with_invoices with_invoice_items].
    destruct (insertRows (@invoice_items.id num) _ _) as [rows |] eqn:Hins'.
    + apply insertRows_app in Hins'. subst rows. cbn [fst].
      split; [now apply Hsales |].
      unfold GSTReport.salesSummary. rewrite Hperiod by reflexivity.
      apply fold_left_ext_in. intros acc inv Hinv.
      unfold GSTReport.addInvoice. f_equal.
      unfold GSTReport.itemsOf. cbn. rewrite filter_app.
      rewrite (filter_none _ (map _ (CreateEditInvoice.itemRows _ _ _)));
        [apply app_nil_r |].
      intros it Hit. apply storedItemRows_invoice in Hit.
      apply String.eqb_eq in Hit.
      rewrite Hit. unfold GSTReport.invoicesInPeriod in Hinv.
      apply filter_In in Hinv. destruct Hinv as [Hinv _].
      rewrite String.eqb_sym. exact (Hfresh inv Hinv).
    + cbn [fst]. split; [now apply Hsales | now apply Hsame].
  - cbn [fst]. split; [now apply Hsales | now apply Hsame].
Qed.

(** ** The status of an invoice on the list page *)

Lemma Forall2_updateWhere {A} (R : A -> A -> Prop) (p : A -> bool)
    (patch : A -> A) (rows : list A) :
  (forall r, In r rows -> R r (if p r then patch r else r)) ->
  Forall2 R rows (updateWhere p patch rows).
Proof.
  unfold updateWhere. induction rows as [| r rows IH]; intro Hall; constructor.
  - apply Hall. now left.
  - apply IH. intros x Hx. apply Hall. now right.
Qed.

Lemma advances_refl (s : InvoiceStatus) : advances s s.
Proof. now left. Qed.

Lemma advances_trans (a b c : InvoiceStatus) :
  advances a b -> advances b c -> advances a c.
Proof.
  unfold advances. intros Hab Hbc.
  destruct a, b, c; intuition (try discriminate; auto).
Qed.

Section StatusFacts.
Context {num : Type}.

Lemma statusPatch_same (r : invoices.row num) :
  Invoices.statusPatch (invoices.status r) r = r.
Proof. now destruct r. Qed.

Lemma StatusOnlyAdvances_refl (db : Database num) : StatusOnlyAdvances db db.
Proof.
  unfold StatusOnlyAdvances. repeat split.
  induction (tbl_invoices db) as [| r rows IH]; constructor; [| exact IH].
  split; [symmetry; apply statusPatch_same | apply advances_refl].
Qed.

Lemma StatusOnlyAdvances_trans (a b c : Database num) :
  StatusOnlyAdvances a b -> StatusOnlyAdvances b c -> StatusOnlyAdvances a c.
Proof.
  unfold StatusOnlyAdvances.
  intros [Hab [Hp1 [Ha1 [Hi1 He1]]]] [Hbc [Hp2 [Ha2 [Hi2 He2]]]].
  repeat split; try congruence.
  revert Hbc. generalize (tbl_invoices c).
  induction Hab as [| r r' rows rows' [Hr Hadv] _ IH]; intros rows'' Hbc;
    inversion Hbc as [| ? r'' ? rows3 [Hr' Hadv'] Hrest]; subst; constructor.
  - split.
    + rewrite Hr' at 1. rewrite Hr. reflexivity.
    + exact (advances_trans Hadv Hadv').
  - now apply IH.
Qed.

Lemma NoDup_fetched (company : uuid) (leb : invoices.row num -> invoices.row num -> bool)
    (rows : list (invoices.row num)) :
  NoDup (map (@invoices.id num) rows) ->
  NoDup (map (@invoices.id num)
           (orderBy leb
              (filter (fun r => String.eqb (invoices.company_id r) company) rows))).
Proof.
  intro Hnd.
  apply (Permutation_NoDup
           (l := map (@invoices.id num)
                   (filter (fun r => String.eqb (invoices.company_id r) company)
                      rows))).
  - apply Permutation_map. symmetry. apply orderBy_perm.
  - now apply NoDup_key_filter.
Qed.

Lemma Tracks_fetch (company : uuid) (srv : Server) (k : nat)
    (db : Database num) (st : Invoices.State) :
  Tracks db st -> Tracks db (Invoices.fetchInvoices company srv k db st).
Proof.
  intros [Hdb [Hst Hnear]]. unfold Invoices.fetchInvoices.
  destruct (accepts srv k); [| now repeat split].
  split; [exact Hdb | split; [now apply NoDup_fetched |]].
  intros s r Hs Hr Hid.
  apply (Permutation_in _ (orderBy_perm _ _)) in Hs.
  apply filter_In in Hs. destruct Hs as [Hs _].
  rewrite (NoDup_key_unique (@invoices.id num) _ Hdb r s Hr Hs Hid). now left.
Qed.

(** Marking the listed invoice [invoice] with the status after its
    own. *)
Lemma updateInvoiceStatus_advances
    (companyProfile : option company_profiles.row) (srv : Server)
    (db : Database num) (st : Invoices.State) (invoice : invoices.row num)
    (status : InvoiceStatus) :
  Tracks db st ->
  In invoice st ->
  (invoices.status invoice = Draft /\ status = Sent) \/
  (invoices.status invoice = Sent /\ status = Paid) ->
  let '(db', st', _) :=
    Invoices.updateInvoiceStatus companyProfile srv db st
      (invoices.id invoice) status in
  Tracks db' st' /\ StatusOnlyAdvances db db'.
Proof.
  intros Htracks Hlisted Hnext. unfold Invoices.updateInvoiceStatus.
  destruct companyProfile as [profile |];
    [| split; [exact Htracks | apply StatusOnlyAdvances_refl]].
  unfold request. destruct (accepts srv 0);
    [| split; [exact Htracks | apply StatusOnlyAdvances_refl]].
  destruct Htracks as [Hdb [Hst Hnear]].
  set (p := Invoices.isInvoice (invoices.id invoice) (company_profiles.id profile)).
  assert (Hp : forall r, p r = true -> invoices.id r = invoices.id invoice).
  { intros r Hr. subst p. unfold Invoices.isInvoice in Hr.
    apply andb_true_iff in Hr. destruct Hr as [Hid _].
    now apply String.eqb_eq in Hid. }
  assert (Hfrom : forall r',
    In r' (updateWhere p (Invoices.statusPatch status) (tbl_invoices db)) ->
    exists r, In r (tbl_invoices db) /\ invoices.id r' = invoices.id r /\
              (invoices.status r' = invoices.status r \/
               (p r = true /\ invoices.status r' = status))).
  { intros r' Hr'. unfold updateWhere in Hr'. apply in_map_iff in Hr'.
    destruct Hr' as [r [<- Hr]]. exists r.
    destruct (p r); repeat split; auto. }
  split.
  - apply Tracks_fetch. unfold Tracks. cbn [tbl_invoices with_invoices].
    split; [| split; [exact Hst |]].
    + rewrite updateWhere_preserves by reflexivity. exact Hdb.
    + intros s r' Hs Hr' Hid.
      destruct (Hfrom r' Hr') as [r [Hr [Hidr [Hsame | [Hpr Hnew]]]]].
      * rewrite Hsame. apply (Hnear s r Hs Hr). congruence.
      * assert (Hs' : s = invoice).
        { apply (NoDup_key_unique (@invoices.id num) _ Hst s invoice Hs Hlisted).
          rewrite <- Hid, Hidr. now apply Hp. }
        subst s. rewrite Hnew. unfold near.
        destruct Hnext as [[-> ->] | [-> ->]]; auto.
  - unfold StatusOnlyAdvances.
    cbn [tbl_invoices tbl_company_profiles tbl_accounts tbl_invoice_items
         tbl_expenses with_invoices].
    split; [| now repeat split].
    assert (Hall : forall r, In r (tbl_invoices db) ->
      (if p r then Invoices.statusPatch status r else r)
      = Invoices.statusPatch
          (invoices.status (if p r then Invoices.statusPatch status r else r)) r
      /\ advances (invoices.status r)
           (invoices.status (if p r then Invoices.statusPatch status r else r))).
    { intros r Hr. destruct (p r) eqn:Hpr.
      - split; [reflexivity |]. cbn.
        pose proof (Hnear invoice r Hlisted Hr (Hp r Hpr)) as Hn.
        unfold near in Hn. unfold advances.
        destruct Hnext as [[Hd ->] | [Hs ->]]; rewrite ?Hd, ?Hs in Hn;
          destruct (invoices.status r); intuition (try discriminate; auto).
      - split; [symmetry; apply statusPatch_same | apply advances_refl]. }
    apply Forall2_updateWhere. exact Hall.
Qed.

Lemma Invoices_act_advances (companyProfile : option company_profiles.row)
    (srv : Server) (db : Database num) (st : Invoices.State)
    (a : Invoices.Action) :
  Tracks db st ->
  let '(db', st', _) := Invoices.act companyProfile srv db st a in
  Tracks db' st' /\ StatusOnlyAdvances db db'.
Proof.
  intro Htracks. destruct a as [| k | k]; cbn [Invoices.act].
  - destruct companyProfile as [profile |];
      (split; [| apply StatusOnlyAdvances_refl]);
      [now apply Tracks_fetch | exact Htracks].
  - destruct (nth_error st k) as [invoice |] eqn:Hk;
      [| split; [exact Htracks | apply StatusOnlyAdvances_refl]].
    destruct (InvoiceStatus_eqb (invoices.status invoice) Draft) eqn:Hdraft;
      [| split; [exact Htracks | apply StatusOnlyAdvances_refl]].
    apply InvoiceStatus_eqb_eq in Hdraft.
    apply updateInvoiceStatus_advances;
      [exact Htracks | exact (nth_error_In _ _ Hk) | now left].
  - destruct (nth_error st k) as [invoice |] eqn:Hk;
      [| split; [exact Htracks | apply StatusOnlyAdvances_refl]].
    destruct (InvoiceStatus_eqb (invoices.status invoice) Sent) eqn:Hsent;
      [| split; [exact Htracks | apply StatusOnlyAdvances_refl]].
    apply InvoiceStatus_eqb_eq in Hsent.
    apply updateInvoiceStatus_advances;
      [exact Htracks | exact (nth_error_In _ _ Hk) | now right].
Qed.

Lemma Invoices_session_advances (companyProfile : option company_profiles.row)
    (script : list (Server * Invoices.Action)) :
  forall (db : Database num) (st : Invoices.State),
    Tracks db st ->
    StatusOnlyAdvances db (fst (Invoices.session companyProfile db st script)).
Proof.
  induction script as [| [srv a] script IH]; intros db st Htracks.
  - apply StatusOnlyAdvances_refl.
  - cbn [Invoices.session].
    pose proof (Invoices_act_advances companyProfile srv a Htracks) as Hstep.
    destruct (Invoices.act companyProfile srv db st a) as [[db1 st1] out].
    destruct Hstep as [Htracks1 Hadv].
    exact (StatusOnlyAdvances_trans Hadv (IH db1 st1 Htracks1)).
Qed.
End StatusFacts.

(** X12.  On the list of invoices, whatever buttons the user presses
    and whatever the server answers, every stored invoice keeps its
    place and all its fields but the status, and its status only moves
    on, from Draft to Sent and from Sent to Paid: a Paid or Overdue
    invoice keeps its status, and none returns to Draft.  No other
    table changes. *)
Theorem invoice_status_only_advances
    (num : Type) (companyProfile : option company_profiles.row)
    (db : Database num) (script : list (Server * Invoices.Action))
    (Hkeys : NoDup (map (@invoices.id num) (tbl_invoices db))) :
  let db' := fst (Invoices.session companyProfile db [] script) in
  StatusOnlyAdvances db db' /\
  (forall r r',
      In (r, r') (combine (tbl_invoices db) (tbl_invoices db')) ->
      (invoices.status r = Paid -> invoices.status r' = Paid) /\
      (invoices.status r = Overdue -> invoices.status r' = Overdue) /\
      (invoices.status r' = Draft -> invoices.status r = Draft)).
Proof.
  intro db'.
  assert (Hadv : StatusOnlyAdvances db db').
  { apply Invoices_session_advances. split; [exact Hkeys | split].
    - constructor.
    - intros s r []. }
  split; [exact Hadv |].
  destruct Hadv as [Hall _]. intros r r' Hin.
  assert (Hstep : advances (invoices.status r) (invoices.status r')).
  { clear - Hall Hin. revert Hin.
    induction Hall as [| x x' rows rows' [_ Hx] _ IH]; cbn; intro Hin;
      [destruct Hin |].
    destruct Hin as [Heq | Hin]; [| now apply IH].
    injection Heq as <- <-. exact Hx. }
  unfold advances in Hstep.
  destruct (invoices.status r), (invoices.status r');
    intuition (try discriminate; auto).
Qed.

(** The list of [Scenario.db]: the Draft invoice marked as sent, then
    as paid, with a try on the Sent one. *)
Lemma invoice_status_only_advances_witness :
  let script :=
    [(Scenario.server, Invoices.Mount);
     (Scenario.server, Invoices.MarkAsSent 0);
     (Scenario.server, Invoices.MarkAsSent 1);
     (Scenario.server, Invoices.MarkAsPaid 0);
     (Scenario.server, Invoices.MarkAsPaid 1)] in
  StatusOnlyAdvances (Scenario.db (num:=float))
    (fst (Invoices.session (Some Scenario.profile) Scenario.db [] script)).
Proof.
  intro script.
  refine (proj1 (@invoice_status_only_advances float (Some Scenario.profile)
                   Scenario.db script _)).
  cbn. repeat constructor; cbn; intuition discriminate.
Defined.

(** X13.  Once "Mark as Sent" or "Mark as Paid" has got through, the
    invoice counts as a sale: it is, with its new status, among the
    invoices the Profit & Loss report sums for every period that holds
    its date. *)
Theorem marked_invoice_is_a_sale
    (num : Type) (profile : company_profiles.row) (srv : Server)
    (db : Database num) (st : Invoices.State) (invoice : invoices.row num)
    (status : InvoiceStatus) (startDate endDate : date)
    (Hmarked : status = Sent \/ status = Paid)
    (Hthrough : accepts srv 0 = true)
    (Hstored : In invoice (tbl_invoices db))
    (Hcompany : invoices.company_id invoice = company_profiles.id profile)
    (Hperiod : inRange startDate endDate (invoices.invoice_date invoice) = true) :
  let '(db', _, _) :=
    Invoices.updateInvoiceStatus (Some profile) srv db st
      (invoices.id invoice) status in
  In (Invoices.statusPatch status invoice)
     (ProfitLossReport.salesData (company_profiles.id profile)
        startDate endDate db').
Proof.
  unfold Invoices.updateInvoiceStatus, request. rewrite Hthrough.
  unfold ProfitLossReport.salesData. cbn [tbl_invoices with_invoices].
  apply filter_In. split.
  - unfold updateWhere. apply in_map_iff. exists invoice. split; [| exact Hstored].
    unfold Invoices.isInvoice.
    now rewrite Hcompany, !String.eqb_refl.
  - cbn. rewrite Hcompany, String.eqb_refl, Hperiod.
    destruct Hmarked as [-> | ->]; reflexivity.
Qed.

(** The Draft invoice of [Scenario.db], marked as sent, in June 2025. *)
Lemma marked_invoice_is_a_sale_witness :
  let draft := Scenario.stored (num:=float) "inv-2"%string Draft (nlit 9999) in
  let '(db', _, _) :=
    Invoices.updateInvoiceStatus (Some Scenario.profile) Scenario.server
      Scenario.db [] "inv-2"%string Sent in
  In (Invoices.statusPatch Sent draft)
     (ProfitLossReport.salesData "co-1"%string "2025-06-01"%string
        "2025-06-30"%string db').
Proof.
  exact (@marked_invoice_is_a_sale float Scenario.profile Scenario.server
           Scenario.db [] (Scenario.stored "inv-2"%string Draft (nlit 9999))
           Sent
           "2025-06-01"%string "2025-06-30"%string
           (or_introl eq_refl) eq_refl (or_intror (or_introl eq_refl))
           eq_refl eq_refl).
Defined.

(** ** The period of the reports *)

Section PeriodFacts.
Import MonthNavigation.

Lemma monthOf_index (index : Z) :
  (year (startDate (monthOf index)) * 12 + month (startDate (monthOf index))
   = index)%Z /\
  (year (endDate (monthOf index)) * 12 + month (endDate (monthOf index))
   = index)%Z.
Proof.
  cbn. pose proof (Z.div_mod index 12 ltac:(discriminate)) as Hdiv. lia.
Qed.

Lemma previousMonth_monthOf (index : Z) :
  previousMonth (monthOf index) = monthOf (index - 1).
Proof.
  destruct (monthOf_index index) as [Hs He].
  unfold previousMonth, subMonths, addMonths, startOfMonth, endOfMonth.
  cbn [year month day]. rewrite Hs, He.
  replace (index + - (1))%Z with (index - 1)%Z by lia. reflexivity.
Qed.

Lemma nextMonth_monthOf (index : Z) :
  nextMonth (monthOf index) = monthOf (index + 1).
Proof.
  destruct (monthOf_index index) as [Hs He].
  unfold nextMonth, addMonths, startOfMonth, endOfMonth.
  cbn [year month day]. rewrite Hs, He. reflexivity.
Qed.

Lemma initialState_monthOf (today : Date) :
  (0 <= month today < 12)%Z ->
  initialState today = monthOf (year today * 12 + month today).
Proof.
  intro Hmonth. unfold initialState, monthOf, startOfMonth, endOfMonth.
  assert (Hy : ((year today * 12 + month today) / 12 = year today)%Z)
    by (symmetry; apply (Z.div_unique _ 12 _ (month today)); lia).
  assert (Hm : ((year today * 12 + month today) mod 12 = month today)%Z)
    by (symmetry; apply (Z.mod_unique _ 12 (year today)); lia).
  cbv zeta. now rewrite Hy, Hm.
Qed.

Lemma navigate_monthOf (clicks : list bool) :
  forall index n,
    fold_left (fun s (next : bool) => if next then nextMonth s else previousMonth s)
      clicks (monthOf (index + n))
    = monthOf
        (index
         + fold_left (fun k (next : bool) => if next then (k + 1)%Z else (k - 1)%Z)
             clicks n).
Proof.
  induction clicks as [| next clicks IH]; intros index n; [reflexivity |].
  cbn [fold_left]. destruct next.
  - rewrite nextMonth_monthOf.
    replace (index + n + 1)%Z with (index + (n + 1))%Z by lia. apply IH.
  - rewrite previousMonth_monthOf.
    replace (index + n - 1)%Z with (index + (n - 1))%Z by lia. apply IH.
Qed.
End PeriodFacts.

(** X14.  The period of a report is always one whole calendar month.
    A report opened on [today] and moved with Previous and Next shows
    the month of [today] shifted by the number of Next pressed less the
    number of Previous: from the first day of that month to its last
    (28, 29, 30 or 31).  Previous undoes Next and Next undoes
    Previous. *)
Theorem report_period_is_a_calendar_month
    (today : MonthNavigation.Date) (clicks : list bool)
    (Hmonth : (0 <= MonthNavigation.month today < 12)%Z) :
  let st := navigate (MonthNavigation.initialState today) clicks in
  st = monthOf (MonthNavigation.year today * 12 + MonthNavigation.month today
                + offset clicks) /\
  MonthNavigation.nextMonth (MonthNavigation.previousMonth st) = st /\
  MonthNavigation.previousMonth (MonthNavigation.nextMonth st) = st.
Proof.
  intro st.
  assert (Hst : st = monthOf (MonthNavigation.year today * 12
                              + MonthNavigation.month today + offset clicks)).
  { subst st. unfold navigate, offset. rewrite (initialState_monthOf _ Hmonth).
    rewrite <- (Z.add_0_r (MonthNavigation.year today * 12
                           + MonthNavigation.month today)) at 1.
    apply navigate_monthOf. }
  split; [exact Hst | rewrite Hst; split].
  - rewrite previousMonth_monthOf, nextMonth_monthOf. f_equal. lia.
  - rewrite nextMonth_monthOf, previousMonth_monthOf. f_equal. lia.
Qed.

(** A report opened on 31 March 2024 and moved back once: February
    2024, a leap February. *)
Lemma report_period_is_a_calendar_month_witness :
  let today :=
    {| MonthNavigation.year := 2024; MonthNavigation.month := 2;
       MonthNavigation.day := 31 |} in
  navigate (MonthNavigation.initialState today) [false]
  = {| MonthNavigation.startDate :=
         {| MonthNavigation.year := 2024; MonthNavigation.month := 1;
            MonthNavigation.day := 1 |};
       MonthNavigation.endDate :=
         {| MonthNavigation.year := 2024; MonthNavigation.month := 1;
            MonthNavigation.day := 29 |} |}.
Proof.
  intro today.
  refine (proj1 (@report_period_is_a_calendar_month today [false] _)).
  split; [discriminate | reflexivity].
Defined.

(** ** The two reports side by side *)

Section ReportsAgree.
Local Open Scope num_scope.

Lemma Dec_fold_shift {A} (f : A -> Qc) (xs : list A) :
  forall a b : Qc,
    fold_left (fun sum x => sum + f x) xs (a + b)
    = a + fold_left (fun sum x => sum + f x) xs b.
Proof.
  induction xs as [| x xs IH]; intros a b; [reflexivity |].
  cbn [fold_left]. rewrite <- IH. f_equal. cbn. ring.
Qed.

Lemma Dec_reduceSum_cons {A} (f : A -> Qc) (x : A) (xs : list A) :
  reduceSum f (x :: xs) = f x + reduceSum f xs.
Proof.
  unfold reduceSum. cbn [fold_left].
  rewrite <- Dec_fold_shift. f_equal. cbn. ring.
Qed.

(** A sum over the rows that pass one of two tests no row passes
    both of. *)
Lemma Dec_reduceSum_filter_or {A} (f : A -> Qc) (p q : A -> bool)
    (xs : list A) :
  (forall x, In x xs -> p x = true -> q x = true -> False) ->
  reduceSum f (filter (fun x => p x || q x)%bool xs)
  = reduceSum f (filter p xs) + reduceSum f (filter q xs).
Proof.
  induction xs as [| x xs IH]; intro Hapart.
  - cbn. unfold reduceSum. cbn. symmetry. apply Dec_add_0_r.
  - assert (IH' := IH (fun y Hy => Hapart y (or_intror Hy))).
    pose proof (Hapart x (or_introl eq_refl)) as Hx.
    cbn [filter]. destruct (p x) eqn:Hp, (q x) eqn:Hq; cbn [orb].
    + now contradiction Hx.
    + rewrite !Dec_reduceSum_cons, IH'. cbn. ring.
    + rewrite !Dec_reduceSum_cons, IH'. cbn. ring.
    + exact IH'.
Qed.

(** The per-account totals add up to the total over the expenses
    booked on one of the accounts. *)
Lemma Dec_sum_by_account (f : expenses.row Qc -> Qc)
    (p : accounts.row -> expenses.row Qc -> bool)
    (exps : list (expenses.row Qc)) :
  (forall a e, p a e = true -> expenses.expense_account_id e = accounts.id a) ->
  forall accs : list accounts.row,
    NoDup (map accounts.id accs) ->
    reduceSum (fun a => reduceSum f (filter (p a) exps)) accs
    = reduceSum f (filter (fun e => existsb (fun a => p a e) accs) exps).
Proof.
  intros Hkey accs. induction accs as [| a accs IH]; intro Hnd.
  - cbn [existsb]. rewrite filter_none by reflexivity. reflexivity.
  - cbn [map] in Hnd. apply NoDup_cons_iff in Hnd. destruct Hnd as [Hnotin Hnd].
    rewrite Dec_reduceSum_cons, (IH Hnd). cbn [existsb].
    symmetry. apply Dec_reduceSum_filter_or.
    intros e _ Hp Hq. apply existsb_exists in Hq. destruct Hq as [b [Hb Hpb]].
    apply Hnotin. rewrite <- (Hkey a e Hp), (Hkey b e Hpb). now apply in_map.
Qed.

Lemma existsb_none {A} (p : A -> bool) (xs : list A) :
  (forall x, p x = false) -> existsb p xs = false.
Proof.
  intro Hnone. induction xs as [| x xs IH]; [reflexivity |].
  cbn. now rewrite Hnone, IH.
Qed.

Lemma taxableValue_addInvoice {num} `{Number num} (db : Database num)
    (invs : list (invoices.row num)) :
  forall acc : GSTReport.sales.t num,
    GSTReport.sales.taxableValue (fold_left (GSTReport.addInvoice db) invs acc)
    = fold_left (fun sum r => sum + orZero (invoices.sub_total_amount r)) invs
        (GSTReport.sales.taxableValue acc).
Proof.
  induction invs as [| inv invs IH]; intro acc; [reflexivity |].
  cbn [fold_left]. rewrite IH. unfold GSTReport.addInvoice.
  now rewrite fold_addItem.
Qed.
(** Rows that pass one of two tests no row passes both of. *)
Lemma filter_or_perm {A} (p q : A -> bool) (xs : list A) :
  (forall x, In x xs -> p x = true -> q x = true -> False) ->
  Permutation (filter (fun x => p x || q x)%bool xs)
    (filter p xs ++ filter q xs).
Proof.
  induction xs as [| x xs IH]; intro Hapart; [reflexivity |].
  assert (IH' := IH (fun y Hy => Hapart y (or_intror Hy))).
  pose proof (Hapart x (or_introl eq_refl)) as Hx.
  cbn [filter]. destruct (p x) eqn:Hp, (q x) eqn:Hq; cbn [orb].
  - now contradiction Hx.
  - cbn [app]. now apply perm_skip.
  - rewrite IH'. apply Permutation_middle.
  - exact IH'.
Qed.

(** The rows taken account by account are the rows booked on one of
    the accounts. *)
Lemma rows_by_account {A} (key : A -> uuid)
    (p : accounts.row -> A -> bool) (rows : list A) :
  (forall a x, p a x = true -> key x = accounts.id a) ->
  forall accs : list accounts.row,
    NoDup (map accounts.id accs) ->
    Permutation (flat_map (fun a => filter (p a) rows) accs)
      (filter (fun x => existsb (fun a => p a x) accs) rows).
Proof.
  intros Hkey accs. induction accs as [| a accs IH]; intro Hnd.
  - cbn [existsb flat_map]. now rewrite filter_none.
  - cbn [map] in Hnd. apply NoDup_cons_iff in Hnd. destruct Hnd as [Hnotin Hnd].
    cbn [flat_map existsb]. rewrite (IH Hnd). symmetry. apply filter_or_perm.
    intros x _ Hp Hq. apply existsb_exists in Hq. destruct Hq as [b [Hb Hpb]].
    apply Hnotin. rewrite <- (Hkey a x Hp), (Hkey b x Hpb). now apply in_map.
Qed.

(** In exact arithmetic the sum does not depend on the order, and the
    sum of the sums of the parts is the sum of the whole. *)
Lemma Dec_amountsOf_cons (x : expenses.row Qc) (rows : list (expenses.row Qc)) :
  amountsOf (x :: rows) = orZero (expenses.amount_before_gst x) + amountsOf rows.
Proof.
  exact (Dec_reduceSum_cons (fun x => orZero (expenses.amount_before_gst x))
           x rows).
Qed.

Lemma Dec_amountsOf_perm (rows rows' : list (expenses.row Qc)) :
  Permutation rows rows' -> amountsOf rows = amountsOf rows'.
Proof.
  induction 1 as [| x l l' _ IH | x y l | l l' l'' _ IH1 _ IH2].
  - reflexivity.
  - now rewrite !Dec_amountsOf_cons, IH.
  - rewrite !Dec_amountsOf_cons. cbn. ring.
  - now rewrite IH1.
Qed.

Lemma Dec_amountsOf_app (rows rows' : list (expenses.row Qc)) :
  amountsOf (rows ++ rows') = amountsOf rows + amountsOf rows'.
Proof.
  induction rows as [| x rows IH].
  - cbn [app]. symmetry. apply Dec_add_0_l.
  - cbn [app]. rewrite !Dec_amountsOf_cons, IH. cbn. ring.
Qed.

Lemma Dec_amountsOf_flat_map {A} (f : A -> list (expenses.row Qc))
    (xs : list A) :
  amountsOf (flat_map f xs)
  = fold_left (fun sum a => sum + orZero (amountsOf (f a))) xs (nlit 0).
Proof.
  change (amountsOf (flat_map f xs)
          = reduceSum (fun a => orZero (amountsOf (f a))) xs).
  induction xs as [| x xs IH]; [reflexivity |].
  cbn [flat_map]. rewrite Dec_amountsOf_app, Dec_reduceSum_cons, IH.
  now rewrite Dec_orZero.
Qed.

(** What two loaded reports of the same days have in common. *)
Lemma loaded_count_the_same {num} `{Number num}
    (profile : company_profiles.row) (first last : MonthNavigation.Date)
    (srv srv' : Server) (db : Database num)
    (st : ProfitLossReport.State num) (summary : GSTReport.GSTSummary num) :
  isDate first = true -> isDate last = true -> Dated db = true ->
  snd (ProfitLossReport.fetchReportData (Some profile)
         (MonthNavigation.format first) (MonthNavigation.format last)
         srv db st) = Done ->
  snd (GSTReport.fetchGSTData (Some profile)
         (MonthNavigation.format first) (MonthNavigation.format last)
         srv' db summary) = Done ->
  CountTheSame (company_profiles.id profile) first last db
    (fst (ProfitLossReport.fetchReportData (Some profile)
            (MonthNavigation.format first) (MonthNavigation.format last)
            srv db st))
    (fst (GSTReport.fetchGSTData (Some profile)
            (MonthNavigation.format first) (MonthNavigation.format last)
            srv' db summary)).
Proof.
  intros Hfirst Hlast Hdated Hreport Hsummary.
  unfold ProfitLossReport.fetchReportData, GSTReport.fetchGSTData in *.
  destruct (accepts srv 0); [| discriminate Hreport]. cbn [negb] in *.
  destruct (accepts srv 1 && _)%bool; [| discriminate Hreport].
  destruct (accepts srv' 0 && accepts srv' 1)%bool; [| discriminate Hsummary].
  cbn [negb fst]. unfold CountTheSame.
  cbn [ProfitLossReport.totalSales ProfitLossReport.expensesByAccount
       GSTReport.sales GSTReport.purchases].
  set (company := company_profiles.id profile).
  rewrite map_map. cbn [ProfitLossReport.account
                         ProfitLossReport.accountSummary].
  rewrite map_id.
  set (accs := ProfitLossReport.expenseAccounts company db).
  assert (Hperm : Permutation accs
                    (filter (isExpenseAccount company) (tbl_accounts db)))
    by apply orderBy_perm.
  repeat match goal with |- _ /\ _ => split end.
  - unfold GSTReport.salesSummary. rewrite taxableValue_addInvoice.
    reflexivity.
  - unfold ProfitLossReport.totalExpenses.
    cbn [ProfitLossReport.expensesByAccount].
    rewrite reduceSum_map. apply reduceSum_ext. intro a.
    cbn [ProfitLossReport.total ProfitLossReport.accountSummary].
    rewrite accountExpenses_isPurchase by assumption. reflexivity.
  - unfold GSTReport.purchasesSummary. rewrite fold_addExpense.
    cbn [GSTReport.purchases.taxableValue].
    rewrite expensesInPeriod_isPurchase by assumption. reflexivity.
  - intros Hnd Hbooked.
    rewrite (@rows_by_account _ (@expenses.expense_account_id num)
               (fun a x =>
                  isPurchase company first last x &&
                  String.eqb (expenses.expense_account_id x) (accounts.id a))%bool
               (tbl_expenses db)).
    + erewrite filter_ext_in; [reflexivity |].
      intros x Hx. cbn beta.
      destruct (isPurchase company first last x) eqn:Hin.
      * apply existsb_exists.
        destruct (Hbooked x Hx Hin) as [a [Ha [Hid Hacc]]].
        exists a. split.
        -- apply (Permutation_in _ (Permutation_sym Hperm)).
           apply filter_In. now split.
        -- rewrite Hid, String.eqb_refl. reflexivity.
      * now apply existsb_none.
    + intros a x Hp. apply andb_true_iff in Hp. destruct Hp as [_ Hp].
      now apply String.eqb_eq in Hp.
    + apply (Permutation_NoDup
               (Permutation_map accounts.id (Permutation_sym Hperm))).
      now apply NoDup_key_filter.
Qed.
End ReportsAgree.

(** X15.  A Profit & Loss report and a GST summary that load for the
    same company and the same days from the same tables count the
    same rows, in every arithmetic: the total sales of the first are
    the taxable value of the sales of the second with [|| 0] applied
    once more; the total expenses of the first are summed account by
    account, the taxable value of the purchases of the second in the
    order of the table; and when the accounts have distinct
    identifiers and every expense of the company in those days is
    booked on an Expense account of the company, the expenses summed
    are the same, each as often, in another order.  In exact
    arithmetic the two totals of sales and the two totals of expenses
    are then equal.  In binary64 the order counts: with a tenth
    booked on one account and two and three tenths on another, the
    Profit & Loss report has expenses of 0.6 and the GST summary
    purchases of 0.6000000000000001, where exactly both have 3/5. *)
Theorem reports_count_the_same_rows :
  (forall (num : Type) (N : Number num) (profile : company_profiles.row)
          (first last : MonthNavigation.Date) (srv srv' : Server)
          (db : Database num) (st : ProfitLossReport.State num)
          (summary : GSTReport.GSTSummary num),
      isDate first = true -> isDate last = true -> Dated db = true ->
      snd (ProfitLossReport.fetchReportData (Some profile)
             (MonthNavigation.format first) (MonthNavigation.format last)
             srv db st) = Done ->
      snd (GSTReport.fetchGSTData (Some profile)
             (MonthNavigation.format first) (MonthNavigation.format last)
             srv' db summary) = Done ->
      CountTheSame (company_profiles.id profile) first last db
        (fst (ProfitLossReport.fetchReportData (Some profile)
                (MonthNavigation.format first) (MonthNavigation.format last)
                srv db st))
        (fst (GSTReport.fetchGSTData (Some profile)
                (MonthNavigation.format first) (MonthNavigation.format last)
                srv' db summary))) /\
  (forall (profile : company_profiles.row)
          (first last : MonthNavigation.Date) (srv srv' : Server)
          (db : Database Qc) (st : ProfitLossReport.State Qc)
          (summary : GSTReport.GSTSummary Qc),
      isDate first = true -> isDate last = true -> Dated db = true ->
      snd (ProfitLossReport.fetchReportData (Some profile)
             (MonthNavigation.format first) (MonthNavigation.format last)
             srv db st) = Done ->
      snd (GSTReport.fetchGSTData (Some profile)
             (MonthNavigation.format first) (MonthNavigation.format last)
             srv' db summary) = Done ->
      let report :=
        fst (ProfitLossReport.fetchReportData (Some profile)
               (MonthNavigation.format first) (MonthNavigation.format last)
               srv db st) in
      let gst :=
        fst (GSTReport.fetchGSTData (Some profile)
               (MonthNavigation.format first) (MonthNavigation.format last)
               srv' db summary) in
      ProfitLossReport.totalSales report
      = GSTReport.sales.taxableValue (GSTReport.sales gst) /\
      (NoDup (map accounts.id (tbl_accounts db)) ->
       BookedOnExpenseAccounts (company_profiles.id profile) first last db ->
       ProfitLossReport.totalExpenses report
       = GSTReport.purchases.taxableValue (GSTReport.purchases gst))) /\
  tenthsTotals float = (0.6%float, 0.6000000000000001%float) /\
  tenthsTotals Qc = (Dec.dec 6 1, Dec.dec 6 1).
Proof.
  repeat match goal with |- _ /\ _ => split end.
  - intros num N profile first last srv srv' db st summary
      Hfirst Hlast Hdated Hreport Hsummary.
    now apply loaded_count_the_same.
  - intros profile first last srv srv' db st summary
      Hfirst Hlast Hdated Hreport Hsummary report gst.
    destruct (@loaded_count_the_same _ _ profile first last srv srv' db st
                summary Hfirst Hlast Hdated Hreport Hsummary)
      as [Hsales [Hlines [Hbought Hrows]]].
    fold report gst in Hsales, Hlines, Hbought, Hrows.
    split.
    + rewrite Hsales. apply Dec_orZero.
    + intros Hnd Hbooked. rewrite Hlines, Hbought.
      rewrite <- (Dec_amountsOf_perm (Hrows Hnd Hbooked)).
      generalize (map ProfitLossReport.account
                    (ProfitLossReport.expensesByAccount report)).
      intro lines. symmetry. apply Dec_amountsOf_flat_map.
  - vm_compute. reflexivity.
  - unfold tenthsTotals. cbn. f_equal; dec_eq.
Qed.

(** The two reports of June 2025 on [Scenario.around], in binary64:
    the purchase of 800 and the purchase of 500 of 30 June, line by
    line and in the order of the table. *)
Lemma reports_count_the_same_rows_witness :
  CountTheSame (num:=float) "co-1"%string june1 june30 Scenario.around
    (fst (ProfitLossReport.fetchReportData (Some Scenario.profile)
            (MonthNavigation.format june1) (MonthNavigation.format june30)
            Scenario.server Scenario.around
            {| ProfitLossReport.totalSales := nlit 0;
               ProfitLossReport.expensesByAccount := [] |}))
    (fst (GSTReport.fetchGSTData (Some Scenario.profile)
            (MonthNavigation.format june1) (MonthNavigation.format june30)
            Scenario.server Scenario.around blankSummary)).
Proof.
  exact (proj1 reports_count_the_same_rows float _ Scenario.profile
           june1 june30 Scenario.server Scenario.server Scenario.around
           {| ProfitLossReport.totalSales := nlit 0;
              ProfitLossReport.expensesByAccount := [] |}
           blankSummary eq_refl eq_refl eq_refl eq_refl eq_refl).
Defined.

(** Without the condition on the accounts the two differ: once the
    account "Rent" is an Asset account, the purchase of 800 booked on
    it is in the GST summary and in no line of the Profit & Loss
    report. *)
Example reports_differ_on_other_account :
  let db : Database Qc :=
    with_expenses
      (with_accounts Scenario.db
         [Scenario.account "acc-3" "Rent" Asset false])
      [Scenario.purchase "exp-1"%string "acc-3"%string (nlit 800) (nlit 20) (nlit 20)
         (nlit 0)] in
  let report :=
    fst (ProfitLossReport.fetchReportData (Some Scenario.profile)
           "2025-06-01"%string "2025-06-30"%string Scenario.server db
           {| ProfitLossReport.totalSales := nlit 0;
              ProfitLossReport.expensesByAccount := [] |}) in
  ProfitLossReport.totalExpenses report = nlit 0 /\
  GSTReport.purchases.taxableValue
    (GSTReport.purchasesSummary "co-1"%string
       "2025-06-01"%string "2025-06-30"%string db) = nlit 800.
Proof. split; dec_eq. Qed.

(** ** Accounts that expenses are booked on *)

Section UsedAccounts.
Context {num : Type}.
Import ChartOfAccounts.

Lemma inUse_same (db db' : Database num) (a a' : accounts.row) :
  tbl_expenses db' = tbl_expenses db -> accounts.id a' = accounts.id a ->
  inUse db' a' = inUse db a.
Proof. intros Hexp Hid. unfold inUse. now rewrite Hexp, Hid. Qed.

Lemma deleteAccount_keeps_used
    (companyProfile : option company_profiles.row) (confirmed : bool)
    (srv : Server) (db : Database num) (st : State) (id : uuid)
    (a : accounts.row) :
  In a (tbl_accounts db) -> inUse db a = true ->
  let '(db', _, _) := deleteAccount companyProfile confirmed srv db st id in
  In a (tbl_accounts db') /\ tbl_expenses db' = tbl_expenses db.
Proof.
  intros Ha Hused. unfold deleteAccount.
  destruct companyProfile as [profile |]; [| now split].
  destruct confirmed; cbn [negb]; [| now split].
  destruct (accepts srv 0); cbn [negb]; [| now split].
  destruct (existsb _ (tbl_accounts db)) eqn:Hfk; [now split |].
  split; [| reflexivity]. cbn [tbl_accounts with_accounts].
  unfold deleteWhere. apply filter_In. split; [exact Ha |].
  apply negb_true_iff. apply not_true_is_false. intro Hdoomed.
  apply not_true_iff_false in Hfk. apply Hfk.
  apply existsb_exists. exists a. split; [exact Ha |].
  now rewrite Hdoomed, Hused.
Qed.

Lemma onSubmit_keeps_used
    (companyProfile : option company_profiles.row)
    (srv : Server) (db : Database num) (st : State) (data : FormValues)
    (a : accounts.row) :
  In a (tbl_accounts db) ->
  let '(db', _, _) := onSubmit companyProfile srv db st data in
  (exists a', In a' (tbl_accounts db') /\ accounts.id a' = accounts.id a) /\
  tbl_expenses db' = tbl_expenses db.
Proof.
  intros Ha. unfold onSubmit.
  destruct companyProfile as [profile |]; [| split; [now exists a | reflexivity]].
  destruct (editingAccount st) as [editing |];
    unfold request; destruct (accepts srv 0); cbn [option_map];
    try (split; [now exists a | reflexivity]).
  - split; [| reflexivity]. cbn [tbl_accounts with_accounts].
    set (p := isAccount (accounts.id editing) (company_profiles.id profile)).
    exists (if p a then updatePatch data a else a). split.
    + unfold updateWhere.
      now apply (in_map (fun r => if p r then updatePatch data r else r)).
    + now destruct (p a).
  - destruct (insertRows accounts.id _ (tbl_accounts db)) as [rows |] eqn:Hins;
      cbn [option_map]; [| split; [now exists a | reflexivity]].
    apply insertRows_one in Hins. destruct Hins as [-> _].
    split; [| reflexivity]. exists a. split; [| reflexivity].
    cbn [tbl_accounts with_accounts]. apply in_or_app. now left.
Qed.

Lemma act_keeps_used (companyProfile : option company_profiles.row)
    (srv : Server) (db : Database num) (st : State) (action : Action)
    (a : accounts.row) :
  In a (tbl_accounts db) -> inUse db a = true ->
  let '(db', _, _) := act companyProfile srv db st action in
  (exists a', In a' (tbl_accounts db') /\ accounts.id a' = accounts.id a) /\
  tbl_expenses db' = tbl_expenses db.
Proof.
  intros Ha Hused.
  assert (Hsame : (exists a', In a' (tbl_accounts db) /\
                              accounts.id a' = accounts.id a) /\
                  tbl_expenses db = tbl_expenses db)
    by (split; [now exists a | reflexivity]).
  destruct action as [| | k | k confirmed | | data]; cbn [act];
    try exact Hsame.
  - now destruct companyProfile.
  - destruct (nth_error (accounts st) k) as [account |]; [| exact Hsame].
    now destruct (accounts.is_default account).
  - destruct (nth_error (accounts st) k) as [account |]; [| exact Hsame].
    destruct (accounts.is_default account); [exact Hsame |].
    pose proof (@deleteAccount_keeps_used companyProfile confirmed srv db st
                  (accounts.id account) a Ha Hused) as Hstep.
    destruct (deleteAccount _ _ _ _ _ _) as [[db' st'] out].
    destruct Hstep as [Hin Hexp]. split; [now exists a | exact Hexp].
  - destruct (showModal st); [| exact Hsame].
    destruct (schema data); [| exact Hsame].
    now apply onSubmit_keeps_used.
Qed.
End UsedAccounts.

(** X16.  The accounts page never removes an account that an expense
    is booked on, and never touches the expenses.  Whatever the user
    does on the page and whatever the server answers, an account of
    the table that some expense refers to is still in the table
    afterwards, under the same identifier, and the table of expenses
    is as it was.  Deleting such an account, when it is the company's
    and not a default one and the request gets through, changes
    nothing and ends in the message that the account is being used by
    transactions. *)
Theorem used_account_is_kept
    (num : Type) (companyProfile : option company_profiles.row)
    (script : list (Server * ChartOfAccounts.Action))
    (db : Database num) (st : ChartOfAccounts.State) (a : accounts.row)
    (Hstored : In a (tbl_accounts db))
    (Hused : ChartOfAccounts.inUse db a = true) :
  let db' := fst (ChartOfAccounts.session companyProfile db st script) in
  (exists a', In a' (tbl_accounts db') /\ accounts.id a' = accounts.id a) /\
  tbl_expenses db' = tbl_expenses db /\
  (forall (profile : company_profiles.row) (srv : Server),
      accepts srv 0 = true ->
      accounts.company_id a = company_profiles.id profile ->
      accounts.is_default a = false ->
      ChartOfAccounts.deleteAccount (Some profile) true srv db st
        (accounts.id a)
      = (db, st,
         ToastError
           "Cannot delete account because it is being used by transactions")).
Proof.
  intro db'. subst db'.
  assert (Hsession :
    forall script (db : Database num) (st : ChartOfAccounts.State) a,
      In a (tbl_accounts db) -> ChartOfAccounts.inUse db a = true ->
      (exists a',
          In a' (tbl_accounts
                   (fst (ChartOfAccounts.session companyProfile db st script)))
          /\ accounts.id a' = accounts.id a) /\
      tbl_expenses (fst (ChartOfAccounts.session companyProfile db st script))
      = tbl_expenses db).
  { clear. intro script.
    induction script as [| [srv action] script IH]; intros db st a Ha Hused.
    - split; [now exists a | reflexivity].
    - cbn [ChartOfAccounts.session].
      pose proof (@act_keeps_used num companyProfile srv db st action a
                    Ha Hused) as Hstep.
      destruct (ChartOfAccounts.act companyProfile srv db st action)
        as [[db1 st1] out].
      destruct Hstep as [[a1 [Ha1 Hid1]] Hexp1].
      destruct (IH db1 st1 a1 Ha1) as [[a' [Ha' Hid']] Hexp'].
      + rewrite (@inUse_same _ db db1 a a1 Hexp1 Hid1). exact Hused.
      + split; [exists a'; split; [exact Ha' | congruence] | congruence]. }
  destruct (Hsession script db st a Hstored Hused) as [Hkept Hexp].
  split; [exact Hkept | split; [exact Hexp |]].
  intros profile srv Hthrough Hcompany Hdefault.
  unfold ChartOfAccounts.deleteAccount. cbn [negb]. rewrite Hthrough. cbn [negb].
  replace (existsb _ (tbl_accounts db)) with true; [reflexivity |].
  symmetry. apply existsb_exists. exists a. split; [exact Hstored |].
  unfold ChartOfAccounts.isAccount, Migration.deletePolicy.
  rewrite Hused, Hcompany, Hdefault, !String.eqb_refl. reflexivity.
Qed.

(** The purchase of [Scenario.db] booked on "Rent": the page is
    loaded and the Delete button of "Rent", the second row, is pressed
    and confirmed. *)
Lemma used_account_is_kept_witness :
  let db : Database float :=
    with_expenses Scenario.db
      [Scenario.purchase "exp-1"%string "acc-3"%string (nlit 800) (nlit 20)
         (nlit 20) (nlit 0)] in
  let db' :=
    fst (ChartOfAccounts.session (Some Scenario.profile) db
           ChartOfAccounts.initialState
           [(Scenario.server, ChartOfAccounts.Mount);
            (Scenario.server, ChartOfAccounts.DeleteRow 1 true)]) in
  (exists a', In a' (tbl_accounts db') /\ accounts.id a' = "acc-3"%string) /\
  tbl_expenses db' = tbl_expenses db.
Proof.
  intros db db'.
  destruct (@used_account_is_kept float (Some Scenario.profile)
              [(Scenario.server, ChartOfAccounts.Mount);
               (Scenario.server, ChartOfAccounts.DeleteRow 1 true)]
              db ChartOfAccounts.initialState
              (Scenario.account "acc-3" "Rent" Expense false))
    as [Hkept [Hexpenses _]].
  - right. right. left. reflexivity.
  - reflexivity.
  - split; [exact Hkept | exact Hexpenses].
Defined.

(** ** Products and services *)

Section ProductFacts.
Context {num : Type} `{Number num}.
Import ProductsServices.

(** What is stored from the form opened on a product is the product,
    but for an empty HSN/SAC code, stored as no code. *)
Lemma updatePatch_formOf (editing : products_services.row num) :
  products_services.hsn_sac_code editing <> Some ""%string ->
  updatePatch (formOf editing) editing = editing.
Proof.
  intro Hcode. destruct editing as [key company name code price rate].
  unfold updatePatch, formOf. cbn in *. f_equal.
  destruct code as [[| c s] |]; try reflexivity. now contradiction Hcode.
Qed.

Lemma onSubmit_formOf (profile : company_profiles.row)
    (editing : products_services.row num) (srv : Server)
    (table : list (products_services.row num)) :
  NoDup (map (@products_services.id num) table) ->
  In editing table ->
  products_services.hsn_sac_code editing <> Some ""%string ->
  fst (onSubmit (Some profile) (Some editing) srv table (formOf editing))
  = table.
Proof.
  intros Hunique Hstored Hcode. unfold onSubmit, request.
  destruct (accepts srv 0); [| reflexivity]. cbn [fst].
  unfold updateWhere. rewrite <- (map_id table) at 2.
  apply map_ext_in. intros r Hr.
  destruct (isProduct _ _ r) eqn:Hmatch; [| reflexivity].
  unfold isProduct in Hmatch. apply andb_true_iff in Hmatch.
  destruct Hmatch as [Hid _]. apply String.eqb_eq in Hid.
  rewrite (@NoDup_key_unique _ _ _ Hunique r editing Hr Hstored Hid).
  now apply updatePatch_formOf.
Qed.
End ProductFacts.

(** X17.  Saving the form of a product as it was opened changes
    nothing.  When the identifiers of the table are distinct and the
    form is opened on a product of the table whose HSN/SAC code is not
    the empty text, submitting it untouched leaves the table of
    products exactly as it was, whatever the server answers and
    whether or not the schema accepts the values. *)
Theorem product_resave_changes_nothing
    (num : Type) (N : Number num) (profile : company_profiles.row)
    (editing : products_services.row num) (srv : Server)
    (table : list (products_services.row num))
    (Hunique : NoDup (map (@products_services.id num) table))
    (Hstored : In editing table)
    (Hcode : products_services.hsn_sac_code editing <> Some ""%string) :
  fst (ProductsServices.onSubmit (Some profile) (Some editing) srv table
         (ProductsServices.formOf editing)) = table /\
  fst (ProductsServices.handleSubmit (Some profile) (Some editing) srv table
         (ProductsServices.formOf editing)) = table.
Proof.
  split; [now apply onSubmit_formOf |].
  unfold ProductsServices.handleSubmit.
  destruct (ProductsServices.schema _); [| reflexivity].
  now apply onSubmit_formOf.
Qed.

(** The catalogue of one product, opened and saved. *)
Lemma product_resave_changes_nothing_witness :
  fst (ProductsServices.onSubmit (Some Scenario.profile)
         (Some (sampleProduct (num:=float))) Scenario.server [sampleProduct]
         (ProductsServices.formOf sampleProduct)) = [sampleProduct] /\
  fst (ProductsServices.handleSubmit (Some Scenario.profile)
         (Some (sampleProduct (num:=float))) Scenario.server [sampleProduct]
         (ProductsServices.formOf sampleProduct)) = [sampleProduct].
Proof.
  apply (@product_resave_changes_nothing float _ Scenario.profile
           sampleProduct Scenario.server [sampleProduct]).
  - repeat constructor. intros [].
  - now left.
  - discriminate.
Defined.

(** A product stored with the empty text as its code comes back from
    the same form with no code. *)
Example product_resave_drops_empty_code :
  let stored : products_services.row float :=
    {| products_services.id := "prod-2"%string;
       products_services.company_id := "co-1"%string;
       products_services.item_name := "Delivery"%string;
       products_services.hsn_sac_code := Some ""%string;
       products_services.default_sale_price := nlit 100;
       products_services.default_gst_rate := nlit 5 |} in
  map (@products_services.hsn_sac_code float)
    (fst (ProductsServices.onSubmit (Some Scenario.profile) (Some stored)
            Scenario.server [stored] (ProductsServices.formOf stored)))
  = [None].
Proof. reflexivity. Qed.

(** ** A company whose default accounts were not created *)

Lemma filter_swap {A} (p q : A -> bool) (rows : list A) :
  filter p (filter q rows) = filter q (filter p rows).
Proof.
  induction rows as [| r rows IH]; [reflexivity |].
  cbn. destruct (p r) eqn:Hp, (q r) eqn:Hq; cbn; rewrite ?Hp, ?Hq, IH;
    reflexivity.
Qed.

(** X18.  [createCompanyProfile] does not look at the reply of
    [create_default_accounts].  When the profile is inserted and that
    call fails, the profile is returned as created, no account is
    added, the new company has no account at all, and nothing done
    afterwards on its accounts page gives it a default account. *)
Theorem company_left_without_accounts
    (num : Type) (user : uuid) (srv : Server) (db : Database num)
    (data : CompanyContext.ProfileData) (profile : company_profiles.row)
    (Hcreated :
       snd (CompanyContext.createCompanyProfile (Some user) srv db data)
       = Some profile)
    (Hfailed : accepts srv 1 = false)
    (Hfk : AccountsHaveCompany db)
    (Hunique : NoDup (map accounts.id (tbl_accounts db))) :
  let db' := fst (CompanyContext.createCompanyProfile (Some user) srv db data) in
  tbl_company_profiles db' = tbl_company_profiles db ++ [profile] /\
  tbl_accounts db' = tbl_accounts db /\
  accountsOf (company_profiles.id profile) db' = [] /\
  forall script : list (Server * ChartOfAccounts.Action),
    defaults
      (accountsOf (company_profiles.id profile)
         (fst (ChartOfAccounts.session (Some profile) db'
                 ChartOfAccounts.initialState script)))
    = [].
Proof.
  intro db'. subst db'. unfold CompanyContext.createCompanyProfile in *.
  unfold request in *. rewrite Hfailed in *.
  destruct (accepts srv 0); [| discriminate Hcreated].
  destruct (insertRows company_profiles.id _ (tbl_company_profiles db))
    as [profiles |] eqn:Hins; [| discriminate Hcreated].
  apply insertRows_one in Hins. destruct Hins as [-> Hfresh].
  cbn [snd] in Hcreated. injection Hcreated as <-.
  cbn [fst company_profiles.id tbl_accounts tbl_company_profiles
       with_company_profiles] in *.
  set (db1 := with_company_profiles db _).
  assert (Hnone : accountsOf (fresh srv 0) db1 = []).
  { unfold accountsOf. apply filter_none. intros a Ha.
    destruct (String.eqb _ _) eqn:Heq; [| reflexivity].
    exfalso. apply Hfresh. apply String.eqb_eq in Heq. rewrite <- Heq.
    now apply Hfk. }
  repeat split; [exact Hnone |].
  intro script.
  assert (Hcons : Consistent db1 ChartOfAccounts.initialState).
  { split; [exact Hunique | split]; cbn.
    - intros a [].
    - intros e He. discriminate He. }
  match goal with
  | |- context [ChartOfAccounts.session ?p db1 _ script] =>
      pose proof (@session_keeps_defaults _ p script _ _ Hcons) as Hkept
  end.
  unfold defaults, accountsOf in *. rewrite filter_swap, Hkept, filter_swap.
  now rewrite Hnone.
Qed.

(** A second company created on [Scenario.db] while the call for its
    default accounts fails. *)
Lemma company_left_without_accounts_witness :
  let data :=
    {| CompanyContext.company_name := "Second Company"%string;
       CompanyContext.company_address := None;
       CompanyContext.gstin := None;
       CompanyContext.logo_url := None;
       CompanyContext.fiscal_year_start_month := 0%Z |} in
  let db' :=
    fst (CompanyContext.createCompanyProfile (Some "user-2"%string)
           (serverFailingAt 1) (Scenario.db (num:=float)) data) in
  map company_profiles.id (tbl_company_profiles db')
  = ["co-1"%string; "A-new"%string] /\
  accountsOf "A-new"%string db' = [].
Proof.
  intros data db'.
  destruct (@company_left_without_accounts float "user-2"%string
              (serverFailingAt 1) Scenario.db data
              {| company_profiles.id := "A-new"%string;
                 company_profiles.user_id := "user-2"%string;
                 company_profiles.company_name := "Second Company"%string;
                 company_profiles.company_address := None;
                 company_profiles.gstin := None;
                 company_profiles.logo_url := None;
                 company_profiles.fiscal_year_start_month := 4%Z |}
              eq_refl eq_refl)
    as [Hprofiles [_ [Hnone _]]].
  - intros a Ha. cbn in *. intuition (subst; cbn; auto).
  - cbn. repeat constructor; cbn; intuition discriminate.
  - split; [| exact Hnone].
    exact (f_equal (map company_profiles.id) Hprofiles).
Defined.

(** ** A report whose load fails *)

(** X19.  What the two reports show after a load that did not end
    well.  The GST summary is set in one step: after a failed load it
    is the summary shown before.  The Profit & Loss report sets its
    total sales as soon as the sales are read: when the first request
    fails the report is as before, and when a later one fails it shows
    the sales of the period asked for beside the expense lines it
    showed before. *)
Theorem failed_load_of_a_report :
  forall (num : Type) (N : Number num) (profile : company_profiles.row)
         (startDate endDate : date) (srv : Server) (db : Database num),
    (forall summary : GSTReport.GSTSummary num,
        snd (GSTReport.fetchGSTData (Some profile) startDate endDate srv db
               summary) <> Done ->
        fst (GSTReport.fetchGSTData (Some profile) startDate endDate srv db
               summary) = summary) /\
    (forall st : ProfitLossReport.State num,
        snd (ProfitLossReport.fetchReportData (Some profile) startDate endDate
               srv db st) <> Done ->
        let st' :=
          fst (ProfitLossReport.fetchReportData (Some profile) startDate
                 endDate srv db st) in
        ProfitLossReport.expensesByAccount st'
        = ProfitLossReport.expensesByAccount st /\
        ProfitLossReport.totalSales st'
        = if accepts srv 0
          then orZero
                 (reduceSum (fun r => orZero (invoices.sub_total_amount r))
                    (ProfitLossReport.salesData (company_profiles.id profile)
                       startDate endDate db))
          else ProfitLossReport.totalSales st).
Proof.
  intros num N profile startDate endDate srv db. split.
  - intros summary Hfailed. unfold GSTReport.fetchGSTData in *.
    destruct (accepts srv 0 && accepts srv 1)%bool; [| reflexivity].
    now contradiction Hfailed.
  - intros st Hfailed st'. subst st'.
    unfold ProfitLossReport.fetchReportData in *.
    destruct (accepts srv 0); cbn [negb] in *; [| now split].
    destruct (accepts srv 1 && _)%bool; cbn [negb] in *; [| now split].
    now contradiction Hfailed.
Qed.

(** June 2025 shown, July 2025 asked for, and the request for the
    accounts fails: no sales of July beside the expense line of June,
    a net loss of 800 that is the figure of neither month. *)
Example failed_load_mixes_two_periods :
  let blank : ProfitLossReport.State float :=
    {| ProfitLossReport.totalSales := nlit 0;
       ProfitLossReport.expensesByAccount := [] |} in
  let june :=
    fst (ProfitLossReport.fetchReportData (Some Scenario.profile)
           "2025-06-01"%string "2025-06-30"%string Scenario.server Scenario.db
           blank) in
  let july :=
    fst (ProfitLossReport.fetchReportData (Some Scenario.profile)
           "2025-07-01"%string "2025-07-31"%string (serverFailingAt 1)
           Scenario.db june) in
  ProfitLossReport.netProfit june = (-300)%float /\
  ProfitLossReport.netProfit july = (-800)%float.
Proof. split; reflexivity. Qed.
